(** * Risk assessment engine (backend/tools.py, backend/main.py, backend/config.py)

    A shallow embedding of the four parts of the GuardianOps risk engine:
    service-name normalisation, downstream dependency analysis, business-impact
    evaluation and the score aggregation of the assess_risk endpoint.

    Python strings are modelled as ASCII strings, dictionaries whose iteration
    order matters as insertion-ordered association lists, Python sets of
    strings as [gset string], optional dictionary keys (read with
    [.get(key, default)]) as [option] fields, floats as primitive binary64
    floats, and exceptions as an explicit error result.  The set that
    [find_downstream] mutates is threaded through the recursion.

    Two library functions are parameters of the development: the fuzzy
    matcher [thefuzz.process.extractOne] and the parser
    [datetime.fromisoformat].  The calendar arithmetic and the "%b %d"
    formatting and parsing of Python's datetime module are modelled in
    [Datetime].

    [find_downstream] nests one Python frame per forward link it follows.
    The number of nested calls the interpreter allows is the argument
    [fuel] of the model: [analyze_with depth] is the analysis run under
    that limit, and [None] stands for the RecursionError raised when the
    limit is reached.  [analyze_service_dependencies] is the run under a
    limit that is never reached.

    Beside these, the development covers the change workflow of main.py
    (the defaults set at start-up, approve_change, reject_change,
    get_pending_approvals and two counts of get_analytics_data, over JSON
    objects) and the two tools that read
    the history, get_historical_recommendations and assess_technical_risk
    (the value drawn by [random.uniform] is a parameter). *)

From Stdlib Require Import ZArith String Ascii List Bool Lia Floats Sorted Permutation.
From stdpp Require Import gmap strings list pretty.

Local Open Scope string_scope.
Local Open Scope list_scope.

(** ** Python primitives: strings, sorting, dictionaries, exceptions *)

Module Py.

(** [c.lower()] on one ASCII character. *)
Definition lower_ascii (c : ascii) : ascii :=
  let n := nat_of_ascii c in
  if (65 <=? n)%nat && (n <=? 90)%nat then ascii_of_nat (n + 32) else c.

(** [s.lower()] *)
Fixpoint lower (s : string) : string :=
  match s with
  | EmptyString => EmptyString
  | String c rest => String (lower_ascii c) (lower rest)
  end.

(** The ASCII characters for which [str.isspace] holds. *)
Definition is_space (c : ascii) : bool :=
  let n := nat_of_ascii c in
  ((9 <=? n)%nat && (n <=? 13)%nat) || ((28 <=? n)%nat && (n <=? 32)%nat).

Fixpoint lstrip (s : string) : string :=
  match s with
  | EmptyString => EmptyString
  | String c rest => if is_space c then lstrip rest else s
  end.

(** Drops trailing white space: a character is kept when something
    non-blank follows it or it is itself non-blank. *)
Fixpoint rstrip (s : string) : string :=
  match s with
  | EmptyString => EmptyString
  | String c rest =>
      match rstrip rest with
      | EmptyString => if is_space c then EmptyString else String c EmptyString
      | kept => String c kept
      end
  end.

(** [s.strip()] *)
Definition strip (s : string) : string := rstrip (lstrip s).

(** Truthiness of a string: [if s] holds for every non-empty string. *)
Definition truthy (s : string) : bool := negb (String.eqb s "").

(** [sub in s] on strings: [sub] occurs in [s] as a contiguous substring. *)
Fixpoint contains (sub s : string) : bool :=
  String.prefix sub s ||
  match s with
  | EmptyString => false
  | String _ rest => contains sub rest
  end.

(** [sep.join(parts)] *)
Fixpoint join (sep : string) (parts : list string) : string :=
  match parts with
  | [] => ""
  | [p] => p
  | p :: rest => p +:+ sep +:+ join sep rest
  end.

(** [sorted(l, key=...)]: a stable sort, here by insertion, for the order
    [leb] on the elements (or on their keys). *)
Section Sorted.
Context {A : Type} (leb : A -> A -> bool).

Fixpoint insert_sorted (x : A) (l : list A) : list A :=
  match l with
  | [] => [x]
  | y :: ys => if leb x y then x :: y :: ys else y :: insert_sorted x ys
  end.

Fixpoint sorted (l : list A) : list A :=
  match l with
  | [] => []
  | x :: xs => insert_sorted x (sorted xs)
  end.
End Sorted.

(** [sorted(list(s))] for a set of strings. *)
Definition sorted_set (s : gset string) : list string :=
  sorted String.leb (elements s).

(** An insertion-ordered dictionary with string keys. *)
Definition dict (V : Type) : Type := list (string * V).

Fixpoint dict_get {V} (d : dict V) (k : string) : option V :=
  match d with
  | [] => None
  | (k', v) :: rest => if String.eqb k' k then Some v else dict_get rest k
  end.

(** [d[k] = v]: an existing key keeps its position, a new one goes last. *)
Fixpoint dict_set {V} (d : dict V) (k : string) (v : V) : dict V :=
  match d with
  | [] => [(k, v)]
  | (k', v') :: rest =>
      if String.eqb k' k then (k', v) :: rest else (k', v') :: dict_set rest k v
  end.

Definition dict_keys {V} (d : dict V) : list string := map fst d.
Definition dict_values {V} (d : dict V) : list V := map snd d.

(** The exceptions the engine can raise. *)
Inductive exn := ValueError | OverflowError.

Inductive result (A : Type) :=
| Ok (a : A)
| Raise (e : exn).
Arguments Ok {A} a.
Arguments Raise {A} e.

Global Instance exn_eq_dec : EqDecision exn.
Proof. solve_decision. Defined.

Global Instance result_eq_dec {A} `{EqDecision A} : EqDecision (result A).
Proof. solve_decision. Defined.

Definition bind {A B} (r : result A) (k : A -> result B) : result B :=
  match r with
  | Ok a => k a
  | Raise e => Raise e
  end.

End Py.

(** ** Floats (Python's float: IEEE 754 binary64)

    Python floats are the primitive binary64 floats; the arithmetic
    operators are the primitive ones, specified bit for bit by the
    standard library's [SpecFloat]. *)

Module PyFloat.

(** [min(a, b)] and [max(a, b)]: the first argument is kept unless the
    second is strictly smaller (respectively larger). *)
Definition min (a b : float) : float := if (b <? a)%float then b else a.
Definition max (a b : float) : float := if (a <? b)%float then b else a.

(** [num / den] rounded to the nearest integer, ties to even; [den > 0]. *)
Definition round_half_even (num den : Z) : Z :=
  let q := (num / den)%Z in
  let r := (num mod den)%Z in
  match (2 * r ?= den)%Z with
  | Lt => q
  | Gt => (q + 1)%Z
  | Eq => if Z.even q then q else (q + 1)%Z
  end.

(** The float nearest to [n / 10], with the given sign. *)
Definition tenths (negative : bool) (n : positive) : float :=
  SF2Prim (SFdiv prec emax (S754_finite negative n 0) (S754_finite false 10 0)).

(** [round(x, 1)]: the exact value of [x] is rounded to one decimal, ties
    to even, and the decimal is read back as the nearest float; infinities
    and NaN are returned as they are. *)
Definition round1 (x : float) : float :=
  match Prim2SF x with
  | S754_finite s m e =>
      let scaled :=
        if (0 <=? e)%Z then (Zpos m * 10 * 2 ^ e)%Z
        else round_half_even (Zpos m * 10) (2 ^ (- e)) in
      match scaled with
      | Zpos n => tenths s n
      | _ => SF2Prim (S754_zero s)
      end
  | _ => x
  end.

(** The conversion of an int operand in [int * float]: the nearest float,
    or OverflowError when the int is too large. *)
Definition of_int (z : Z) : Py.result float :=
  match binary_normalize prec emax z 0 false with
  | S754_infinity _ => Py.Raise Py.OverflowError
  | f => Py.Ok (SF2Prim f)
  end.

End PyFloat.

(** ** The dataset and the module-level tables of tools.py *)

(** One entry of [dataset['serviceDependencies']]. *)
Record ServiceInfo := {
  serviceName : string;
  directDependencies : option (list string);
  consumedBy : option (list string);
  criticalityScore : option Z
}.

(** One entry of [dataset['businessEvents']]. *)
Record BusinessEvent := {
  eventName : string;
  startDate : string;
  endDate : string;
  impactedSystems : list string;
  criticality : string;
  blackoutWindow : option bool
}.

Record Dataset := {
  serviceDependencies : list ServiceInfo;
  businessEvents : list BusinessEvent
}.

(** The globals set by [initialize_tools_data]. *)
Record ToolsData := {
  dataset : Dataset;
  dep_graph : Py.dict (list string);
  crit_map : Py.dict Z;
  aliases : gmap string string
}.

(** main.py, [startup_event]: the helper maps derived from the dataset. *)
Definition SERVICE_DEPENDENCIES_GRAPH (ds : Dataset) : Py.dict (list string) :=
  fold_left (fun g s => Py.dict_set g (serviceName s) (default [] (directDependencies s)))
            (serviceDependencies ds) [].

Definition SERVICE_CRITICALITY_MAP (ds : Dataset) : Py.dict Z :=
  fold_left (fun g s => Py.dict_set g (serviceName s) (default 50%Z (criticalityScore s)))
            (serviceDependencies ds) [].

Definition SERVICE_ALIASES : gmap string string :=
  list_to_map
    [ ("database server", "Database Server");
      ("api gateway", "API Gateway");
      ("authservice", "auth-service");
      ("paymentgateway", "payment-api");
      ("user database", "user-database");
      ("billing service", "billing-service");
      ("checkout ui", "checkout-ui");
      ("payment api", "payment-api");
      ("auth service", "auth-service") ].

Definition startup_event (ds : Dataset) : ToolsData :=
  {| dataset := ds;
     dep_graph := SERVICE_DEPENDENCIES_GRAPH ds;
     crit_map := SERVICE_CRITICALITY_MAP ds;
     aliases := SERVICE_ALIASES |}.

(** An entry of the display timeline, and an impact event: the
    dictionaries with the keys "date", "event" and "level". *)
Record TimelineEntry := {
  date : string;
  event : string;
  level : string
}.

Record BusinessImpact := {
  business_impact_level : string;
  overall_business_risk_score : Z;
  business_impact_timeline : list TimelineEntry;
  business_summary : string
}.

(** The fuzzy matcher [thefuzz.process.extractOne(query, choices,
    score_cutoff=85)] is a third-party function: it is a parameter of the
    development.  It returns the best choice and its score, or nothing when
    no choice reaches the cut-off. *)
Definition Matcher : Type := string -> list string -> option (string * Z).

(** The matcher that accepts a choice only when it is identical to the
    query (score 100); used to run the model on concrete directories whose
    names are far apart from one another. *)
Definition extractOne_exact : Matcher :=
  fun query choices =>
    if existsb (String.eqb query) choices then Some (query, 100%Z) else None.

(** ** Dates and times (Python's datetime module)

    Naive datetimes of the proleptic Gregorian calendar, with the ordinal
    arithmetic of CPython's datetime module: day 1 is 0001-01-01. *)

Module Datetime.

Local Open Scope Z_scope.

Record datetime := {
  year : Z; month : Z; day : Z;
  hour : Z; minute : Z; second : Z; microsecond : Z
}.

(** [datetime.date()]: year, month, day. *)
Definition pydate : Type := (Z * Z * Z)%type.

Definition date_of (dt : datetime) : pydate := (year dt, month dt, day dt).

Definition pydate_eqb (a b : pydate) : bool :=
  let '(y1, m1, d1) := a in
  let '(y2, m2, d2) := b in
  (y1 =? y2) && (m1 =? m2) && (d1 =? d2).

Global Instance datetime_eq_dec : EqDecision datetime.
Proof. solve_decision. Defined.

Definition is_leap (y : Z) : bool :=
  (y mod 4 =? 0) && (negb (y mod 100 =? 0) || (y mod 400 =? 0)).

Definition DAYS_IN_MONTH (m : Z) : Z :=
  nth (Z.to_nat m) [-1; 31; 28; 31; 30; 31; 30; 31; 31; 30; 31; 30; 31] 0.

Definition DAYS_BEFORE_MONTH (m : Z) : Z :=
  nth (Z.to_nat m) [-1; 0; 31; 59; 90; 120; 151; 181; 212; 243; 273; 304; 334] 0.

Definition days_before_year (y : Z) : Z :=
  let y' := y - 1 in y' * 365 + y' / 4 - y' / 100 + y' / 400.

Definition days_in_month (y m : Z) : Z :=
  if (m =? 2) && is_leap y then 29 else DAYS_IN_MONTH m.

Definition days_before_month (y m : Z) : Z :=
  DAYS_BEFORE_MONTH m + (if (2 <? m) && is_leap y then 1 else 0).

Definition ymd2ord (y m d : Z) : Z :=
  days_before_year y + days_before_month y m + d.

Definition DI400Y : Z := 146097.
Definition DI100Y : Z := 36524.
Definition DI4Y : Z := 1461.
Definition MAXORDINAL : Z := 3652059.

Definition ord2ymd (ordinal : Z) : pydate :=
  let n := ordinal - 1 in
  let n400 := n / DI400Y in
  let n := n mod DI400Y in
  let n100 := n / DI100Y in
  let n := n mod DI100Y in
  let n4 := n / DI4Y in
  let n := n mod DI4Y in
  let n1 := n / 365 in
  let n := n mod 365 in
  let y := n400 * 400 + 1 + n100 * 100 + n4 * 4 + n1 in
  if (n1 =? 4) || (n100 =? 4) then (y - 1, 12, 31)
  else
    let leapyear := (n1 =? 3) && (negb (n4 =? 24) || (n100 =? 3)) in
    let m := Z.shiftr (n + 50) 5 in
    let preceding := DAYS_BEFORE_MONTH m + (if (2 <? m) && leapyear then 1 else 0) in
    if n <? preceding then
      let m' := m - 1 in
      let preceding' :=
        preceding - (DAYS_IN_MONTH m' + (if (m' =? 2) && leapyear then 1 else 0)) in
      (y, m', n - preceding' + 1)
    else (y, m, n - preceding + 1).

Definition toordinal (dt : datetime) : Z := ymd2ord (year dt) (month dt) (day dt).

(** [dt.isoweekday()]: Monday is 1, Sunday is 7. *)
Definition isoweekday (dt : datetime) : Z :=
  let r := toordinal dt mod 7 in if r =? 0 then 7 else r.

(** The constructor's range check on the calendar date. *)
Definition valid_date (y m d : Z) : bool :=
  (1 <=? y) && (y <=? 9999) && (1 <=? m) && (m <=? 12)
  && (1 <=? d) && (d <=? days_in_month y m).

(** [dt + timedelta(days=days, seconds=seconds)] *)
Definition add_timedelta (dt : datetime) (days seconds : Z) : Py.result datetime :=
  let total :=
    hour dt * 3600 + minute dt * 60 + second dt + seconds in
  let delta_days := toordinal dt + days + total / 86400 in
  let delta_seconds := total mod 86400 in
  if (0 <? delta_days) && (delta_days <=? MAXORDINAL) then
    let '(y, m, d) := ord2ymd delta_days in
    Py.Ok {| year := y; month := m; day := d;
          hour := delta_seconds / 3600;
          minute := (delta_seconds mod 3600) / 60;
          second := (delta_seconds mod 3600) mod 60;
          microsecond := microsecond dt |}
  else Py.Raise Py.OverflowError.

Definition fields (dt : datetime) : list Z :=
  [year dt; month dt; day dt; hour dt; minute dt; second dt; microsecond dt].

Fixpoint lex_leb (a b : list Z) : bool :=
  match a, b with
  | x :: a', y :: b' => (x <? y) || ((x =? y) && lex_leb a' b')
  | [], _ => true
  | _ :: _, [] => false
  end.

(** [a <= b] on datetimes. *)
Definition leb (a b : datetime) : bool := lex_leb (fields a) (fields b).

Definition month_abbr (m : Z) : string :=
  nth (Z.to_nat m)
    [""; "Jan"; "Feb"; "Mar"; "Apr"; "May"; "Jun";
     "Jul"; "Aug"; "Sep"; "Oct"; "Nov"; "Dec"] "".

Definition digit_char (d : Z) : ascii := ascii_of_nat (48 + Z.to_nat d).

Definition two_digits (n : Z) : string :=
  String (digit_char (n / 10)) (String (digit_char (n mod 10)) EmptyString).

(** [dt.strftime("%b %d")], in the C locale: "Jan 05". *)
Definition strftime_b_d (dt : datetime) : string :=
  (month_abbr (month dt) ++ " " ++ two_digits (day dt))%string.

Definition digit_val (c : ascii) : option Z :=
  let n := nat_of_ascii c in
  if (48 <=? n)%nat && (n <=? 57)%nat then Some (Z.of_nat n - 48) else None.

(** A run of decimal digits of the given width. *)
Fixpoint digits (width : nat) (s : list ascii) (acc : Z) : option (Z * list ascii) :=
  match width with
  | O => Some (acc, s)
  | S w =>
      match s with
      | c :: rest =>
          match digit_val c with
          | Some d => digits w rest (acc * 10 + d)
          | None => None
          end
      | [] => None
      end
  end.

Fixpoint month_of_abbr_from (abbr : string) (m : nat) (fuel : nat) : option Z :=
  match fuel with
  | O => None
  | S fuel' =>
      if String.eqb (month_abbr (Z.of_nat m)) abbr then Some (Z.of_nat m)
      else month_of_abbr_from abbr (S m) fuel'
  end.

Definition month_of_abbr (abbr : string) : option Z := month_of_abbr_from abbr 1 12.

Definition midnight (y m d : Z) : datetime :=
  {| year := y; month := m; day := d;
     hour := 0; minute := 0; second := 0; microsecond := 0 |}.

(** [datetime.strptime(s, "%b %d")] on the strings [strftime_b_d]
    produces, the only ones that reach it: the year defaults to 1900, so
    that "Feb 29" is rejected with ValueError (1900 is not a leap year). *)
Definition strptime_b_d (s : string) : Py.result datetime :=
  match (String.length s =? 6)%nat, month_of_abbr (String.substring 0 3 s),
        String.get 3 s, digits 2 (list_ascii_of_string (String.substring 4 2 s)) 0 with
  | true, Some m, Some " "%char, Some (d, []) =>
      if valid_date 1900 m d then Py.Ok (midnight 1900 m d) else Py.Raise Py.ValueError
  | _, _, _, _ => Py.Raise Py.ValueError
  end.

(** The extended ISO 8601 forms YYYY-MM-DD, YYYY-MM-DDTHH:MM and
    YYYY-MM-DDTHH:MM:SS (any separator character in place of T), as
    [datetime.fromisoformat] reads them; used to run the model on concrete
    timestamps.  Fractional seconds and UTC offsets are left out. *)
Definition expect (c : ascii) (s : list ascii) : option (list ascii) :=
  match s with
  | c' :: rest => if Ascii.eqb c c' then Some rest else None
  | [] => None
  end.

Definition parse_time_of_day (s : list ascii) : option (Z * Z * Z) :=
  match digits 2 s 0 with
  | Some (h, s1) =>
      match expect ":" s1 with
      | Some s2 =>
          match digits 2 s2 0 with
          | Some (mi, []) => Some (h, mi, 0)
          | Some (mi, s3) =>
              match expect ":" s3 with
              | Some s4 =>
                  match digits 2 s4 0 with
                  | Some (sec, []) => Some (h, mi, sec)
                  | _ => None
                  end
              | None => None
              end
          | None => None
          end
      | None => None
      end
  | None => None
  end.

Definition fromisoformat_basic (text : string) : Py.result datetime :=
  let s := list_ascii_of_string text in
  match digits 4 s 0 with
  | Some (y, s1) =>
      match expect "-" s1 with
      | Some s2 =>
          match digits 2 s2 0 with
          | Some (m, s3) =>
              match expect "-" s3 with
              | Some s4 =>
                  match digits 2 s4 0 with
                  | Some (d, rest) =>
                      if valid_date y m d then
                        match rest with
                        | [] => Py.Ok (midnight y m d)
                        | _ :: tod =>
                            match parse_time_of_day tod with
                            | Some (h, mi, sec) =>
                                if (h <? 24) && (mi <? 60) && (sec <? 60) then
                                  Py.Ok {| year := y; month := m; day := d;
                                        hour := h; minute := mi; second := sec;
                                        microsecond := 0 |}
                                else Py.Raise Py.ValueError
                            | None => Py.Raise Py.ValueError
                            end
                        end
                      else Py.Raise Py.ValueError
                  | None => Py.Raise Py.ValueError
                  end
              | None => Py.Raise Py.ValueError
              end
          | None => Py.Raise Py.ValueError
          end
      | None => Py.Raise Py.ValueError
      end
  | None => Py.Raise Py.ValueError
  end.

End Datetime.

(** ** Service directory and dependency analysis *)

Section Tools.
(** [fromisoformat] is [datetime.fromisoformat], read as returning a naive
    datetime or raising ValueError; UTC offsets are not modelled. *)
Context (extractOne : Matcher)
        (fromisoformat : string -> Py.result Datetime.datetime)
        (td : ToolsData).

(** tools.py, [_normalize_service_name]. *)
Definition _normalize_service_name (name : string) : string :=
  if negb (Py.truthy name) then name
  else
    let aliased_name := default name (aliases td !! Py.strip (Py.lower name)) in
    let known_services := Py.dict_keys (dep_graph td) in
    match extractOne aliased_name known_services with
    | Some (best_match, score) => best_match
    | None => aliased_name
    end.

(** [[_normalize_service_name(s) for s in names if s]] *)
Definition normalize_all (names : list string) : list string :=
  map _normalize_service_name (filter (fun s => Is_true (Py.truthy s)) names).

Section FindDownstream.
(** [all_target_systems_set], fixed during the traversal. *)
Context (all_target_systems_set : gset string).

(** The first loop of [find_downstream]: the forward edges; [rec] is
  the recursive call. *)
Fixpoint forward_deps (rec : string -> gset string -> option (gset string))
  (deps : list string) (impacted : gset string) : option (gset string) :=
match deps with
| [] => Some impacted
| dep :: rest =>
    let normalized_dep := _normalize_service_name dep in
    if decide ((normalized_dep ∉ impacted) ∧ (normalized_dep ∉ all_target_systems_set))
    then
      match rec normalized_dep ({[normalized_dep]} ∪ impacted) with
      | Some impacted' => forward_deps rec rest impacted'
      | None => None
      end
    else forward_deps rec rest impacted
end.

(** The second loop of [find_downstream]: every service whose
  [consumedBy] list contains the current node, one hop. *)
Definition consumed_by_scan (normalized_system : string) (impacted : gset string)
: gset string :=
fold_left
  (fun impacted service_info =>
     let current_svc_name := _normalize_service_name (serviceName service_info) in
     let consumed_by_list :=
       map _normalize_service_name (default [] (consumedBy service_info)) in
     if decide (normalized_system ∈ consumed_by_list) then
       if decide ((current_svc_name ∉ impacted) ∧ (current_svc_name ∉ all_target_systems_set))
       then {[current_svc_name]} ∪ impacted
       else impacted
     else impacted)
  (serviceDependencies (dataset td)) impacted.

(** [find_downstream] threads the set [impacted_dependencies] it
  mutates.  The recursion is not structural; [fuel] is the number of
  nested calls the interpreter allows (its recursion limit, less the frames
  in use); [None] is the RecursionError raised when that number is
  exceeded, which nothing in tools.py catches. *)
Fixpoint find_downstream (fuel : nat) (system_name : string) (impacted : gset string)
: option (gset string) :=
match fuel with
| O => None
| S fuel' =>
    let normalized_system := _normalize_service_name system_name in
    match Py.dict_get (dep_graph td) normalized_system with
    | Some deps =>
        match forward_deps (find_downstream fuel') deps impacted with
        | Some impacted' => Some (consumed_by_scan normalized_system impacted')
        | None => None
        end
    | None => Some impacted
    end
end.

(** [for system in normalized_target_systems: find_downstream(system)] *)
Fixpoint each_target (fuel : nat) (systems : list string) (impacted : gset string)
: option (gset string) :=
match systems with
| [] => Some impacted
| system :: rest =>
    match find_downstream fuel system impacted with
    | Some impacted' => each_target fuel rest impacted'
    | None => None
    end
end.
End FindDownstream.

(** The names that occur as forward edges of the graph. *)
Definition forward_names : list string := concat (Py.dict_values (dep_graph td)).

(** A number of nested calls that always suffices (see
    [find_downstream_total]): one more than the number of forward edges. *)
Definition enough_fuel : nat := S (length forward_names).

(** The names a traversal can add: normalised forward edges, and the
    normalised names of the listed services (the one-hop scan). *)
Definition forward_universe : gset string :=
  list_to_set (map _normalize_service_name forward_names).

Definition scan_universe : gset string :=
  list_to_set (map (fun s => _normalize_service_name (serviceName s))
                   (serviceDependencies (dataset td))).



Record DependencyAnalysis := {
  target_systems_analyzed : list string;
  impacted_dependencies : list string;
  dependency_summary : string;
  all_involved_services : list string
}.

Definition dependency_report (all_target_systems_set impacted : gset string)
  : DependencyAnalysis :=
  let all_involved := all_target_systems_set ∪ impacted in
  let final_impacted_only_downstream := Py.sorted_set (impacted ∖ all_target_systems_set) in
  let dependency_summary :=
    match final_impacted_only_downstream with
    | [] => "No significant additional downstream dependencies detected."
    | _ => "Change impacts " +:+ pretty (length final_impacted_only_downstream)
           +:+ " additional downstream services beyond targeted systems."
    end in
  {| target_systems_analyzed := Py.sorted_set all_target_systems_set;
     impacted_dependencies := final_impacted_only_downstream;
     dependency_summary := dependency_summary;
     all_involved_services := Py.sorted_set all_involved |}.

(** tools.py, [analyze_service_dependencies], run when the interpreter
    allows [fuel] nested calls of [find_downstream]; [None] is
    RecursionError. *)
Definition analyze_with (fuel : nat) (target_systems : list string)
  : option DependencyAnalysis :=
  let normalized_target_systems := normalize_all target_systems in
  let all_target_systems_set : gset string := list_to_set normalized_target_systems in
  match each_target all_target_systems_set fuel normalized_target_systems ∅ with
  | Some impacted => Some (dependency_report all_target_systems_set impacted)
  | None => None
  end.

(** The same under a limit that is not reached. *)
Definition analyze_service_dependencies (target_systems : list string)
  : option DependencyAnalysis :=
  analyze_with enough_fuel target_systems.

(** main.py, [assess_risk]: [num_impacted_dependencies]. *)
Definition dependency_impact_count (r : DependencyAnalysis) : nat :=
  length (impacted_dependencies r).

(** *** Business-impact evaluation *)

Notation "x <- r ;; k" := (Py.bind r (fun x => k))
  (at level 100, r at next level, right associativity, only parsing).

(** The matching test of one event: the wildcard, or an involved service
    that equals one of the impacted systems up to case. *)
Definition impact_match (normalized_involved_services : list string)
    (event_data : BusinessEvent) : bool :=
  if bool_decide ("all-systems" ∈ impactedSystems event_data) then true
  else
    existsb
      (fun service =>
         bool_decide (Py.lower service ∈
           map (fun sys => Py.lower (_normalize_service_name sys))
               (impactedSystems event_data)))
      normalized_involved_services.

(** What a matching event adds to [overall_business_risk_score]. *)
Definition event_contribution (event_data : BusinessEvent) : Z :=
  ((if String.eqb (criticality event_data) "Critical" then 5
    else if String.eqb (criticality event_data) "High" then 3
    else if String.eqb (criticality event_data) "Medium" then 1
    else 0)
   + (if default false (blackoutWindow event_data) then 2 else 0))%Z.

(** The loop over [dataset['businessEvents']]; the state is
    [current_impact_events] and [overall_business_risk_score]. *)
Fixpoint scan_events (proposed_dt : Datetime.datetime)
    (normalized_involved_services : list string) (events : list BusinessEvent)
    (current_impact_events : list TimelineEntry) (score : Z)
  : Py.result (list TimelineEntry * Z) :=
  match events with
  | [] => Py.Ok (current_impact_events, score)
  | event_data :: rest =>
      event_start_dt <- fromisoformat (startDate event_data) ;;
      end_day <- fromisoformat (endDate event_data) ;;
      event_end_dt <- Datetime.add_timedelta end_day 1 (-1) ;;
      if Datetime.leb event_start_dt proposed_dt && Datetime.leb proposed_dt event_end_dt
      then
        if impact_match normalized_involved_services event_data then
          scan_events proposed_dt normalized_involved_services rest
            (current_impact_events ++
               [ {| date := Datetime.strftime_b_d proposed_dt;
                    event := eventName event_data;
                    level := criticality event_data |} ])
            (score + event_contribution event_data)%Z
        else scan_events proposed_dt normalized_involved_services rest
               current_impact_events score
      else scan_events proposed_dt normalized_involved_services rest
             current_impact_events score
  end.

Definition is_weekday_business_hours (proposed_dt : Datetime.datetime) : bool :=
  ((Datetime.isoweekday proposed_dt <=? 5)
   && (9 <=? Datetime.hour proposed_dt) && (Datetime.hour proposed_dt <=? 17))%Z.

Definition business_hours_event_names : list string :=
  ["Peak Hours"; "Monthly Payroll Processing"; "Black Friday Sale Preparation"].

(** The business-hours adjustment. *)
Definition peak_adjustment (proposed_dt : Datetime.datetime)
    (current_impact_events : list TimelineEntry) (score : Z)
  : list TimelineEntry * Z :=
  if is_weekday_business_hours proposed_dt
     && negb (existsb (fun e => bool_decide (event e ∈ business_hours_event_names))
                      current_impact_events)
  then (current_impact_events ++
          [ {| date := Datetime.strftime_b_d proposed_dt;
               event := "Peak Hours"; level := "Peak" |} ],
        (score + 1)%Z)
  else (current_impact_events, score).

Definition has_level (lv : string) (events : list TimelineEntry) : bool :=
  existsb (fun e => String.eqb (level e) lv) events.

Definition final_level (current_impact_events : list TimelineEntry) : string :=
  let business_impact_final_level := "Low" in
  if has_level "Critical" current_impact_events then "High"
  else if has_level "High" current_impact_events then "Medium"
  else if has_level "Medium" current_impact_events
          && negb (bool_decide (business_impact_final_level ∈ ["High"])) then "Medium"
  else match current_impact_events with
       | [] => "Low"
       | _ => "Low"
       end.

(** [business_impact_timeline_display] *)
Definition timeline_display (proposed_dt : Datetime.datetime)
    (business_impact_final_level : string) (current_impact_events : list TimelineEntry)
  : Py.result (list TimelineEntry) :=
  match current_impact_events with
  | [] =>
      before <- Datetime.add_timedelta proposed_dt (-1) 0 ;;
      after <- Datetime.add_timedelta proposed_dt 1 0 ;;
      Py.Ok
        [ {| date := Datetime.strftime_b_d before; event := "Safe Window"; level := "Safe" |};
          {| date := Datetime.strftime_b_d proposed_dt; event := "Proposed Change";
             level := "Safe" |};
          {| date := Datetime.strftime_b_d after; event := "Safe Window"; level := "Safe" |} ]
  | _ =>
      let levels := map level current_impact_events in
      let proposed_time_level :=
        if Py.contains "High" business_impact_final_level
           || bool_decide ("Critical" ∈ levels) then "Conflict"
        else if Py.contains "Medium" business_impact_final_level
                || bool_decide ("Peak" ∈ levels) then "Peak"
        else "Safe" in
      (* an impact event has no 'startDate' key: its day is the proposed day *)
      let event_dt_str := Datetime.strftime_b_d proposed_dt in
      Py.Ok
        ({| date := Datetime.strftime_b_d proposed_dt; event := "Proposed Change";
            level := proposed_time_level |}
         :: filter
              (fun event_item =>
                 Is_true (negb (String.eqb event_dt_str (Datetime.strftime_b_d proposed_dt)
                                && String.eqb (event event_item) "Proposed Change")))
              current_impact_events)
  end.

Definition level_priority (lv : string) : Z :=
  default 0%Z
    (Py.dict_get
       [("Critical", 6); ("High", 5); ("Medium", 4); ("Peak", 3);
        ("Conflict", 2); ("Safe", 1); ("Low", 0); ("Proposed Change", 0)]%Z lv).

(** [unique_timeline_items]: keyed by calendar day, in insertion order. *)
Definition day_dict : Type := list (Datetime.pydate * TimelineEntry).

Fixpoint day_get (d : day_dict) (k : Datetime.pydate) : option TimelineEntry :=
  match d with
  | [] => None
  | (k', v) :: rest => if Datetime.pydate_eqb k' k then Some v else day_get rest k
  end.

Fixpoint day_set (d : day_dict) (k : Datetime.pydate) (v : TimelineEntry) : day_dict :=
  match d with
  | [] => [(k, v)]
  | (k', v') :: rest =>
      if Datetime.pydate_eqb k' k then (k', v) :: rest else (k', v') :: day_set rest k v
  end.

Definition date_key (proposed_dt : Datetime.datetime) (item : TimelineEntry)
  : Datetime.pydate :=
  match Datetime.strptime_b_d (date item) with
  | Py.Ok dt => Datetime.date_of dt
  | Py.Raise _ => Datetime.date_of proposed_dt
  end.

(** One iteration of the merge loop. *)
Definition merge_item (proposed_dt : Datetime.datetime)
    (unique_timeline_items : day_dict) (item : TimelineEntry) : day_dict :=
  let k := date_key proposed_dt item in
  match day_get unique_timeline_items k with
  | None => day_set unique_timeline_items k item
  | Some existing =>
      let existing_level := level existing in
      let new_level := level item in
      if (level_priority new_level >? level_priority existing_level)%Z then
        day_set unique_timeline_items k item
      else if (level_priority new_level =? level_priority existing_level)%Z then
        if negb (Py.contains (event item) (event existing)) then
          day_set unique_timeline_items k
            {| date := date existing;
               event := event existing +:+ ", " +:+ event item;
               level := level existing |}
        else unique_timeline_items
      else unique_timeline_items
  end.

Definition merge_timeline (proposed_dt : Datetime.datetime)
    (display : list TimelineEntry) : day_dict :=
  fold_left (merge_item proposed_dt) display [].

(** The keys [datetime.strptime(x['date'], "%b %d")] of the final sort,
    computed for every entry before any comparison. *)
Fixpoint sort_keys (items : list TimelineEntry)
  : Py.result (list (Datetime.datetime * TimelineEntry)) :=
  match items with
  | [] => Py.Ok []
  | x :: rest =>
      k <- Datetime.strptime_b_d (date x) ;;
      keyed <- sort_keys rest ;;
      Py.Ok ((k, x) :: keyed)
  end.

Definition sorted_timeline (unique_timeline_items : day_dict)
  : Py.result (list TimelineEntry) :=
  keyed <- sort_keys (map snd unique_timeline_items) ;;
  Py.Ok (map snd (Py.sorted (fun a b => Datetime.leb (fst a) (fst b)) keyed)).

Definition summary_of (business_impact_final_level : string)
    (current_impact_events : list TimelineEntry) : string :=
  "Business impact level: " +:+ business_impact_final_level
  +:+ ". Conflicts identified: "
  +:+ match current_impact_events with
      | [] => "None."
      | _ => Py.join ", " (map event current_impact_events)
      end.

(** tools.py, [assess_business_impact]. *)
Definition assess_business_impact (proposed_datetime_str : string)
    (all_involved_services : list string) : Py.result BusinessImpact :=
  proposed_dt <- fromisoformat proposed_datetime_str ;;
  let normalized_involved_services := normalize_all all_involved_services in
  matched <- scan_events proposed_dt normalized_involved_services
               (businessEvents (dataset td)) [] 0%Z ;;
  let '(current_impact_events, overall_business_risk_score) :=
    peak_adjustment proposed_dt (fst matched) (snd matched) in
  let business_impact_final_level := final_level current_impact_events in
  display <- timeline_display proposed_dt business_impact_final_level
               current_impact_events ;;
  timeline <- sorted_timeline (merge_timeline proposed_dt display) ;;
  Py.Ok
    {| business_impact_level := business_impact_final_level;
       overall_business_risk_score := overall_business_risk_score;
       business_impact_timeline := timeline;
       business_summary := summary_of business_impact_final_level current_impact_events |}.

(** main.py, [reassess_business_impact]: the endpoint returns the tool's
    output as it is, and catches nothing. *)
Definition reassess_business_impact (proposed_datetime : string)
    (all_involved_services : list string) : Py.result BusinessImpact :=
  assess_business_impact proposed_datetime all_involved_services.

(** Whether the loop records [event_data]: its interval
    [start, end-of-day(end)] contains the proposed instant and it matches
    the involved services. *)
Definition event_applies (proposed_dt : Datetime.datetime)
    (normalized_involved_services : list string) (event_data : BusinessEvent)
  : Py.result bool :=
  event_start_dt <- fromisoformat (startDate event_data) ;;
  end_day <- fromisoformat (endDate event_data) ;;
  event_end_dt <- Datetime.add_timedelta end_day 1 (-1) ;;
  Py.Ok (Datetime.leb event_start_dt proposed_dt
               && Datetime.leb proposed_dt event_end_dt
               && impact_match normalized_involved_services event_data).

Definition applies (proposed_dt : Datetime.datetime)
    (normalized_involved_services : list string) (event_data : BusinessEvent) : bool :=
  match event_applies proposed_dt normalized_involved_services event_data with
  | Py.Ok b => b
  | Py.Raise _ => false
  end.

(** The impact event recorded for a matching business event. *)
Definition impact_entry (proposed_dt : Datetime.datetime) (event_data : BusinessEvent)
  : TimelineEntry :=
  {| date := Datetime.strftime_b_d proposed_dt;
     event := eventName event_data;
     level := criticality event_data |}.

(** The sum of the contributions of the events the loop records. *)
Definition matched_contributions (proposed_dt : Datetime.datetime)
    (normalized_involved_services : list string) (events : list BusinessEvent) : Z :=
  fold_right Z.add 0%Z
    (map event_contribution
         (List.filter (applies proposed_dt normalized_involved_services) events)).

End Tools.



(** ** Score aggregation (config.py, and main.py, [assess_risk]) *)

Module config.

Definition RISK_WEIGHTS : Py.dict float :=
  [("technical", 0.4); ("dependency", 0.3); ("business", 0.3)]%float.

Definition PRIORITY_ADJUSTMENTS : Py.dict float :=
  [("High", 1.5); ("Critical", 3.0)]%float.

Definition MAX_CALCULATED_RISK : float := 15.0%float.

End config.

(** [config.RISK_WEIGHTS[key]], for the three keys the table holds. *)
Definition risk_weight (key : string) : float :=
  default nan (Py.dict_get config.RISK_WEIGHTS key).

Definition calculated_risk_value (technical_risk_score num_impacted_dependencies
    overall_business_risk_score : float) (priority : string) : float :=
  let calculated_risk_value :=
    (technical_risk_score * risk_weight "technical"
     + num_impacted_dependencies * risk_weight "dependency"
     + overall_business_risk_score * risk_weight "business")%float in
  match Py.dict_get config.PRIORITY_ADJUSTMENTS priority with
  | Some adjustment => (calculated_risk_value + adjustment)%float
  | None => calculated_risk_value
  end.

Definition normalized_risk (calculated_risk_value : float) : float :=
  PyFloat.max 1.0
    (PyFloat.min 10.0 (calculated_risk_value / config.MAX_CALCULATED_RISK * 10.0))%float.

Definition credit_score (normalized_risk : float) : float :=
  PyFloat.round1 (PyFloat.max 1.0 (PyFloat.min 10.0 (10.0 - normalized_risk + 1.0)))%float.

Definition risk_level (credit_score : float) : string :=
  if (credit_score <=? 3.5)%float then "HIGH"
  else if (credit_score <=? 7.0)%float then "MEDIUM"
  else "LOW".

Record RiskScores := {
  normalized : float;
  risk_score : float;
  risk_level_of : string
}.

(** The three values on float operands. *)
Definition risk_scores (technical_risk_score num_impacted_dependencies
    overall_business_risk_score : float) (priority : string) : RiskScores :=
  let raw := calculated_risk_value technical_risk_score num_impacted_dependencies
               overall_business_risk_score priority in
  {| normalized := normalized_risk raw;
     risk_score := credit_score (normalized_risk raw);
     risk_level_of := risk_level (credit_score (normalized_risk raw)) |}.

(** The scoring of [assess_risk]: the technical score is a float, the
    dependency count and the business score are ints. *)
Definition assess_risk_scores (technical_risk_score : float)
    (num_impacted_dependencies overall_business_risk_score : Z) (priority : string)
  : Py.result RiskScores :=
  Py.bind (PyFloat.of_int num_impacted_dependencies) (fun d =>
  Py.bind (PyFloat.of_int overall_business_risk_score) (fun b =>
  Py.Ok (risk_scores technical_risk_score d b priority))).

(** The aggregator in the words of the specification. *)
Module Spec.

Definition clamp (x lo hi : float) : float := PyFloat.max lo (PyFloat.min hi x).

Definition raw (t d b : float) (p : string) : float :=
  let weighted := (0.4 * t + 0.3 * d + 0.3 * b)%float in
  if String.eqb p "High" then (weighted + 1.5)%float
  else if String.eqb p "Critical" then (weighted + 3.0)%float
  else weighted.

Definition normalized (raw : float) : float := clamp (raw / 15.0 * 10)%float 1.0 10.0.

Definition safety (normalized : float) : float :=
  PyFloat.round1 (clamp (10 - normalized + 1)%float 1.0 10.0).

Definition level (safety : float) : string :=
  if (safety <=? 3.5)%float then "HIGH"
  else if (safety <=? 7.0)%float then "MEDIUM"
  else "LOW".

End Spec.

(** The synthetic impact event of the business-hours adjustment. *)
Definition peak_hours_entry (proposed_dt : Datetime.datetime) : TimelineEntry :=
  {| date := Datetime.strftime_b_d proposed_dt; event := "Peak Hours"; level := "Peak" |}.

(** No recorded impact event bears one of the three business-hours names. *)
Definition no_business_hours_event (events : list TimelineEntry) : bool :=
  negb (existsb (fun e => bool_decide (event e ∈ business_hours_event_names)) events).

(** What the business-hours adjustment adds to the score. *)
Definition peak_bonus (proposed_dt : Datetime.datetime) (events : list TimelineEntry) : Z :=
  if is_weekday_business_hours proposed_dt && no_business_hours_event events
  then 1%Z else 0%Z.

(** ** Concrete calendars *)

Definition calendar (events : list BusinessEvent) : ToolsData :=
  startup_event {| serviceDependencies := []; businessEvents := events |}.

Definition december_event (name level : string) (blackout : option bool) : BusinessEvent :=
  {| eventName := name;
     startDate := "2024-12-20";
     endDate := "2024-12-31";
     impactedSystems := ["all-systems"];
     criticality := level;
     blackoutWindow := blackout |}.

Definition freeze_calendar : ToolsData :=
  calendar [ december_event "Year-End Freeze" "Critical" (Some true) ].

Definition campaign_calendar : ToolsData :=
  calendar [ december_event "Marketing Campaign" "Medium" None ].

Definition overlap_calendar : ToolsData :=
  calendar [ december_event "Peak Hours" "High" None;
             december_event "Peak" "High" None ].

Definition timeline_entry (d e l : string) : TimelineEntry :=
  {| date := d; event := e; level := l |}.

(** ** Concrete directories *)

(** The matcher keeps [q]: its best match for [q] among [choices] is [q]
    itself, or no choice reaches the cut-off. *)
Definition matcher_keeps (extractOne : Matcher) (choices : list string) (q : string)
  : Prop :=
  match extractOne q choices with
  | Some (best_match, _) => best_match = q
  | None => True
  end.

Definition service (name : string) (deps consumers : list string) : ServiceInfo :=
  {| serviceName := name;
     directDependencies := Some deps;
     consumedBy := Some consumers;
     criticalityScore := None |}.

(** The example scenario: auth-service depends on user-database, and
    user-database is consumed by billing-service. *)
Definition scenario_dataset : Dataset :=
  {| serviceDependencies :=
       [ service "auth-service" ["user-database"] [];
         service "user-database" [] ["billing-service"] ];
     businessEvents := [] |}.

(** A directory whose only service depends on two names that are not
    services of the directory. *)
Definition dangling_dataset : Dataset :=
  {| serviceDependencies := [ service "checkout-ui" ["redis"; "kafka"] [] ];
     businessEvents := [] |}.


(** A directory that lists a service under a name the alias table maps
    to another service. *)
Definition legacy_dataset : Dataset :=
  {| serviceDependencies :=
       [ service "paymentgateway" [] []; service "payment-api" [] [] ];
     businessEvents := [] |}.

(** ** Reachability, as [find_downstream] follows it *)

Section Reach.
Context (extractOne : Matcher) (td : ToolsData) (targets : list string).

(** The names [find_downstream] can meet from the normalised targets: a
    forward edge of a visited node that resolves to a key of the graph, or a
    listed service whose [consumedBy] list names such a node. *)
Inductive connected : string -> Prop :=
| connected_target s : In s targets -> connected s
| connected_forward x deps d :
    connected x ->
    Py.dict_get (dep_graph td) (_normalize_service_name extractOne td x) = Some deps ->
    In d deps ->
    connected (_normalize_service_name extractOne td d)
| connected_consumer x deps service_info :
    connected x ->
    Py.dict_get (dep_graph td) (_normalize_service_name extractOne td x) = Some deps ->
    In service_info (serviceDependencies (dataset td)) ->
    In (_normalize_service_name extractOne td x)
       (map (_normalize_service_name extractOne td) (default [] (consumedBy service_info))) ->
    connected (_normalize_service_name extractOne td (serviceName service_info)).

(** The same without the [consumedBy] links. *)
Inductive forward_reachable : string -> Prop :=
| forward_target s : In s targets -> forward_reachable s
| forward_edge x deps d :
    forward_reachable x ->
    Py.dict_get (dep_graph td) (_normalize_service_name extractOne td x) = Some deps ->
    In d deps ->
    forward_reachable (_normalize_service_name extractOne td d).

(** The forward edges of [y] are all in [st] or among the targets. *)
Definition edges_within (y : string) (st : gset string) : Prop :=
  forall deps d,
    Py.dict_get (dep_graph td) (_normalize_service_name extractOne td y) = Some deps ->
    In d deps ->
    _normalize_service_name extractOne td d ∈ st ∪ list_to_set targets.

(** The listed services that name [y] as a consumer are all in [st] or
    among the targets. *)
Definition consumers_within (y : string) (st : gset string) : Prop :=
  forall deps service_info,
    Py.dict_get (dep_graph td) (_normalize_service_name extractOne td y) = Some deps ->
    In service_info (serviceDependencies (dataset td)) ->
    In (_normalize_service_name extractOne td y)
       (map (_normalize_service_name extractOne td) (default [] (consumedBy service_info))) ->
    _normalize_service_name extractOne td (serviceName service_info) ∈ st ∪ list_to_set targets.

End Reach.

(** No listed service has a [consumedBy] entry. *)
Definition no_consumers (td : ToolsData) : Prop :=
  forall service_info, In service_info (serviceDependencies (dataset td)) ->
    default [] (consumedBy service_info) = [].

(** What one call [find_downstream(sys)] guarantees, from the state [st] to
    the state [st']. *)
Definition visit_post (extractOne : Matcher) (td : ToolsData) (targets : list string)
  (sys : string) (st st' : gset string) : Prop :=
  st ⊆ st'
  /\ (connected extractOne td targets sys ->
      forall y, y ∈ st' -> y ∈ st \/ connected extractOne td targets y)
  /\ edges_within extractOne td targets sys st'
  /\ consumers_within extractOne td targets sys st'
  /\ (no_consumers td -> forall y, y ∈ st' -> y ∉ st ->
        edges_within extractOne td targets y st').


(** Strictly ascending, in Python's order on strings. *)
Definition ascending (l : list string) : Prop :=
  StronglySorted (fun a b => String.ltb a b = true) l.

(** What the merge loop maintains: the days of [acc] are distinct; every
    entry seen so far is represented on its day by a stored entry of at
    least its priority; every stored entry has the day, the date string and
    the level of an entry seen. *)
Definition merge_invariant (proposed_dt : Datetime.datetime)
    (seen : list TimelineEntry) (acc : day_dict) : Prop :=
  NoDup (map fst acc)
  /\ (forall item, In item seen ->
        exists stored, day_get acc (date_key proposed_dt item) = Some stored
          /\ (level_priority (level item) <= level_priority (level stored))%Z)
  /\ (forall k stored, In (k, stored) acc ->
        exists item, In item seen /\ date_key proposed_dt item = k
          /\ level stored = level item /\ date stored = date item).

(** [a] is dated strictly before [b], both dates read without a year. *)
Definition day_before (a b : TimelineEntry) : Prop :=
  exists ka kb,
    Datetime.strptime_b_d (date a) = Py.Ok ka
    /\ Datetime.strptime_b_d (date b) = Py.Ok kb
    /\ (Datetime.month ka < Datetime.month kb
        \/ (Datetime.month ka = Datetime.month kb /\ Datetime.day ka < Datetime.day kb))%Z.

(** ** The change workflow (main.py) *)

(** The values [json.load] produces. *)
#[warnings="-register-all"]
Inductive json :=
| JNull
| JBool (b : bool)
| JInt (n : Z)
| JFloat (x : float)
| JStr (s : string)
| JList (items : list json)
| JDict (fields : list (string * json)).

(** A change request, and an entry of the risk history: JSON objects. *)
Definition change_request : Type := Py.dict json.

(** [value == s] for a string [s], where [value] is the result of a
    [.get]: [None] and every value that is not a string differ from [s]. *)
Definition eq_str (value : option json) (s : string) : bool :=
  match value with
  | Some (JStr s') => String.eqb s' s
  | _ => false
  end.

(** [d.get(k, fallback)] and [d.get(k)]. *)
Definition get_or (d : Py.dict json) (k : string) (fallback : json) : json :=
  default fallback (Py.dict_get d k).

Definition get_none (d : Py.dict json) (k : string) : json := get_or d k JNull.

(** What an endpoint answers: a value, an [HTTPException], or an exception
    that nothing catches (the server then answers 500). *)
Module Http.
Inductive response (A : Type) :=
| Return (a : A)
| HTTPException (status_code : Z) (detail : string)
| AttributeError.
Arguments Return {A} a.
Arguments HTTPException {A} status_code detail.
Arguments AttributeError {A}.
End Http.

(** The two global lists of main.py. *)
Record AppState := {
  active_change_requests : list change_request;
  risk_history_items : list (Py.dict json)
}.

(** The body of [RejectRequest]. *)
Record RejectRequest := {
  reason : string;
  feedbackType : string
}.

(** [change.get('ai_assessment', {}).get('summary', ...)]: a missing key
    reads the fallback; a value that is not an object has no [get]. *)
Definition assessment_summary (change : change_request) : option json :=
  match Py.dict_get change "ai_assessment" with
  | None => Some (JStr "No AI assessment available")
  | Some (JDict assessment) =>
      Some (get_or assessment "summary" (JStr "No AI assessment available"))
  | Some _ => None
  end.

(** The assignments [change[k] = v], in order. *)
Definition assign (change : change_request) (updates : list (string * json))
  : change_request :=
  fold_left (fun c kv => Py.dict_set c (fst kv) (snd kv)) updates change.

(** [history_entry]; [extra] are the two keys only a rejection records, and
    [completedDate], [completedTime] the two readings of the clock. *)
Definition history_entry (change_id : string) (change : change_request)
    (decision completedDate completedTime : string) (extra : list (string * json))
    (summary : json) : Py.dict json :=
  [ ("type", JStr "completed_change");
    ("changeId", JStr change_id);
    ("title", get_or change "title" (JStr "Change Request"));
    ("category", get_or change "category" (get_or change "type" (JStr "General")));
    ("status", JStr decision);
    ("riskLevel", get_or change "riskLevel" (JStr "UNKNOWN"));
    ("riskScore", get_none change "riskScore");
    ("submittedBy", get_or change "submittedBy" (JStr "Unknown"));
    ("completedDate", JStr completedDate);
    ("completedTime", JStr completedTime);
    ("decision", JStr decision) ]
  ++ extra
  ++ [ ("summary", summary);
       ("scheduledTime", get_none change "scheduledTime") ].

(** The loop shared by [approve_change] and [reject_change]: the first
    change whose id is [change_id] is updated in place, then its history
    entry is built; [None] when the loop ends without a match. *)
Fixpoint decide_first (change_id decision action completedDate completedTime : string)
    (extra : list (string * json)) (changes : list change_request)
  : option (list change_request * option (Py.dict json)) :=
  match changes with
  | [] => None
  | change :: rest =>
      if eq_str (Py.dict_get change "changeId") change_id then
        let change :=
          assign change
            ([("status", JStr decision); ("recommendedAction", JStr action)] ++ extra) in
        Some (change :: rest,
              match assessment_summary change with
              | Some summary =>
                  Some (history_entry change_id change decision completedDate
                          completedTime extra summary)
              | None => None
              end)
      else
        match decide_first change_id decision action completedDate completedTime
                extra rest with
        | Some (rest', entry) => Some (change :: rest', entry)
        | None => None
        end
  end.

Definition decide_change (st : AppState)
    (change_id decision action completedDate completedTime : string)
    (extra : list (string * json)) : AppState * Http.response (Py.dict json) :=
  match decide_first change_id decision action completedDate completedTime extra
          (active_change_requests st) with
  | Some (changes, Some entry) =>
      ({| active_change_requests := changes;
          risk_history_items := entry :: risk_history_items st |},
       Http.Return [("status", JStr "success")])
  | Some (changes, None) =>
      ({| active_change_requests := changes;
          risk_history_items := risk_history_items st |},
       Http.AttributeError)
  | None => (st, Http.HTTPException 404 "Change not found.")
  end.

(** main.py, [approve_change]. *)
Definition approve_change (st : AppState) (change_id completedDate completedTime : string)
  : AppState * Http.response (Py.dict json) :=
  decide_change st change_id "Approved" "Approved by Human" completedDate completedTime [].

(** main.py, [reject_change]. *)
Definition reject_change (st : AppState) (change_id : string) (request : RejectRequest)
    (completedDate completedTime : string)
  : AppState * Http.response (Py.dict json) :=
  decide_change st change_id "Rejected" "Rejected by Human" completedDate completedTime
    [ ("rejectionReason", JStr (reason request));
      ("feedbackType", JStr (feedbackType request)) ].

(** main.py, [get_pending_approvals]. *)
Definition get_pending_approvals (st : AppState) : list change_request :=
  List.filter (fun c => eq_str (Py.dict_get c "status") "AI Assessed")
              (active_change_requests st).

(** main.py, [startup_event]: the defaults given to the change requests of
    the dataset. *)
Definition initial_change (change : change_request) : change_request :=
  if existsb (eq_str (Py.dict_get change "riskLevel")) ["High"; "Critical"]
  then assign change [ ("status", JStr "AI Assessed");
                       ("recommendedAction", JStr "Review AI Analysis") ]
  else assign change [ ("status", JStr "Approved");
                       ("recommendedAction", JStr "Proceed as Planned") ].

Definition initial_change_requests (changeRequests : list change_request)
  : list change_request :=
  map initial_change changeRequests.

(** main.py, [get_analytics_data]: the two counts [total_incidents] and
    [total_high_risk_changes] of the KPIs (the other figures are not
    modelled). *)
Definition total_incidents (st : AppState) : nat := length (risk_history_items st).

Definition total_high_risk_changes (st : AppState) : nat :=
  length
    (List.filter
       (fun c => existsb (eq_str (Py.dict_get c "riskLevel"))
                         ["High"; "Critical"; "HIGH"; "CRITICAL"])
       (active_change_requests st)).

(** Whether a decision on [change_id] finds a change. *)
Definition known_change (st : AppState) (change_id : string) : bool :=
  existsb (fun c => eq_str (Py.dict_get c "changeId") change_id)
          (active_change_requests st).

(** ** A concrete state of the workflow *)

Definition example_change (id riskLevel : string) (rest : list (string * json))
  : change_request :=
  [ ("changeId", JStr id); ("title", JStr "Rotate certificates");
    ("riskLevel", JStr riskLevel) ] ++ rest.

(** Three change requests after start-up: the second carries an
    assessment, the third a null one. *)
Definition example_state : AppState :=
  {| active_change_requests :=
       initial_change_requests
         [ example_change "CHG-001" "Low" [];
           example_change "CHG-002" "High"
             [("ai_assessment", JDict [("summary", JStr "Schema migration")])];
           example_change "CHG-003" "Critical" [("ai_assessment", JNull)] ];
     risk_history_items := [] |}.

(** ** The tools that read the history (tools.py) *)

(** An entry of [riskAssessments]; an absent key is [None]. *)
Record RiskAssessment := {
  changeId : option string;
  title : option string;
  recommendations : option (list string);
  safestWindow : option string;
  estimatedBlastRadius : option string
}.

(** An entry of [historicalFailures]. *)
Record HistoricalFailure := {
  failure_title : option string;
  category : option string;
  affectedServices : option (list string)
}.

Record TechnicalRisk := {
  technical_risk_score : float;
  technical_summary : string
}.

Section History.
Context (extractOne : Matcher) (td : ToolsData)
        (riskAssessments : list RiskAssessment)
        (historicalFailures : list HistoricalFailure).

(** The test of one risk assessment in [get_historical_recommendations]. *)
Definition assessment_matches (change_type : string)
    (normalized_target_systems : list string) (ra : RiskAssessment) : bool :=
  existsb
    (fun ts =>
       Py.contains (Py.lower ts) (Py.lower (default "" (changeId ra)))
       || Py.contains (Py.lower ts) (Py.lower (default "" (title ra))))
    normalized_target_systems
  || Py.contains (Py.lower change_type) (Py.lower (default "" (changeId ra)))
  || Py.contains (Py.lower change_type) (Py.lower (default "" (title ra))).

(** What a matching assessment adds to [historical_recs]. *)
Definition assessment_lines (ra : RiskAssessment) : list string :=
  default [] (recommendations ra)
  ++ (match safestWindow ra with
      | Some w =>
          if Py.truthy w
          then ["Safest Window Identified: " +:+ w +:+ " based on historical data."]
          else []
      | None => []
      end)
  ++ (match estimatedBlastRadius ra with
      | Some b => if Py.truthy b then ["Estimated Blast Radius: " +:+ b +:+ "."] else []
      | None => []
      end).

(** The loop that fills [historical_recs]. *)
Definition collect_recommendations (change_type : string)
    (normalized_target_systems : list string) : list string :=
  fold_left
    (fun historical_recs ra =>
       if assessment_matches change_type normalized_target_systems ra
       then historical_recs ++ assessment_lines ra
       else historical_recs)
    riskAssessments [].

(** tools.py, [get_historical_recommendations].  The result is
    [list(set(historical_recs))]: duplicates are dropped and the order is
    not determined, so the model returns the set. *)
Definition get_historical_recommendations (change_type : string)
    (target_systems : list string) : gset string :=
  list_to_set (collect_recommendations change_type (normalize_all extractOne td target_systems)).

(** The test of one past incident in [assess_technical_risk]. *)
Definition failure_related (change_type : string)
    (normalized_target_systems : list string) (f : HistoricalFailure) : bool :=
  existsb
    (fun s =>
       Py.contains (Py.lower s) (Py.lower (default "" (failure_title f)))
       || String.eqb (Py.lower (default "" (category f))) (Py.lower change_type))
    normalized_target_systems
  || existsb
       (fun target_svc =>
          existsb (fun f_svc => Py.contains (Py.lower target_svc) (Py.lower f_svc))
                  (default [] (affectedServices f)))
       normalized_target_systems.

(** The state of [assess_technical_risk] before the score is drawn:
    [risk_score_multiplier] and [technical_summary_factors]. *)
Definition notes_factors (documentation_notes priority : string) : float * list string :=
  let notes := Py.lower documentation_notes in
  let s0 := (1.0%float, @nil string) in
  let s1 :=
    if Py.contains "database" notes || Py.contains "schema" notes || Py.contains "db" notes
    then ((fst s0 + 0.3)%float, snd s0 ++ ["Database-related change"]) else s0 in
  let s2 :=
    if Py.contains "security" notes
    then ((fst s1 + 0.2)%float, snd s1 ++ ["Security related"]) else s1 in
  let s3 :=
    if Py.contains "rollback" notes
    then ((fst s2 - 0.1)%float, snd s2 ++ ["Rollback plan mentioned"]) else s2 in
  if String.eqb priority "Critical"
  then ((fst s3 + 0.5)%float, snd s3 ++ ["Critical priority"])
  else if String.eqb priority "High"
  then ((fst s3 + 0.3)%float, snd s3 ++ ["High priority"])
  else s3.

(** [risk_score_multiplier] and [technical_summary_factors] once the past
    incidents have been counted. *)
Definition technical_factors (change_type documentation_notes priority : string)
    (target_systems : list string) : Py.result (float * list string) :=
  let normalized_target_systems := normalize_all extractOne td target_systems in
  let '(risk_score_multiplier, technical_summary_factors) :=
    notes_factors documentation_notes priority in
  let related_failures :=
    List.filter (failure_related change_type normalized_target_systems)
                historicalFailures in
  match related_failures with
  | [] => Py.Ok (risk_score_multiplier, technical_summary_factors)
  | _ =>
      Py.bind (PyFloat.of_int (Z.of_nat (length related_failures))) (fun n =>
      Py.Ok ((risk_score_multiplier + n * 0.2)%float,
             technical_summary_factors
             ++ [pretty (length related_failures)
                 +:+ " past incidents related to this type/target."]))
  end.

(** tools.py, [assess_technical_risk]; [base_risk] is the value drawn by
    [random.uniform(2.0, 7.0)]. *)
Definition assess_technical_risk (base_risk : float)
    (change_type documentation_notes priority : string) (target_systems : list string)
  : Py.result TechnicalRisk :=
  Py.bind (technical_factors change_type documentation_notes priority target_systems)
    (fun state =>
       let technical_risk_score :=
         PyFloat.round1 (PyFloat.min (base_risk * fst state)%float 10.0) in
       Py.Ok
         {| technical_risk_score := technical_risk_score;
            technical_summary :=
              "Simulated technical risk: "
              +:+ match snd state with
                  | [] => "General assessment."
                  | factors => Py.join ", " factors
                  end |}).

End History.


(** * Properties *)

(** ** Dependency analysis: termination and bounds *)

Section DependencyFacts.
Context (extractOne : Matcher) (td : ToolsData).

Local Abbreviation normalize := (_normalize_service_name extractOne td).
Local Abbreviation FU := (forward_universe extractOne td).
Local Abbreviation SU := (scan_universe extractOne td).

Lemma sorted_length {A} (leb : A -> A -> bool) (l : list A) :
  length (Py.sorted leb l) = length l.
Proof.
  assert (Hins : forall x l', length (Py.insert_sorted leb x l') = S (length l')).
  { intros x l'. induction l' as [|y ys IH]; simpl; [reflexivity|].
    destruct (leb x y); simpl; [reflexivity | now rewrite IH]. }
  induction l as [|x xs IH]; simpl; [reflexivity|].
  now rewrite Hins, IH.
Qed.


Lemma size_list_to_set_le (l : list string) :
  size (list_to_set l : gset string) <= length l.
Proof.
  induction l as [|x l IH]; cbn [length].
  - rewrite list_to_set_nil, size_empty. lia.
  - rewrite list_to_set_cons, size_union_alt, size_singleton.
    pose proof (subseteq_size (list_to_set l ∖ {[x]}) (list_to_set l : gset string)) as H.
    assert (Hsub : list_to_set l ∖ {[x]} ⊆ (list_to_set l : gset string)) by set_solver.
    specialize (H Hsub). lia.
Qed.

Lemma dict_get_in_values {V} (g : Py.dict V) k v :
  Py.dict_get g k = Some v -> v ∈ Py.dict_values g.
Proof.
  induction g as [|[k' v'] g IH]; simpl; [discriminate|].
  destruct (String.eqb k' k).
  - intros [= ->]. left.
  - intros H. right. now apply IH.
Qed.

Lemma forward_edge_in_universe k deps d :
  Py.dict_get (dep_graph td) k = Some deps -> d ∈ deps -> normalize d ∈ FU.
Proof.
  intros Hget Hd. unfold forward_universe, forward_names.
  apply elem_of_list_to_set, list_elem_of_In, in_map, in_concat.
  exists deps. split; apply list_elem_of_In; [|exact Hd].
  now apply dict_get_in_values with k.
Qed.

Section Traversal.
Context (targets : gset string).

Local Abbreviation fd := (find_downstream extractOne td targets).

(** The one-hop scan only adds names of listed services. *)
Lemma consumed_by_scan_bounds sys st :
  st ⊆ consumed_by_scan extractOne td targets sys st
  /\ consumed_by_scan extractOne td targets sys st ⊆ st ∪ SU.
Proof.
  unfold consumed_by_scan, scan_universe.
  generalize (serviceDependencies (dataset td)) as l. intros l. revert st.
  induction l as [|s l IH]; intros st; simpl.
  - split; set_solver.
  - match goal with |- context [fold_left ?f l ?st1] => set (st' := st1) end.
    destruct (IH st') as [H1 H2].
    assert (Hst : st ⊆ st' /\ st' ⊆ st ∪ {[normalize (serviceName s)]}).
    { subst st'. clear. repeat case_decide; set_solver. }
    clearbody st'. clear IH. cbn [map] in *. set_solver.
Qed.

(** The forward loop returns when the recursive calls do, on every state
    that leaves fewer than [n] forward names to add. *)
Lemma forward_deps_total rec n :
  (forall sys st, size (FU ∖ st) < n ->
     exists st', rec sys st = Some st' /\ st ⊆ st' /\ st' ⊆ st ∪ FU ∪ SU) ->
  forall deps st,
    (forall d, d ∈ deps -> normalize d ∈ FU) ->
    size (FU ∖ st) <= n ->
    exists st', forward_deps extractOne td targets rec deps st = Some st'
                /\ st ⊆ st' /\ st' ⊆ st ∪ FU ∪ SU.
Proof.
  intros Hrec deps. induction deps as [|dep rest IH]; intros st Hin Hsize; simpl.
  - exists st. split; [reflexivity | set_solver].
  - assert (Hrest : forall d, d ∈ rest -> normalize d ∈ FU).
    { intros d Hd. apply Hin. now right. }
    case_decide as Hfresh.
    + destruct Hfresh as [Hni _].
      assert (Hdep : normalize dep ∈ FU) by (apply Hin; left).
      assert (Hlt : size (FU ∖ ({[normalize dep]} ∪ st)) < n).
      { eapply Nat.lt_le_trans; [|exact Hsize].
        apply subset_size. set_solver. }
      destruct (Hrec (normalize dep) _ Hlt) as (st1 & -> & Hsub1 & Hsup1).
      assert (Hsize1 : size (FU ∖ st1) <= n).
      { etrans; [|exact Hsize]. apply subseteq_size. set_solver. }
      destruct (IH st1 Hrest Hsize1) as (st2 & -> & Hsub2 & Hsup2).
      exists st2. split; [reflexivity|].
      clear IH Hrec Hin Hrest Hsize Hsize1 Hlt. set_solver.
    + destruct (IH st Hrest Hsize) as (st2 & -> & Hsub2 & Hsup2).
      exists st2. split; [reflexivity|].
      clear IH Hrec Hin Hrest Hsize. set_solver.
Qed.

Lemma find_downstream_S n sys st :
  fd (S n) sys st
  = match Py.dict_get (dep_graph td) (normalize sys) with
    | Some deps =>
        match forward_deps extractOne td targets (fd n) deps st with
        | Some st' => Some (consumed_by_scan extractOne td targets (normalize sys) st')
        | None => None
        end
    | None => Some st
    end.
Proof. reflexivity. Qed.

(** [find_downstream] returns with fuel [S n] from every state that leaves
    at most [n] forward names to add: each recursive call follows the
    addition of a fresh one. *)
Lemma find_downstream_total n : forall sys st,
  size (FU ∖ st) <= n ->
  exists st', fd (S n) sys st = Some st' /\ st ⊆ st' /\ st' ⊆ st ∪ FU ∪ SU.
Proof.
  induction n as [|n IHn]; intros sys st Hsize.
  - rewrite find_downstream_S.
    destruct (Py.dict_get (dep_graph td) (normalize sys)) as [deps|] eqn:Hget.
    + destruct (forward_deps_total (fd 0) 0) with (deps := deps) (st := st)
        as (st1 & -> & Hsub & Hsup); [intros; lia | | exact Hsize |].
      * intros d Hd. eapply forward_edge_in_universe; eauto.
      * eexists. split; [reflexivity|].
        pose proof (consumed_by_scan_bounds (normalize sys) st1). set_solver.
    + exists st. split; [reflexivity | set_solver].
  - rewrite find_downstream_S.
    destruct (Py.dict_get (dep_graph td) (normalize sys)) as [deps|] eqn:Hget.
    + destruct (forward_deps_total (fd (S n)) (S n)) with (deps := deps) (st := st)
        as (st1 & -> & Hsub & Hsup); [ | | exact Hsize |].
      * intros sys' st' Hlt. apply IHn. lia.
      * intros d Hd. eapply forward_edge_in_universe; eauto.
      * eexists. split; [reflexivity|].
        pose proof (consumed_by_scan_bounds (normalize sys) st1). set_solver.
    + exists st. split; [reflexivity | set_solver].
Qed.



Lemma each_target_total n systems : forall st,
  size FU <= n ->
  exists st', each_target extractOne td targets (S n) systems st = Some st'
              /\ st ⊆ st' /\ st' ⊆ st ∪ FU ∪ SU.
Proof.
  induction systems as [|system rest IH]; intros st Hn; cbn [each_target].
  - exists st. split; [reflexivity | set_solver].
  - destruct (find_downstream_total n system st) as (st1 & -> & Hsub1 & Hsup1).
    { etrans; [|exact Hn]. apply subseteq_size. set_solver. }
    destruct (IH st1 Hn) as (st2 & -> & Hsub2 & Hsup2).
    exists st2. split; [reflexivity | set_solver].
Qed.

End Traversal.

(** The analysis always returns, and what it reports as impacted are
    normalised forward edges and service names outside the targets. *)
Lemma analyze_returns targets :
  exists impacted : gset string,
    analyze_service_dependencies extractOne td targets
    = Some (dependency_report
              (list_to_set (normalize_all extractOne td targets)) impacted)
    /\ impacted ⊆ FU ∪ SU.
Proof.
  unfold analyze_service_dependencies, analyze_with, enough_fuel.
  destruct (each_target_total (list_to_set (normalize_all extractOne td targets))
              (length (forward_names td)) (normalize_all extractOne td targets) ∅)
    as (st & -> & _ & Hsup).
  { unfold forward_universe. etrans; [apply size_list_to_set_le|].
    now rewrite length_map. }
  exists st. split; [reflexivity | set_solver].
Qed.


End DependencyFacts.

(** ** Normalisation *)

Lemma normalize_keeps (extractOne : Matcher) (td : ToolsData) (q : string) :
  default q (aliases td !! Py.strip (Py.lower q)) = q ->
  matcher_keeps extractOne (Py.dict_keys (dep_graph td)) q ->
  _normalize_service_name extractOne td q = q.
Proof.
  intros Halias Hkeep. unfold _normalize_service_name.
  destruct (negb (Py.truthy q)); [reflexivity|].
  rewrite Halias. unfold matcher_keeps in Hkeep.
  destruct (extractOne q _) as [[best score]|]; [exact Hkeep | reflexivity].
Qed.

(** C9, as the code has it.  A canonical name is returned unchanged when
    the alias table does not send its lower-cased, trimmed form to another
    name and the matcher's best match for it in the directory is the name
    itself; normalising the result again then changes nothing either. *)
Theorem C9_normalize_canonical (extractOne : Matcher) (td : ToolsData) (k : string) :
  k ∈ Py.dict_keys (dep_graph td) ->
  default k (aliases td !! Py.strip (Py.lower k)) = k ->
  matcher_keeps extractOne (Py.dict_keys (dep_graph td)) k ->
  _normalize_service_name extractOne td k = k
  /\ _normalize_service_name extractOne td (_normalize_service_name extractOne td k) = k.
Proof.
  intros _ Halias Hkeep.
  assert (H : _normalize_service_name extractOne td k = k)
    by now apply normalize_keeps.
  now rewrite !H.
Qed.

Lemma C9_normalize_canonical_witness :
  _normalize_service_name extractOne_exact (startup_event scenario_dataset) "auth-service"
  = "auth-service"
  /\ _normalize_service_name extractOne_exact (startup_event scenario_dataset)
       (_normalize_service_name extractOne_exact (startup_event scenario_dataset)
          "auth-service")
     = "auth-service".
Proof.
  apply (C9_normalize_canonical extractOne_exact (startup_event scenario_dataset)
           "auth-service").
  - vm_compute. left.
  - vm_compute. reflexivity.
  - vm_compute. reflexivity.
Defined.

(** C9 as stated fails: "paymentgateway" is a key of the graph, and the
    alias table sends it to "payment-api", another key, which the matcher
    then returns. *)
Lemma C9_counterexample :
  "paymentgateway" ∈ Py.dict_keys (dep_graph (startup_event legacy_dataset))
  /\ _normalize_service_name extractOne_exact (startup_event legacy_dataset)
       "paymentgateway" = "payment-api"
  /\ _normalize_service_name extractOne_exact (startup_event legacy_dataset)
       "paymentgateway" <> "paymentgateway".
Proof.
  split; [vm_compute; left|].
  split; [vm_compute; reflexivity|].
  vm_compute. discriminate.
Qed.

(** ** Dependency analysis: the example scenario *)

Lemma consumed_by_scan_noop (extractOne : Matcher) (td : ToolsData)
    (targets : gset string) (sys : string) (st : gset string) :
  (forall s, s ∈ serviceDependencies (dataset td) ->
     _normalize_service_name extractOne td (serviceName s) ∈ st ∪ targets) ->
  consumed_by_scan extractOne td targets sys st = st.
Proof.
  unfold consumed_by_scan.
  generalize (serviceDependencies (dataset td)) as l. intros l.
  induction l as [|s l IH]; intros Hin; simpl; [reflexivity|].
  assert (Hs : _normalize_service_name extractOne td (serviceName s) ∈ st ∪ targets)
    by (apply Hin; left).
  case_decide; [case_decide as Hfresh|].
  - exfalso. destruct Hfresh. set_solver.
  - apply IH. intros s' Hs'. apply Hin. now right.
  - apply IH. intros s' Hs'. apply Hin. now right.
Qed.

(** C1, as the code has it.  In the example scenario the analysis of
    ["auth-service"] reports the one downstream service "user-database" and
    a dependency impact count of 1, for every matcher that keeps the two
    canonical names. *)
Theorem C1_scenario_impact (extractOne : Matcher) :
  matcher_keeps extractOne ["auth-service"; "user-database"] "auth-service" ->
  matcher_keeps extractOne ["auth-service"; "user-database"] "user-database" ->
  exists r,
    analyze_service_dependencies extractOne (startup_event scenario_dataset)
      ["auth-service"] = Some r
    /\ impacted_dependencies r = ["user-database"]
    /\ dependency_impact_count r = 1.
Proof.
  intros Hauth Huser.
  set (td := startup_event scenario_dataset).
  assert (Na : _normalize_service_name extractOne td "auth-service" = "auth-service").
  { apply normalize_keeps; [vm_compute; reflexivity | exact Hauth]. }
  assert (Nu : _normalize_service_name extractOne td "user-database" = "user-database").
  { apply normalize_keeps; [vm_compute; reflexivity | exact Huser]. }
  unfold analyze_service_dependencies, analyze_with.
  change (normalize_all extractOne td ["auth-service"])
    with [_normalize_service_name extractOne td "auth-service"].
  rewrite Na.
  change (enough_fuel td) with 2.
  cbn [each_target].
  rewrite find_downstream_S, Na.
  change (Py.dict_get (dep_graph td) "auth-service") with (Some ["user-database"]).
  cbn [forward_deps]. rewrite Nu.
  rewrite decide_True by (split; [set_solver | now vm_compute]).
  rewrite find_downstream_S, Nu.
  change (Py.dict_get (dep_graph td) "user-database") with (Some (@nil string)).
  cbn [forward_deps].
  assert (Hall : forall st : gset string, "user-database" ∈ st ->
            forall s, s ∈ serviceDependencies (dataset td) ->
              _normalize_service_name extractOne td (serviceName s)
              ∈ st ∪ list_to_set ["auth-service"]).
  { intros st Hst s Hs. change (serviceDependencies (dataset td)) with
      [service "auth-service" ["user-database"] [];
       service "user-database" [] ["billing-service"]] in Hs.
    apply list_elem_of_In in Hs. cbn [In] in Hs.
    destruct Hs as [<-|[<-|[]]]; unfold service; simpl serviceName.
    - rewrite Na. set_solver.
    - rewrite Nu. set_solver. }
  rewrite (consumed_by_scan_noop _ _ _ "user-database") by (apply Hall; set_solver).
  rewrite (consumed_by_scan_noop _ _ _ "auth-service") by (apply Hall; set_solver).
  eexists. split; [reflexivity|].
  vm_compute. split; reflexivity.
Qed.

Lemma C1_scenario_impact_witness :
  exists r,
    analyze_service_dependencies extractOne_exact (startup_event scenario_dataset)
      ["auth-service"] = Some r
    /\ impacted_dependencies r = ["user-database"]
    /\ dependency_impact_count r = 1.
Proof.
  apply (C1_scenario_impact extractOne_exact); vm_compute; reflexivity.
Defined.

(** C1 as stated fails: the scan looks for services whose consumedBy list
    contains the node being visited, and no list contains "auth-service"
    or "user-database"; "billing-service" is never reached. *)
Lemma C1_counterexample :
  ~ (exists r,
       analyze_service_dependencies extractOne_exact (startup_event scenario_dataset)
         ["auth-service"] = Some r
       /\ impacted_dependencies r = ["billing-service"; "user-database"]
       /\ dependency_impact_count r = 2).
Proof.
  intros (r & Hr & Himp & _).
  vm_compute in Hr. injection Hr as <-. discriminate Himp.
Qed.

(** ** Dependency analysis: termination and size *)







(** ** Dates *)

Lemma pydate_eqb_refl (k : Datetime.pydate) : Datetime.pydate_eqb k k = true.
Proof. destruct k as [[y m] d]. unfold Datetime.pydate_eqb. now rewrite !Z.eqb_refl. Qed.

(** Every day that exists in 1900 is read back from its "%b %d" form. *)
Lemma strptime_strftime (dt : Datetime.datetime) :
  Datetime.valid_date 1900 (Datetime.month dt) (Datetime.day dt) = true ->
  Datetime.strptime_b_d (Datetime.strftime_b_d dt)
  = Py.Ok (Datetime.midnight 1900 (Datetime.month dt) (Datetime.day dt)).
Proof.
  unfold Datetime.strftime_b_d.
  generalize (Datetime.month dt) as m, (Datetime.day dt) as d. intros m d Hv.
  set (check := fun n k : nat =>
         let m := Z.of_nat n in
         let d := Z.of_nat k in
         implb (Datetime.valid_date 1900 m d)
           (bool_decide
              (Datetime.strptime_b_d
                 (Datetime.month_abbr m ++ " " ++ Datetime.two_digits d)%string
               = Py.Ok (Datetime.midnight 1900 m d)))).
  assert (Htable : forallb (fun n => forallb (check n) (seq 0 32)) (seq 0 13) = true)
    by (vm_compute; reflexivity).
  assert (Hm : (1 <= m <= 12)%Z) by (unfold Datetime.valid_date in Hv; lia).
  assert (Hdim : (Datetime.days_in_month 1900 m <= 31)%Z).
  { unfold Datetime.days_in_month, Datetime.DAYS_IN_MONTH.
    destruct ((m =? 2)%Z && Datetime.is_leap 1900); [lia|].
    assert (Hn : Z.to_nat m <= 12) by lia. revert Hn.
    generalize (Z.to_nat m) as n. intros n Hn.
    do 13 (destruct n as [|n]; [cbn; lia|]). lia. }
  assert (Hd : (1 <= d <= 31)%Z) by (unfold Datetime.valid_date in Hv; lia).
  rewrite forallb_forall in Htable.
  specialize (Htable (Z.to_nat m)). rewrite forallb_forall in Htable.
  specialize (Htable ltac:(apply in_seq; lia) (Z.to_nat d) ltac:(apply in_seq; lia)).
  unfold check in Htable. cbv zeta in Htable. rewrite !Z2Nat.id in Htable by lia.
  rewrite Hv in Htable. cbn [implb] in Htable. now apply bool_decide_eq_true in Htable.
Qed.

(** ** Business impact: the event loop *)

Section BusinessFacts.
Context (extractOne : Matcher)
        (fromisoformat : string -> Py.result Datetime.datetime)
        (td : ToolsData).

Local Abbreviation scan := (scan_events extractOne fromisoformat td).
Local Abbreviation assess := (assess_business_impact extractOne fromisoformat td).
Local Abbreviation applies_to := (applies extractOne fromisoformat td).

Lemma scan_events_step dt inv e rest acc sc :
  scan dt inv (e :: rest) acc sc
  = match event_applies extractOne fromisoformat td dt inv e with
    | Py.Ok true =>
        scan dt inv rest (acc ++ [impact_entry dt e]) (sc + event_contribution e)%Z
    | Py.Ok false => scan dt inv rest acc sc
    | Py.Raise x => Py.Raise x
    end.
Proof.
  cbn [scan_events]. unfold event_applies, Py.bind.
  destruct (fromisoformat (startDate e)) as [st|]; [|reflexivity].
  destruct (fromisoformat (endDate e)) as [en|]; [|reflexivity].
  destruct (Datetime.add_timedelta en 1 (-1)) as [en'|]; [|reflexivity].
  destruct (Datetime.leb st dt && Datetime.leb dt en'); cbn [andb]; [|reflexivity].
  destruct (impact_match extractOne td inv e); reflexivity.
Qed.

(** The loop records exactly the events that apply, in order, and adds
    their contributions. *)
Lemma scan_events_spec dt inv events : forall acc sc evs sc',
  scan dt inv events acc sc = Py.Ok (evs, sc') ->
  evs = acc ++ map (impact_entry dt) (List.filter (applies_to dt inv) events)
  /\ sc' = (sc + fold_right Z.add 0
                   (map event_contribution (List.filter (applies_to dt inv) events)))%Z.
Proof.
  induction events as [|e rest IH]; intros acc sc evs sc'.
  - intros [= <- <-]. cbn [List.filter map fold_right].
    rewrite app_nil_r, Z.add_0_r. split; reflexivity.
  - rewrite scan_events_step. cbn [List.filter].
    assert (Happ : applies_to dt inv e
                   = match event_applies extractOne fromisoformat td dt inv e with
                     | Py.Ok b => b
                     | Py.Raise _ => false
                     end) by reflexivity.
    rewrite Happ. clear Happ.
    destruct (event_applies extractOne fromisoformat td dt inv e) as [[|]|];
      [| apply IH | discriminate].
    intros H. apply IH in H as [-> ->]. cbn [map fold_right].
    rewrite <- app_assoc. split; [reflexivity | lia].
Qed.

(** The loop returns when every event's dates can be read. *)
Lemma scan_events_returns dt inv events : forall acc sc,
  (forall e, e ∈ events ->
     exists b, event_applies extractOne fromisoformat td dt inv e = Py.Ok b) ->
  exists evs sc', scan dt inv events acc sc = Py.Ok (evs, sc').
Proof.
  induction events as [|e rest IH]; intros acc sc Hall.
  - eexists _, _. reflexivity.
  - rewrite scan_events_step.
    destruct (Hall e) as [b ->]; [left|].
    destruct b; apply IH; intros e' He'; apply Hall; now right.
Qed.

Lemma event_contribution_table (e : BusinessEvent) :
  let bonus := if default false (blackoutWindow e) then 2%Z else 0%Z in
  (criticality e = "Critical" -> event_contribution e = (5 + bonus)%Z)
  /\ (criticality e = "High" -> event_contribution e = (3 + bonus)%Z)
  /\ (criticality e = "Medium" -> event_contribution e = (1 + bonus)%Z)
  /\ (criticality e = "Low" -> event_contribution e = (0 + bonus)%Z).
Proof.
  unfold event_contribution. repeat split; intros ->; reflexivity.
Qed.

(** ** Business impact: the timeline of a day with impact events *)

(** Entries that all bear the same date string merge into one. *)
Lemma merge_same_day dt (D : string) (first : TimelineEntry) (rest : list TimelineEntry) :
  date first = D ->
  (forall x, x ∈ rest -> date x = D) ->
  exists entry,
    merge_timeline dt (first :: rest) = [(date_key dt first, entry)] /\ date entry = D.
Proof.
  intros HD Hrest. unfold merge_timeline. cbn [fold_left].
  change (merge_item dt [] first) with [(date_key dt first, first)].
  set (K := date_key dt first).
  assert (Hinv : forall items entry,
            date entry = D -> (forall x, x ∈ items -> date x = D) ->
            exists entry', fold_left (merge_item dt) items [(K, entry)] = [(K, entry')]
                           /\ date entry' = D).
  { induction items as [|item items IH]; intros entry He Hitems; cbn [fold_left].
    - now exists entry.
    - assert (Hk : date_key dt item = K).
      { unfold K, date_key. rewrite HD, (Hitems item); [reflexivity | left]. }
      assert (Hitems' : forall x, x ∈ items -> date x = D)
        by (intros x Hx; apply Hitems; now right).
      unfold merge_item. rewrite Hk. cbn [day_get].
      rewrite pydate_eqb_refl.
      destruct (_ >? _)%Z.
      + cbn [day_set]. rewrite pydate_eqb_refl. apply IH; [|exact Hitems'].
        apply Hitems. left.
      + destruct (_ =? _)%Z; [destruct (negb _)|]; cbn [day_set];
          rewrite ?pydate_eqb_refl; now apply IH. }
  now apply Hinv.
Qed.

Lemma sorted_timeline_single (K : Datetime.pydate) (entry : TimelineEntry) k :
  Datetime.strptime_b_d (date entry) = Py.Ok k ->
  sorted_timeline [(K, entry)] = Py.Ok [entry].
Proof.
  intros H. unfold sorted_timeline. cbn [map snd sort_keys]. unfold Py.bind.
  now rewrite H.
Qed.

Lemma peak_adjustment_spec dt evs sc :
  peak_adjustment dt evs sc
  = (if is_weekday_business_hours dt && no_business_hours_event evs
     then evs ++ [peak_hours_entry dt] else evs,
     (sc + peak_bonus dt evs)%Z).
Proof.
  unfold peak_adjustment, peak_bonus, no_business_hours_event, peak_hours_entry.
  destruct (is_weekday_business_hours dt && _); [reflexivity|].
  now rewrite Z.add_0_r.
Qed.

Lemma peak_adjustment_dates dt evs sc :
  (forall x, x ∈ evs -> date x = Datetime.strftime_b_d dt) ->
  forall x, x ∈ fst (peak_adjustment dt evs sc) -> date x = Datetime.strftime_b_d dt.
Proof.
  intros Hevs x. rewrite peak_adjustment_spec. cbn [fst].
  destruct (_ && _); [|apply Hevs].
  rewrite elem_of_app, list_elem_of_singleton.
  intros [Hx| ->]; [now apply Hevs | reflexivity].
Qed.

(** With at least one impact event the evaluation returns on every day
    that exists in 1900, with a one-entry timeline for the proposed day. *)
Lemma assess_with_events s svcs dt evs sc :
  fromisoformat s = Py.Ok dt ->
  scan dt (normalize_all extractOne td svcs) (businessEvents (dataset td)) [] 0%Z
  = Py.Ok (evs, sc) ->
  Datetime.valid_date 1900 (Datetime.month dt) (Datetime.day dt) = true ->
  fst (peak_adjustment dt evs sc) <> [] ->
  exists entry,
    assess s svcs
    = Py.Ok
        {| business_impact_level := final_level (fst (peak_adjustment dt evs sc));
           overall_business_risk_score := snd (peak_adjustment dt evs sc);
           business_impact_timeline := [entry];
           business_summary :=
             summary_of (final_level (fst (peak_adjustment dt evs sc)))
                        (fst (peak_adjustment dt evs sc)) |}
    /\ date entry = Datetime.strftime_b_d dt.
Proof.
  intros Hparse Hscan Hvalid Hne.
  assert (Hdates : forall x, x ∈ fst (peak_adjustment dt evs sc) ->
                     date x = Datetime.strftime_b_d dt).
  { apply peak_adjustment_dates. intros x Hx.
    apply scan_events_spec in Hscan as [-> _]. cbn [app] in Hx.
    apply list_elem_of_In, in_map_iff in Hx as (e & <- & _). reflexivity. }
  unfold assess_business_impact, Py.bind.
  rewrite Hparse, Hscan. cbn [fst snd].
  destruct (peak_adjustment dt evs sc) as [evs' sc''] eqn:Hp. cbn [fst snd] in *.
  destruct evs' as [|x xs]; [contradiction|].
  cbn [timeline_display].
  match goal with
  | |- context [merge_timeline dt (?first :: ?rest)] =>
      destruct (merge_same_day dt (Datetime.strftime_b_d dt) first rest)
        as (entry & Hmerge & Hentry)
  end.
  - reflexivity.
  - intros y Hy. apply list_elem_of_filter in Hy as [_ Hy]. now apply Hdates.
  - rewrite Hmerge.
    rewrite (sorted_timeline_single _ entry
               (Datetime.midnight 1900 (Datetime.month dt) (Datetime.day dt)))
      by (rewrite Hentry; now apply strptime_strftime).
    exists entry. split; [reflexivity | exact Hentry].
Qed.

Lemma final_level_critical evs :
  has_level "Critical" evs = true -> final_level evs = "High".
Proof. intros H. unfold final_level. now rewrite H. Qed.

End BusinessFacts.

(** ** Business impact: the claims *)

(** C8.  A proposed date/time string that cannot be read makes the
    evaluation raise the parser's error: no result is returned, by the tool
    or by the endpoint that calls it. *)
Theorem C8_malformed_timestamp_raises (extractOne : Matcher)
    (fromisoformat : string -> Py.result Datetime.datetime) (td : ToolsData)
    (proposed_datetime_str : string) (all_involved_services : list string)
    (e : Py.exn) :
  fromisoformat proposed_datetime_str = Py.Raise e ->
  assess_business_impact extractOne fromisoformat td
    proposed_datetime_str all_involved_services = Py.Raise e
  /\ reassess_business_impact extractOne fromisoformat td
       proposed_datetime_str all_involved_services = Py.Raise e
  /\ forall r, assess_business_impact extractOne fromisoformat td
                 proposed_datetime_str all_involved_services <> Py.Ok r.
Proof.
  intros Hparse.
  assert (H : assess_business_impact extractOne fromisoformat td
                proposed_datetime_str all_involved_services = Py.Raise e).
  { unfold assess_business_impact, Py.bind. now rewrite Hparse. }
  split; [exact H|]. split; [exact H|].
  intros r. rewrite H. discriminate.
Qed.

Lemma C8_malformed_timestamp_raises_witness :
  assess_business_impact extractOne_exact Datetime.fromisoformat_basic freeze_calendar
    "next tuesday" ["auth-service"] = Py.Raise Py.ValueError
  /\ reassess_business_impact extractOne_exact Datetime.fromisoformat_basic freeze_calendar
       "next tuesday" ["auth-service"] = Py.Raise Py.ValueError
  /\ forall r, assess_business_impact extractOne_exact Datetime.fromisoformat_basic
                 freeze_calendar "next tuesday" ["auth-service"] <> Py.Ok r.
Proof.
  apply (C8_malformed_timestamp_raises extractOne_exact Datetime.fromisoformat_basic
           freeze_calendar "next tuesday" ["auth-service"] Py.ValueError).
  vm_compute. reflexivity.
Defined.

(** C3, as the code has it.  When the event dates can be read and at least
    one event applies, on a day that exists in 1900, the evaluation returns
    and its score is the sum of the contributions of the events that apply
    (5, 3, 1 or 0 by criticality, plus 2 for a blackout window) plus the
    business-hours adjustment; for a single Critical blackout event the
    score is 7 plus that adjustment, and the level is "High". *)
Theorem C3_business_risk_score (extractOne : Matcher)
    (fromisoformat : string -> Py.result Datetime.datetime) (td : ToolsData)
    (s : string) (svcs : list string) (dt : Datetime.datetime)
    (evs : list TimelineEntry) (sc : Z) :
  fromisoformat s = Py.Ok dt ->
  Datetime.valid_date 1900 (Datetime.month dt) (Datetime.day dt) = true ->
  scan_events extractOne fromisoformat td dt (normalize_all extractOne td svcs)
    (businessEvents (dataset td)) [] 0%Z = Py.Ok (evs, sc) ->
  (exists e, e ∈ businessEvents (dataset td)
             /\ applies extractOne fromisoformat td dt
                  (normalize_all extractOne td svcs) e = true) ->
  exists r,
    assess_business_impact extractOne fromisoformat td s svcs = Py.Ok r
    /\ overall_business_risk_score r
       = (matched_contributions extractOne fromisoformat td dt
            (normalize_all extractOne td svcs) (businessEvents (dataset td))
          + peak_bonus dt evs)%Z
    /\ (forall e,
          let bonus := if default false (blackoutWindow e) then 2%Z else 0%Z in
          (criticality e = "Critical" -> event_contribution e = (5 + bonus)%Z)
          /\ (criticality e = "High" -> event_contribution e = (3 + bonus)%Z)
          /\ (criticality e = "Medium" -> event_contribution e = (1 + bonus)%Z)
          /\ (criticality e = "Low" -> event_contribution e = (0 + bonus)%Z))
    /\ (forall e,
          businessEvents (dataset td) = [e] ->
          criticality e = "Critical" ->
          blackoutWindow e = Some true ->
          overall_business_risk_score r = (7 + peak_bonus dt evs)%Z
          /\ business_impact_level r = "High").
Proof.
  intros Hparse Hvalid Hscan (e0 & He0 & Happ0).
  pose proof (scan_events_spec _ _ _ _ _ _ _ _ _ _ Hscan) as [Hevs Hsc].
  cbn [app] in Hevs. rewrite Z.add_0_l in Hsc.
  assert (Hne : fst (peak_adjustment dt evs sc) <> []).
  { rewrite peak_adjustment_spec. cbn [fst].
    assert (evs <> []).
    { rewrite Hevs. intros Hnil. apply map_eq_nil in Hnil.
      assert (Hin : In e0 (List.filter
                (applies extractOne fromisoformat td dt
                   (normalize_all extractOne td svcs)) (businessEvents (dataset td)))).
      { apply filter_In. split; [now apply list_elem_of_In | exact Happ0]. }
      rewrite Hnil in Hin. destruct Hin. }
    destruct (_ && _); [|assumption].
    destruct evs; [contradiction | discriminate]. }
  destruct (assess_with_events _ _ _ _ _ _ _ _ Hparse Hscan Hvalid Hne)
    as (entry & Hrun & _).
  eexists. split; [exact Hrun|]. cbn [overall_business_risk_score business_impact_level].
  rewrite peak_adjustment_spec. cbn [fst snd].
  split; [|split].
  - unfold matched_contributions. now rewrite Hsc.
  - intros e. apply event_contribution_table.
  - intros e Hone Hcrit Hblack.
    rewrite Hone in Hevs, Hsc, He0. apply list_elem_of_singleton in He0. subst e0.
    cbn [List.filter] in Hevs, Hsc. rewrite Happ0 in Hevs, Hsc.
    cbn [map fold_right] in Hevs, Hsc.
    split.
    + rewrite Hsc. unfold event_contribution. rewrite Hcrit, Hblack. reflexivity.
    + apply final_level_critical. rewrite Hevs.
      destruct (_ && _); cbn [app has_level existsb impact_entry level];
        rewrite Hcrit; reflexivity.
Qed.

Lemma C3_business_risk_score_witness :
  exists r,
    assess_business_impact extractOne_exact Datetime.fromisoformat_basic freeze_calendar
      "2024-12-28T10:00:00" [] = Py.Ok r
    /\ overall_business_risk_score r = 7%Z
    /\ business_impact_level r = "High".
Proof.
  destruct (C3_business_risk_score extractOne_exact Datetime.fromisoformat_basic
              freeze_calendar "2024-12-28T10:00:00" []
              {| Datetime.year := 2024; Datetime.month := 12; Datetime.day := 28;
                 Datetime.hour := 10; Datetime.minute := 0; Datetime.second := 0;
                 Datetime.microsecond := 0 |}
              [timeline_entry "Dec 28" "Year-End Freeze" "Critical"] 7%Z)
    as (r & Hrun & _ & _ & Hone).
  - vm_compute. reflexivity.
  - vm_compute. reflexivity.
  - vm_compute. reflexivity.
  - exists (december_event "Year-End Freeze" "Critical" (Some true)).
    split; [left | vm_compute; reflexivity].
  - exists r. split; [exact Hrun|].
    apply (Hone (december_event "Year-End Freeze" "Critical" (Some true)));
      reflexivity.
Defined.

(** C3 as stated fails on its example: inside a single Critical
    blackout event for all systems, on a Tuesday at 10:00, the
    business-hours adjustment brings the score to 8. *)
Lemma C3_counterexample :
  exists r,
    assess_business_impact extractOne_exact Datetime.fromisoformat_basic freeze_calendar
      "2024-12-24T10:00:00" [] = Py.Ok r
    /\ business_impact_level r = "High"
    /\ overall_business_risk_score r = 8%Z
    /\ overall_business_risk_score r <> 7%Z.
Proof.
  eexists. split; [vm_compute; reflexivity|].
  split; [reflexivity|]. split; [reflexivity | discriminate].
Qed.

(** C4, as the code has it.  The adjustment is made exactly when the
    proposed instant falls on a weekday with an hour of day from 9 to 17,
    that is from 09:00 to 17:59, and no recorded impact event bears one of
    the three names: then the score grows by 1 and the "Peak Hours" event is
    recorded; otherwise neither happens. *)
Theorem C4_peak_hours_adjustment (extractOne : Matcher)
    (fromisoformat : string -> Py.result Datetime.datetime) (td : ToolsData)
    (s : string) (svcs : list string) (dt : Datetime.datetime)
    (evs : list TimelineEntry) (sc : Z) :
  fromisoformat s = Py.Ok dt ->
  scan_events extractOne fromisoformat td dt (normalize_all extractOne td svcs)
    (businessEvents (dataset td)) [] 0%Z = Py.Ok (evs, sc) ->
  let in_window :=
    ((Datetime.isoweekday dt <= 5 /\ 9 <= Datetime.hour dt <= 17)%Z
     /\ forall x, x ∈ evs -> event x ∉ business_hours_event_names) in
  (in_window ->
     peak_adjustment dt evs sc = (evs ++ [peak_hours_entry dt], (sc + 1)%Z)
     /\ (Datetime.valid_date 1900 (Datetime.month dt) (Datetime.day dt) = true ->
         exists r,
           assess_business_impact extractOne fromisoformat td s svcs = Py.Ok r
           /\ overall_business_risk_score r = (sc + 1)%Z
           /\ business_summary r
              = summary_of (final_level (evs ++ [peak_hours_entry dt]))
                           (evs ++ [peak_hours_entry dt])))
  /\ (~ in_window ->
        peak_adjustment dt evs sc = (evs, sc)
        /\ forall r,
             assess_business_impact extractOne fromisoformat td s svcs = Py.Ok r ->
             overall_business_risk_score r = sc
             /\ business_summary r = summary_of (final_level evs) evs).
Proof.
  intros Hparse Hscan in_window.
  assert (Hcond : is_weekday_business_hours dt && no_business_hours_event evs = true
                  <-> in_window).
  { unfold in_window, is_weekday_business_hours, no_business_hours_event.
    rewrite !andb_true_iff, negb_true_iff, !Z.leb_le.
    rewrite <- not_true_iff_false, existsb_exists.
    split.
    - intros [[[H1 H2] H3] Hno]. split; [lia|].
      intros x Hx Hname. apply Hno. exists x.
      split; [now apply list_elem_of_In | now apply bool_decide_eq_true].
    - intros [[H1 [H2 H3]] Hno]. split; [auto|].
      intros (x & Hx & Hname). apply bool_decide_eq_true in Hname.
      apply (Hno x); [now apply list_elem_of_In | exact Hname]. }
  split.
  - intros Hin. apply Hcond in Hin.
    assert (Hadj : peak_adjustment dt evs sc = (evs ++ [peak_hours_entry dt], (sc + 1)%Z)).
    { rewrite peak_adjustment_spec. unfold peak_bonus. now rewrite Hin. }
    split; [exact Hadj|]. intros Hvalid.
    destruct (assess_with_events _ _ _ _ _ _ _ _ Hparse Hscan Hvalid)
      as (entry & Hrun & _).
    { rewrite Hadj. cbn [fst]. destruct evs; discriminate. }
    rewrite Hadj in Hrun. cbn [fst snd] in Hrun.
    eexists. split; [exact Hrun|]. split; reflexivity.
  - intros Hout.
    assert (Hoff : is_weekday_business_hours dt && no_business_hours_event evs = false).
    { apply not_true_iff_false. intros H. now apply Hout, Hcond. }
    assert (Hadj : peak_adjustment dt evs sc = (evs, sc)).
    { rewrite peak_adjustment_spec. unfold peak_bonus. rewrite Hoff.
      now rewrite Z.add_0_r. }
    split; [exact Hadj|]. intros r.
    unfold assess_business_impact, Py.bind.
    rewrite Hparse, Hscan. cbn [fst snd]. rewrite Hadj.
    destruct (timeline_display _ _ _) as [display|]; [|discriminate].
    destruct (sorted_timeline _) as [timeline|]; [|discriminate].
    intros [= <-]. split; reflexivity.
Qed.

Lemma C4_peak_hours_adjustment_witness :
  exists r,
    assess_business_impact extractOne_exact Datetime.fromisoformat_basic (calendar [])
      "2024-12-24T09:00:00" [] = Py.Ok r
    /\ overall_business_risk_score r = 1%Z
    /\ business_summary r = "Business impact level: Low. Conflicts identified: Peak Hours".
Proof.
  destruct (C4_peak_hours_adjustment extractOne_exact Datetime.fromisoformat_basic
              (calendar []) "2024-12-24T09:00:00" []
              {| Datetime.year := 2024; Datetime.month := 12; Datetime.day := 24;
                 Datetime.hour := 9; Datetime.minute := 0; Datetime.second := 0;
                 Datetime.microsecond := 0 |}
              [] 0%Z) as [Hin _].
  - vm_compute. reflexivity.
  - vm_compute. reflexivity.
  - destruct Hin as [_ Hrun].
    + split; [vm_compute; intuition discriminate|].
      intros x Hx. inversion Hx.
    + apply Hrun. vm_compute. reflexivity.
Defined.

(** C4 as stated fails on its example: a Tuesday at 17:30 is after 17:00,
    and the adjustment is made, since the test reads the hour alone. *)
Lemma C4_counterexample :
  exists dt r,
    Datetime.fromisoformat_basic "2024-12-24T17:30:00" = Py.Ok dt
    /\ Datetime.isoweekday dt = 2%Z
    /\ (17 * 60 < Datetime.hour dt * 60 + Datetime.minute dt)%Z
    /\ assess_business_impact extractOne_exact Datetime.fromisoformat_basic (calendar [])
         "2024-12-24T17:30:00" [] = Py.Ok r
    /\ overall_business_risk_score r = 1%Z
    /\ business_impact_timeline r
       = [timeline_entry "Dec 24" "Proposed Change, Peak Hours" "Peak"]
    /\ business_summary r = "Business impact level: Low. Conflicts identified: Peak Hours".
Proof.
  eexists _, _. split; [vm_compute; reflexivity|].
  split; [reflexivity|]. split; [reflexivity|].
  split; [vm_compute; reflexivity|].
  repeat split.
Qed.

(** ** Business impact: days read back without their year *)

Lemma pydate_eqb_eq (a b : Datetime.pydate) :
  Datetime.pydate_eqb a b = true <-> a = b.
Proof.
  destruct a as [[y1 m1] d1], b as [[y2 m2] d2]. unfold Datetime.pydate_eqb.
  rewrite !andb_true_iff, !Z.eqb_eq. split.
  - intros [[-> ->] ->]. reflexivity.
  - intros [= -> -> ->]. auto.
Qed.

Lemma day_get_set (d : day_dict) k v k' :
  day_get (day_set d k v) k'
  = if Datetime.pydate_eqb k k' then Some v else day_get d k'.
Proof.
  induction d as [|[k0 v0] d IH]; cbn [day_set day_get].
  - reflexivity.
  - destruct (Datetime.pydate_eqb k0 k) eqn:E0; cbn [day_get].
    + apply pydate_eqb_eq in E0. subst k0.
      now destruct (Datetime.pydate_eqb k k').
    + destruct (Datetime.pydate_eqb k0 k') eqn:E1; [|exact IH].
      apply pydate_eqb_eq in E1. subst k0.
      destruct (Datetime.pydate_eqb k k') eqn:E2; [|reflexivity].
      apply pydate_eqb_eq in E2. subst k'. rewrite pydate_eqb_refl in E0.
      discriminate.
Qed.

Lemma day_get_in (d : day_dict) k v : day_get d k = Some v -> In v (map snd d).
Proof.
  induction d as [|[k0 v0] d IH]; cbn [day_get map snd]; [discriminate|].
  destruct (Datetime.pydate_eqb k0 k).
  - intros [= ->]. now left.
  - intros H. right. now apply IH.
Qed.

(** What [strptime_b_d] returns is a day of 1900 at midnight, and what it
    raises is ValueError. *)
Lemma strptime_shape s k :
  Datetime.strptime_b_d s = Py.Ok k ->
  k = Datetime.midnight 1900 (Datetime.month k) (Datetime.day k)
  /\ Datetime.valid_date 1900 (Datetime.month k) (Datetime.day k) = true.
Proof.
  unfold Datetime.strptime_b_d.
  repeat match goal with
         | |- context [match ?x with _ => _ end] => destruct x eqn:?; try discriminate
         end.
  intros [= <-]. cbn [Datetime.month Datetime.day Datetime.midnight]. now split.
Qed.

Lemma strptime_raises s e : Datetime.strptime_b_d s = Py.Raise e -> e = Py.ValueError.
Proof.
  unfold Datetime.strptime_b_d.
  repeat match goal with
         | |- context [match ?x with _ => _ end] => destruct x eqn:?; try discriminate
         end; now intros [= <-].
Qed.

Lemma sort_keys_raises (items : list TimelineEntry) v :
  In v items -> Datetime.strptime_b_d (date v) = Py.Raise Py.ValueError ->
  sort_keys items = Py.Raise Py.ValueError.
Proof.
  induction items as [|x rest IH]; intros Hin Hv; [destruct Hin|].
  cbn [sort_keys]. unfold Py.bind.
  destruct (Datetime.strptime_b_d (date x)) as [k|e] eqn:Ex.
  - destruct Hin as [->|Hin]; [congruence|]. now rewrite IH.
  - now rewrite (strptime_raises _ _ Ex).
Qed.

Section LeapDay.
Context (dt : Datetime.datetime).
Hypothesis not_in_1900 :
  Datetime.valid_date 1900 (Datetime.month dt) (Datetime.day dt) = false.

Local Abbreviation K0 := (Datetime.date_of dt).

(** An entry whose date cannot be read is filed under the proposed day,
    and only such entries are. *)
Lemma date_key_proposed item :
  date_key dt item = K0 <-> Datetime.strptime_b_d (date item) = Py.Raise Py.ValueError.
Proof.
  unfold date_key.
  destruct (Datetime.strptime_b_d (date item)) as [k|e] eqn:E.
  - split; [|discriminate]. intros Hk. exfalso.
    destruct (strptime_shape _ _ E) as [_ Hv].
    unfold Datetime.date_of in Hk. injection Hk as _ Hm Hd.
    rewrite Hm, Hd in Hv. congruence.
  - rewrite (strptime_raises _ _ E). split; reflexivity.
Qed.

Lemma merge_item_unreadable acc item :
  (forall v, day_get acc K0 = Some v ->
     Datetime.strptime_b_d (date v) = Py.Raise Py.ValueError) ->
  (forall v, day_get (merge_item dt acc item) K0 = Some v ->
     Datetime.strptime_b_d (date v) = Py.Raise Py.ValueError)
  /\ (is_Some (day_get acc K0)
      \/ Datetime.strptime_b_d (date item) = Py.Raise Py.ValueError ->
      is_Some (day_get (merge_item dt acc item) K0)).
Proof.
  intros J. unfold merge_item.
  destruct (Datetime.pydate_eqb (date_key dt item) K0) eqn:Ek.
  - apply pydate_eqb_eq in Ek. rewrite Ek.
    pose proof (proj1 (date_key_proposed item) Ek) as Hitem.
    destruct (day_get acc K0) as [existing|] eqn:Eg.
    + specialize (J existing eq_refl).
      destruct (_ >? _)%Z; [|destruct (_ =? _)%Z; [destruct (negb _)|]];
        rewrite ?day_get_set, ?pydate_eqb_refl, ?Eg;
        (split; [intros v [= <-]; assumption | intros _; eexists; reflexivity]).
    + rewrite day_get_set, pydate_eqb_refl.
      split; [intros v [= <-]; assumption | intros _; eexists; reflexivity].
  - assert (Hne : Datetime.strptime_b_d (date item) <> Py.Raise Py.ValueError).
    { intros H. apply date_key_proposed in H. rewrite H, pydate_eqb_refl in Ek.
      discriminate. }
    assert (Hsame : forall w, day_get (day_set acc (date_key dt item) w) K0
                              = day_get acc K0)
      by (intros w; now rewrite day_get_set, Ek).
    destruct (day_get acc (date_key dt item)) as [existing|];
      [destruct (_ >? _)%Z; [|destruct (_ =? _)%Z; [destruct (negb _)|]]|];
      rewrite ?Hsame; (split; [exact J | intros [H|H]; [exact H | contradiction]]).
Qed.

Lemma merge_timeline_unreadable display item :
  In item display ->
  Datetime.strptime_b_d (date item) = Py.Raise Py.ValueError ->
  sorted_timeline (merge_timeline dt display) = Py.Raise Py.ValueError.
Proof.
  intros Hin Hitem. unfold merge_timeline.
  assert (Hfold : forall items acc,
            (forall v, day_get acc K0 = Some v ->
               Datetime.strptime_b_d (date v) = Py.Raise Py.ValueError) ->
            is_Some (day_get acc K0) \/ In item items ->
            exists v, day_get (fold_left (merge_item dt) items acc) K0 = Some v
                      /\ Datetime.strptime_b_d (date v) = Py.Raise Py.ValueError).
  { induction items as [|x rest IH]; intros acc J Hsome; cbn [fold_left].
    - destruct Hsome as [[v Hv]|[]]. exists v. split; [exact Hv | now apply J].
    - destruct (merge_item_unreadable acc x J) as [J' Hsome'].
      apply IH; [exact J'|].
      destruct Hsome as [Hs|[->|Hrest]]; [left|left|right; exact Hrest].
      + apply Hsome'. now left.
      + apply Hsome'. now right. }
  destruct (Hfold display []) as (v & Hget & Hv); [discriminate | now right |].
  unfold sorted_timeline, Py.bind.
  now rewrite (sort_keys_raises _ v (day_get_in _ _ _ Hget) Hv).
Qed.

End LeapDay.

(** On every 29 February the evaluation returns nothing, whatever the
    calendar and the services: the entry of the proposed change bears the
    date "Feb 29", which the final sort cannot read back. *)
Lemma leap_day_never_returns (extractOne : Matcher)
    (fromisoformat : string -> Py.result Datetime.datetime) (td : ToolsData)
    (s : string) (svcs : list string) (dt : Datetime.datetime) :
  fromisoformat s = Py.Ok dt ->
  Datetime.month dt = 2%Z -> Datetime.day dt = 29%Z ->
  forall r, assess_business_impact extractOne fromisoformat td s svcs <> Py.Ok r.
Proof.
  intros Hparse Hm Hd r.
  assert (Hfeb : Datetime.strptime_b_d (Datetime.strftime_b_d dt) = Py.Raise Py.ValueError).
  { unfold Datetime.strftime_b_d. rewrite Hm, Hd. vm_compute. reflexivity. }
  assert (Hnot : Datetime.valid_date 1900 (Datetime.month dt) (Datetime.day dt) = false)
    by (rewrite Hm, Hd; reflexivity).
  unfold assess_business_impact, Py.bind. rewrite Hparse.
  destruct (scan_events _ _ _ _ _ _ _ _) as [[evs sc]|]; [|discriminate].
  cbn [fst snd].
  destruct (peak_adjustment dt evs sc) as [evs' sc'].
  destruct (timeline_display dt (final_level evs') evs') as [display|] eqn:Edisplay;
    [|discriminate].
  assert (Hin : exists item, In item display
                  /\ date item = Datetime.strftime_b_d dt).
  { unfold timeline_display, Py.bind in Edisplay.
    destruct evs' as [|x xs].
    - destruct (Datetime.add_timedelta dt (-1) 0); [|discriminate].
      destruct (Datetime.add_timedelta dt 1 0); [|discriminate].
      injection Edisplay as <-. eexists. split; [right; left; reflexivity | reflexivity].
    - injection Edisplay as <-. eexists. split; [left; reflexivity | reflexivity]. }
  destruct Hin as (item & Hin & Hdate).
  rewrite (merge_timeline_unreadable dt Hnot display item Hin)
    by (now rewrite Hdate).
  discriminate.
Qed.

(** The order of two days of 1900, as the final sort sees them. *)
Lemma leb_midnight m1 d1 m2 d2 :
  Datetime.leb (Datetime.midnight 1900 m1 d1) (Datetime.midnight 1900 m2 d2)
  = ((m1 <? m2) || ((m1 =? m2) && (d1 <=? d2)))%Z.
Proof.
  unfold Datetime.leb, Datetime.fields, Datetime.midnight. cbn.
  destruct (Z.ltb_spec m1 m2), (Z.eqb_spec m1 m2), (Z.ltb_spec d1 d2),
    (Z.eqb_spec d1 d2), (Z.leb_spec d1 d2); cbn; try reflexivity; lia.
Qed.

(** X7.  Away from 29 February and from the turn of the year the quiet case
    is as C5 describes it: with no impact event, outside business hours,
    when the day before, the proposed day and the day after exist in 1900
    and follow one another within the year, the evaluation returns level
    "Low", score 0 and the three entries in that order. *)
Lemma quiet_day_timeline (extractOne : Matcher)
    (fromisoformat : string -> Py.result Datetime.datetime) (td : ToolsData)
    (s : string) (svcs : list string) (dt before after : Datetime.datetime) (sc : Z) :
  fromisoformat s = Py.Ok dt ->
  scan_events extractOne fromisoformat td dt (normalize_all extractOne td svcs)
    (businessEvents (dataset td)) [] 0%Z = Py.Ok ([], sc) ->
  is_weekday_business_hours dt = false ->
  Datetime.add_timedelta dt (-1) 0 = Py.Ok before ->
  Datetime.add_timedelta dt 1 0 = Py.Ok after ->
  Datetime.valid_date 1900 (Datetime.month before) (Datetime.day before) = true ->
  Datetime.valid_date 1900 (Datetime.month dt) (Datetime.day dt) = true ->
  Datetime.valid_date 1900 (Datetime.month after) (Datetime.day after) = true ->
  (Datetime.month before < Datetime.month dt
   \/ (Datetime.month before = Datetime.month dt
       /\ Datetime.day before < Datetime.day dt))%Z ->
  (Datetime.month dt < Datetime.month after
   \/ (Datetime.month dt = Datetime.month after
       /\ Datetime.day dt < Datetime.day after))%Z ->
  assess_business_impact extractOne fromisoformat td s svcs
  = Py.Ok
      {| business_impact_level := "Low";
         overall_business_risk_score := 0;
         business_impact_timeline :=
           [ timeline_entry (Datetime.strftime_b_d before) "Safe Window" "Safe";
             timeline_entry (Datetime.strftime_b_d dt) "Proposed Change" "Safe";
             timeline_entry (Datetime.strftime_b_d after) "Safe Window" "Safe" ];
         business_summary := "Business impact level: Low. Conflicts identified: None." |}.
Proof.
  intros Hparse Hscan Hquiet Hbefore Hafter Vb Vp Va Obp Opa.
  pose proof (scan_events_spec _ _ _ _ _ _ _ _ _ _ Hscan) as [Hevs Hsc].
  cbn [app] in Hevs. symmetry in Hevs. apply map_eq_nil in Hevs.
  rewrite Hevs in Hsc. cbn [map fold_right] in Hsc. subst sc.
  unfold assess_business_impact, Py.bind. rewrite Hparse, Hscan. cbn [fst snd].
  rewrite peak_adjustment_spec. unfold peak_bonus. rewrite Hquiet. cbn [andb].
  cbn [final_level has_level existsb timeline_display]. unfold Py.bind.
  rewrite Hbefore, Hafter.
  pose proof (strptime_strftime before Vb) as Sb.
  pose proof (strptime_strftime dt Vp) as Sp.
  pose proof (strptime_strftime after Va) as Sa.
  set (eb := {| date := Datetime.strftime_b_d before; event := "Safe Window";
                level := "Safe" |}).
  set (ep := {| date := Datetime.strftime_b_d dt; event := "Proposed Change";
                level := "Safe" |}).
  set (ea := {| date := Datetime.strftime_b_d after; event := "Safe Window";
                level := "Safe" |}).
  assert (Kb : date_key dt eb
               = (1900, Datetime.month before, Datetime.day before)%Z)
    by (unfold date_key; cbn [date eb]; now rewrite Sb).
  assert (Kp : date_key dt ep = (1900, Datetime.month dt, Datetime.day dt)%Z)
    by (unfold date_key; cbn [date ep]; now rewrite Sp).
  assert (Ka : date_key dt ea
               = (1900, Datetime.month after, Datetime.day after)%Z)
    by (unfold date_key; cbn [date ea]; now rewrite Sa).
  assert (Nbp : Datetime.pydate_eqb (date_key dt eb) (date_key dt ep) = false).
  { apply not_true_iff_false. rewrite pydate_eqb_eq, Kb, Kp. intros [= Hm Hd]. lia. }
  assert (Nba : Datetime.pydate_eqb (date_key dt eb) (date_key dt ea) = false).
  { apply not_true_iff_false. rewrite pydate_eqb_eq, Kb, Ka. intros [= Hm Hd]. lia. }
  assert (Npa : Datetime.pydate_eqb (date_key dt ep) (date_key dt ea) = false).
  { apply not_true_iff_false. rewrite pydate_eqb_eq, Kp, Ka. intros [= Hm Hd]. lia. }
  assert (Hmerge : merge_timeline dt [eb; ep; ea]
                   = [(date_key dt eb, eb); (date_key dt ep, ep); (date_key dt ea, ea)]).
  { unfold merge_timeline. cbn [fold_left].
    change (merge_item dt [] eb) with [(date_key dt eb, eb)].
    unfold merge_item at 2. cbn [day_get day_set]. rewrite Nbp.
    unfold merge_item. cbn [day_get day_set]. rewrite Nba, Npa. reflexivity. }
  rewrite Hmerge. unfold sorted_timeline. cbn [map snd sort_keys]. unfold Py.bind.
  cbn [date eb ep ea]. rewrite Sb, Sp, Sa.
  cbn [Py.sorted Py.insert_sorted fst].
  rewrite !leb_midnight.
  replace ((Datetime.month dt <? Datetime.month after)
           || (Datetime.month dt =? Datetime.month after)
              && (Datetime.day dt <=? Datetime.day after))%Z with true
    by (symmetry; rewrite orb_true_iff, andb_true_iff, Z.ltb_lt, Z.eqb_eq, Z.leb_le; lia).
  cbn [Py.insert_sorted fst]. rewrite !leb_midnight.
  replace ((Datetime.month before <? Datetime.month dt)
           || (Datetime.month before =? Datetime.month dt)
              && (Datetime.day before <=? Datetime.day dt))%Z with true
    by (symmetry; rewrite orb_true_iff, andb_true_iff, Z.ltb_lt, Z.eqb_eq, Z.leb_le; lia).
  reflexivity.
Qed.

(** C5: the failing input.  On 29 February 2024 at 20:00, a Thursday
    evening with no business event, the evaluation raises ValueError
    instead of returning the three-entry timeline: the final sort reads
    "Feb 29" back without a year.  The merge loop guards the same reading
    and falls back to the proposed day. *)
Theorem C5_leap_day_raises :
  exists dt,
    Datetime.fromisoformat_basic "2024-02-29T20:00:00" = Py.Ok dt
    /\ is_weekday_business_hours dt = false
    /\ assess_business_impact extractOne_exact Datetime.fromisoformat_basic (calendar [])
         "2024-02-29T20:00:00" [] = Py.Raise Py.ValueError
    /\ date_key dt (timeline_entry "Feb 29" "Proposed Change" "Safe") = (2024, 2, 29)%Z.
Proof.
  eexists. split; [vm_compute; reflexivity|].
  split; [reflexivity|]. split; vm_compute; reflexivity.
Qed.

(** The same loss of the year puts the day after 31 December first. *)
Example year_end_timeline :
  assess_business_impact extractOne_exact Datetime.fromisoformat_basic
    (calendar []) "2023-12-31T20:00:00" []
  = Py.Ok
      {| business_impact_level := "Low";
         overall_business_risk_score := 0;
         business_impact_timeline :=
           [ timeline_entry "Jan 01" "Safe Window" "Safe";
             timeline_entry "Dec 30" "Safe Window" "Safe";
             timeline_entry "Dec 31" "Proposed Change" "Safe" ];
         business_summary := "Business impact level: Low. Conflicts identified: None." |}.
Proof. vm_compute. reflexivity. Qed.

(** Away from those days the quiet case is as described. *)
Example quiet_timeline :
  assess_business_impact extractOne_exact Datetime.fromisoformat_basic (calendar [])
    "2024-06-15T20:00:00" []
  = Py.Ok
      {| business_impact_level := "Low";
         overall_business_risk_score := 0;
         business_impact_timeline :=
           [ timeline_entry "Jun 14" "Safe Window" "Safe";
             timeline_entry "Jun 15" "Proposed Change" "Safe";
             timeline_entry "Jun 16" "Safe Window" "Safe" ];
         business_summary := "Business impact level: Low. Conflicts identified: None." |}.
Proof. vm_compute. reflexivity. Qed.

(** ** Business impact: merging the entries of a day *)

Lemma merge_pair dt (a b : TimelineEntry) :
  date a = date b ->
  merge_timeline dt [a; b]
  = [(date_key dt a,
      if (level_priority (level b) >? level_priority (level a))%Z then b
      else if (level_priority (level b) =? level_priority (level a))%Z then
        if negb (Py.contains (event b) (event a)) then
          {| date := date a; event := event a +:+ ", " +:+ event b; level := level a |}
        else a
      else a)].
Proof.
  intros Hd. unfold merge_timeline. cbn [fold_left].
  change (merge_item dt [] a) with [(date_key dt a, a)].
  unfold merge_item.
  assert (Hk : date_key dt b = date_key dt a) by (unfold date_key; now rewrite Hd).
  rewrite Hk. cbn [day_get]. rewrite pydate_eqb_refl.
  destruct (_ >? _)%Z; [cbn [day_set]; now rewrite pydate_eqb_refl|].
  destruct (_ =? _)%Z; [|reflexivity].
  destruct (negb _); [|reflexivity].
  cbn [day_set]. now rewrite pydate_eqb_refl.
Qed.

(** C6, as the code has it.  Two entries of the same day with the display
    levels "Medium" and "Peak" merge, in either order, into the "Medium"
    entry alone: its label is kept as it is and the "Peak" entry's name is
    dropped. *)
Theorem C6_merge_medium_peak (dt : Datetime.datetime) (d ev_medium ev_peak : string) :
  let medium := timeline_entry d ev_medium "Medium" in
  let peak := timeline_entry d ev_peak "Peak" in
  merge_timeline dt [medium; peak] = [(date_key dt medium, medium)]
  /\ merge_timeline dt [peak; medium] = [(date_key dt medium, medium)]
  /\ sorted_timeline (merge_timeline dt [medium; peak])
     = Py.bind (Datetime.strptime_b_d d) (fun _ => Py.Ok [medium])
  /\ sorted_timeline (merge_timeline dt [peak; medium])
     = Py.bind (Datetime.strptime_b_d d) (fun _ => Py.Ok [medium]).
Proof.
  intros medium peak.
  assert (H1 : merge_timeline dt [medium; peak] = [(date_key dt medium, medium)])
    by (now rewrite merge_pair).
  assert (H2 : merge_timeline dt [peak; medium] = [(date_key dt medium, medium)])
    by (now rewrite merge_pair).
  rewrite H1, H2. repeat split.
  all: unfold sorted_timeline; cbn [map snd sort_keys]; unfold Py.bind;
    cbn [date medium timeline_entry]; now destruct (Datetime.strptime_b_d d).
Qed.

(** C6 as stated fails: the merged entry of a "Medium" and a "Peak" entry
    does not name the "Peak" event. *)
Lemma C6_counterexample :
  let dt := Datetime.midnight 2024 12 24 in
  let medium := timeline_entry "Dec 24" "Marketing Campaign" "Medium" in
  let peak := timeline_entry "Dec 24" "Peak Hours" "Peak" in
  sorted_timeline (merge_timeline dt [medium; peak]) = Py.Ok [medium]
  /\ sorted_timeline (merge_timeline dt [peak; medium]) = Py.Ok [medium]
  /\ Py.contains "Peak Hours" (event medium) = false
  /\ ~ (exists label,
          sorted_timeline (merge_timeline dt [medium; peak])
          = Py.Ok [timeline_entry "Dec 24" label "Medium"]
          /\ Py.contains "Marketing Campaign" label = true
          /\ Py.contains "Peak Hours" label = true).
Proof.
  cbv zeta. split; [vm_compute; reflexivity|].
  split; [vm_compute; reflexivity|]. split; [vm_compute; reflexivity|].
  intros (label & Hrun & _ & Hpeak).
  vm_compute in Hrun. injection Hrun as <-. vm_compute in Hpeak. discriminate.
Qed.

(** The same in a full run: a "Medium" event on a Tuesday at 10:00. *)
Example campaign_timeline :
  assess_business_impact extractOne_exact Datetime.fromisoformat_basic campaign_calendar
    "2024-12-24T10:00:00" []
  = Py.Ok
      {| business_impact_level := "Medium";
         overall_business_risk_score := 2;
         business_impact_timeline :=
           [ timeline_entry "Dec 24" "Marketing Campaign" "Medium" ];
         business_summary :=
           "Business impact level: Medium. Conflicts identified: Marketing Campaign, Peak Hours" |}.
Proof. vm_compute. reflexivity. Qed.

(** C10.  On a tie of priorities the incoming label is appended unless it
    occurs in the merged label as a substring; so "Peak", next to
    "Peak Hours" on the same day, leaves no trace in the label, also in a
    full run where both events were recorded. *)
Theorem C10_tie_substring_omitted (dt : Datetime.datetime)
    (d lv1 lv2 ev1 ev2 : string) :
  level_priority lv1 = level_priority lv2 ->
  merge_timeline dt [timeline_entry d ev1 lv1; timeline_entry d ev2 lv2]
  = [(date_key dt (timeline_entry d ev1 lv1),
      timeline_entry d (if Py.contains ev2 ev1 then ev1 else ev1 +:+ ", " +:+ ev2) lv1)]
  /\ merge_timeline dt [timeline_entry d "Peak Hours" lv1; timeline_entry d "Peak" lv2]
     = [(date_key dt (timeline_entry d "Peak Hours" lv1),
         timeline_entry d "Peak Hours" lv1)]
  /\ (exists r,
        assess_business_impact extractOne_exact Datetime.fromisoformat_basic
          overlap_calendar "2024-12-28T10:00:00" [] = Py.Ok r
        /\ business_summary r
           = "Business impact level: Medium. Conflicts identified: Peak Hours, Peak"
        /\ business_impact_timeline r = [timeline_entry "Dec 28" "Peak Hours" "High"]).
Proof.
  intros Htie.
  assert (Hrule : forall a b,
            merge_timeline dt [timeline_entry d a lv1; timeline_entry d b lv2]
            = [(date_key dt (timeline_entry d a lv1),
                timeline_entry d (if Py.contains b a then a else a +:+ ", " +:+ b) lv1)]).
  { intros a b. rewrite merge_pair by reflexivity.
    cbn [level event date timeline_entry]. rewrite Htie, Z.eqb_refl.
    replace (level_priority lv2 >? level_priority lv2)%Z with false
      by (symmetry; rewrite Z.gtb_ltb; apply Z.ltb_irrefl).
    now destruct (Py.contains b a). }
  split; [apply Hrule|]. split; [apply (Hrule "Peak Hours" "Peak")|].
  eexists. split; [vm_compute; reflexivity|]. split; reflexivity.
Qed.

Lemma C10_tie_substring_omitted_witness :
  merge_timeline (Datetime.midnight 2024 12 28)
    [timeline_entry "Dec 28" "Peak Hours" "High"; timeline_entry "Dec 28" "Peak" "High"]
  = [((1900, 12, 28)%Z, timeline_entry "Dec 28" "Peak Hours" "High")].
Proof.
  apply (C10_tie_substring_omitted (Datetime.midnight 2024 12 28)
           "Dec 28" "High" "High" "Peak Hours" "Peak").
  reflexivity.
Defined.

(** ** Score aggregation: binary64 facts

    The rounding of a product or quotient, as the standard library
    specifies it, cannot fall below a float that the exact result reaches. *)

Section SpecFloatFacts.
Local Open Scope Z_scope.

Local Abbreviation fexp := (SpecFloat.fexp prec emax).
Local Abbreviation bra := (binary_round_aux prec emax).

Lemma fexp_eq e : fexp e = Z.max (e - 53) (-1074).
Proof. reflexivity. Qed.

Lemma digits2_pos_size p : digits2_pos p = Pos.size p.
Proof. induction p; cbn; now rewrite ?IHp. Qed.

Lemma digits2_bounds p :
  2 ^ (Zpos (digits2_pos p) - 1) <= Zpos p < 2 ^ Zpos (digits2_pos p).
Proof.
  rewrite digits2_pos_size. split.
  - pose proof (Pos.size_le p) as H.
    assert (H' : (2 ^ Zpos (Pos.size p) <= Zpos p~0)%Z).
    { rewrite <- Pos2Z.inj_pow. exact H. }
    replace (Zpos (Pos.size p)) with (Zpos (Pos.size p) - 1 + 1) in H' by lia.
    rewrite Z.pow_add_r in H' by lia. lia.
  - pose proof (Pos.size_gt p) as H.
    rewrite <- Pos2Z.inj_pow. exact H.
Qed.

Lemma digits2_unique p k :
  2 ^ (k - 1) <= Zpos p < 2 ^ k -> Zpos (digits2_pos p) = k.
Proof.
  intros [Hlo Hhi]. pose proof (digits2_bounds p) as [Hlo' Hhi'].
  assert (0 < k).
  { destruct (Z.le_gt_cases k 0) as [Hk|]; [|assumption].
    assert (2 ^ k <= 2 ^ 0) by (apply Z.pow_le_mono_r; lia).
    change (2 ^ 0) with 1 in *. lia. }
  destruct (Z.lt_trichotomy (Zpos (digits2_pos p)) k) as [Hlt|[Heq|Hgt]]; [|exact Heq|].
  - assert (2 ^ Zpos (digits2_pos p) <= 2 ^ (k - 1)) by (apply Z.pow_le_mono_r; lia). lia.
  - assert (2 ^ k <= 2 ^ (Zpos (digits2_pos p) - 1)) by (apply Z.pow_le_mono_r; lia). lia.
Qed.

Lemma shr_1_m r : 0 <= shr_m r -> shr_m (shr_1 r) = shr_m r / 2.
Proof.
  destruct r as [m rb sb]. cbn [shr_m]. intros Hm.
  destruct m as [|[p|p|]|p]; cbn [shr_1 shr_m]; try lia; try reflexivity.
  - apply Z.div_unique with 1; lia.
  - apply Z.div_unique with 0; lia.
Qed.

Lemma shr_1_nonneg r : 0 <= shr_m r -> 0 <= shr_m (shr_1 r).
Proof. intros H. rewrite shr_1_m by assumption. apply Z.div_pos; lia. Qed.

Lemma iter_shr_m p : forall r,
  0 <= shr_m r ->
  shr_m (SpecFloat.iter_pos shr_1 p r) = shr_m r / 2 ^ Zpos p
  /\ 0 <= shr_m (SpecFloat.iter_pos shr_1 p r).
Proof.
  induction p as [p IH|p IH|]; intros r Hr; cbn [SpecFloat.iter_pos].
  - destruct (IH (shr_1 r) (shr_1_nonneg r Hr)) as [E1 N1].
    destruct (IH _ N1) as [E2 N2]. split; [|exact N2].
    rewrite E2, E1, shr_1_m by assumption.
    rewrite !Z.div_div by lia. f_equal.
    rewrite Pos2Z.inj_xI, Z.pow_add_r, Z.pow_mul_r by lia.
    change (2 ^ 2) with 4. change (2 ^ 1) with 2.
    rewrite <- Z.pow_add_r by lia.
    replace (Zpos p + Zpos p) with (2 * Zpos p) by lia.
    rewrite Z.pow_mul_r by lia. change (2 ^ 2) with 4. lia.
  - destruct (IH r Hr) as [E1 N1].
    destruct (IH _ N1) as [E2 N2]. split; [|exact N2].
    rewrite E2, E1. rewrite Z.div_div by lia. f_equal.
    rewrite Pos2Z.inj_xO, <- Z.pow_add_r by lia. f_equal. lia.
  - split; [|now apply shr_1_nonneg].
    rewrite shr_1_m by assumption. reflexivity.
Qed.

Lemma shr_record_of_loc_m m l : shr_m (shr_record_of_loc m l) = m.
Proof. destruct l as [|[]]; reflexivity. Qed.

(** The first shift of a rounding: to the exponent [fexp]. *)
Lemma shr_fexp_spec (m : positive) (e : Z) (l : location) :
  let n := fexp (Zpos (digits2_pos m) + e) - e in
  0 <= n ->
  exists r, shr_fexp prec emax (Zpos m) e l = (r, e + n)
            /\ shr_m r = Zpos m / 2 ^ n.
Proof.
  intros n Hn. unfold shr_fexp. cbn [Zdigits2]. fold n.
  destruct n as [|p|p] eqn:En; [| |lia]; cbn [shr].
  - eexists. split; [f_equal; lia|].
    rewrite shr_record_of_loc_m. change (2 ^ 0) with 1. now rewrite Z.div_1_r.
  - eexists. split; [reflexivity|].
    destruct (iter_shr_m p (shr_record_of_loc (Zpos m) l)) as [H _].
    + rewrite shr_record_of_loc_m. lia.
    + now rewrite H, shr_record_of_loc_m.
Qed.

Lemma round_nearest_even_bounds m l :
  m <= round_nearest_even m l <= m + 1.
Proof.
  destruct l as [|[]]; cbn [round_nearest_even]; try lia.
  destruct (Z.even m); lia.
Qed.

(** Rounding cannot fall below a normal float that the exact value
    reaches: [M * 2^E <= m * 2^e] implies [M * 2^E <= round (m * 2^e)]. *)
Lemma binary_round_aux_lower (m : positive) (e : Z) (l : location)
    (M : positive) (E : Z) :
  53 <= Zpos (digits2_pos m) ->
  Zpos (digits2_pos M) = 53 ->
  -1074 <= E ->
  (E < e \/ (e <= E /\ Zpos M * 2 ^ (E - e) <= Zpos m)) ->
  SFleb (S754_finite false M E) (bra false (Zpos m) e l) = true.
Proof.
  intros Hd HM HE Hval.
  pose proof (digits2_bounds m) as [Hmlo Hmhi].
  pose proof (digits2_bounds M) as [HMlo HMhi]. rewrite HM in HMlo, HMhi.
  change (2 ^ (53 - 1)) with 4503599627370496 in HMlo.
  change (2 ^ 53) with 9007199254740992 in HMhi.
  set (d := Zpos (digits2_pos m)) in *.
  assert (He1 : E <= d + e - 53).
  { destruct Hval as [Hlt|[Hle Hv]]; [lia|].
    destruct (Z.le_gt_cases E (d + e - 53)) as [|Hgt]; [assumption|exfalso].
    assert (2 ^ d <= 2 ^ (52 + (E - e))) by (apply Z.pow_le_mono_r; lia).
    rewrite Z.pow_add_r in H by lia.
    change (2 ^ 52) with 4503599627370496 in H.
    assert (0 < 2 ^ (E - e)) by (apply Z.pow_pos_nonneg; lia).
    nia. }
  assert (Hfexp : fexp (d + e) = d + e - 53) by (rewrite fexp_eq; lia).
  unfold binary_round_aux.
  pose proof (shr_fexp_spec m e l) as Hshr. cbv zeta in Hshr.
  fold d in Hshr. rewrite Hfexp in Hshr.
  replace (d + e - 53 - e) with (d - 53) in Hshr by lia.
  replace (e + (d - 53)) with (d + e - 53) in Hshr by lia.
  destruct Hshr as (r1 & -> & Hr1); [lia|].
  set (e1 := d + e - 53) in *.
  assert (Hm1 : 4503599627370496 <= shr_m r1 < 9007199254740992).
  { rewrite Hr1.
    assert (Hp : 0 < 2 ^ (d - 53)) by (apply Z.pow_pos_nonneg; lia).
    split.
    - apply Z.div_le_lower_bound; [exact Hp|].
      change 4503599627370496 with (2 ^ 52).
      rewrite <- Z.pow_add_r by lia. replace (d - 53 + 52) with (d - 1) by lia.
      exact Hmlo.
    - apply Z.div_lt_upper_bound; [exact Hp|].
      change 9007199254740992 with (2 ^ 53).
      rewrite <- Z.pow_add_r by lia. replace (d - 53 + 53) with d by lia.
      exact Hmhi. }
  pose proof (round_nearest_even_bounds (shr_m r1) (loc_of_shr_record r1)) as Hm2.
  set (m2 := round_nearest_even (shr_m r1) (loc_of_shr_record r1)) in *.
  assert (Hlow : e1 = E -> Zpos M <= shr_m r1).
  { intros Heq. destruct Hval as [Hlt|[Hle Hv]]; [lia|].
    rewrite Hr1. replace (d - 53) with (E - e) by lia.
    apply Z.div_le_lower_bound; [apply Z.pow_pos_nonneg; lia | lia]. }
  destruct m2 as [|p2|p2] eqn:Em2; [lia| |lia].
  destruct (Z.eq_dec (Zpos p2) 9007199254740992) as [Htop|Hnot].
  - (* the mantissa overflowed to 2^53 *)
    injection Htop as ->.
    unfold shr_fexp.
    replace (Zdigits2 9007199254740992) with 54 by (vm_compute; reflexivity).
    rewrite fexp_eq.
    replace (Z.max (54 + e1 - 53) (-1074) - e1) with 1 by lia.
    cbn [shr SpecFloat.iter_pos shr_record_of_loc shr_1 shr_m].
    destruct (e1 + 1 <=? emax - prec); cbn [SFleb SFcompare]; [|reflexivity].
    destruct (Z.compare_spec E (e1 + 1)); [lia | reflexivity | lia].
  - assert (Hdig : Zpos (digits2_pos p2) = 53).
    { apply digits2_unique. change (2 ^ (53 - 1)) with 4503599627370496.
      change (2 ^ 53) with 9007199254740992. lia. }
    unfold shr_fexp. cbn [Zdigits2]. rewrite Hdig, fexp_eq.
    replace (Z.max (53 + e1 - 53) (-1074) - e1) with 0 by lia.
    cbn [shr shr_record_of_loc shr_m].
    destruct (e1 <=? emax - prec); cbn [SFleb SFcompare]; [|reflexivity].
    destruct (Z.compare_spec E e1) as [Heq|Hlt|Hgt]; [|reflexivity|lia].
    rewrite Pos.compare_cont_spec. cbn [Pos.switch_Eq].
    specialize (Hlow (eq_sym Heq)).
    destruct (Pos.compare_spec M p2); [reflexivity | reflexivity | lia].
Qed.

Lemma valid_normal_digits s m e :
  valid_binary (S754_finite s m e) = true -> -1074 < e ->
  Zpos (digits2_pos m) = 53.
Proof.
  cbn [SpecFloat.valid_binary]. unfold bounded, canonical_mantissa.
  rewrite andb_true_iff, Z.eqb_eq, fexp_eq. lia.
Qed.

(** What lies at or above a positive finite float. *)
Lemma above_finite M E y :
  SFleb (S754_finite false M E) y = true ->
  y = S754_infinity false
  \/ exists m e, y = S754_finite false m e /\ (E < e \/ (E = e /\ Zpos M <= Zpos m)).
Proof.
  destruct y as [s|[|]| |[|] m e]; cbn [SFleb SFcompare]; try discriminate.
  - now left.
  - intros H. right. exists m, e. split; [reflexivity|].
    destruct (Z.compare_spec E e) as [Heq|Hlt|Hgt]; [|now left|discriminate].
    right. split; [exact Heq|].
    rewrite Pos.compare_cont_spec in H. cbn [Pos.switch_Eq] in H.
    destruct (Pos.compare_spec M m); [lia | lia | discriminate].
Qed.

Lemma leb_not_ltb M E y :
  SFleb (S754_finite false M E) y = true -> SFltb y (S754_finite false M E) = false.
Proof.
  intros H. destruct (above_finite _ _ _ H) as [->|(m & e & -> & Hge)]; [reflexivity|].
  cbn [SFltb SFcompare].
  destruct (Z.compare_spec e E) as [Heq|Hlt|Hgt]; [|lia|reflexivity].
  rewrite Pos.compare_cont_spec. cbn [Pos.switch_Eq].
  destruct (Pos.compare_spec m M); [reflexivity | lia | reflexivity].
Qed.

(** [15 <= x] implies [1 <= x / 15]. *)
Lemma div_15_lower x :
  valid_binary x = true ->
  SFleb (S754_finite false 8444249301319680 (-49)) x = true ->
  SFleb (S754_finite false 4503599627370496 (-52))
        (SF64div x (S754_finite false 8444249301319680 (-49))) = true.
Proof.
  intros Hvalid Hge.
  destruct (above_finite _ _ _ Hge) as [->|(mx & ex & -> & Hex)]; [reflexivity|].
  assert (Hdx : Zpos (digits2_pos mx) = 53) by (apply (valid_normal_digits _ _ _ Hvalid); lia).
  pose proof (digits2_bounds mx) as [Hlo Hhi]. rewrite Hdx in Hlo, Hhi.
  change (2 ^ (53 - 1)) with 4503599627370496 in Hlo.
  change (2 ^ 53) with 9007199254740992 in Hhi.
  unfold SF64div, SFdiv, SFdiv_core_binary. cbn [Zdigits2 xorb].
  rewrite Hdx.
  replace (Zpos (digits2_pos 8444249301319680)) with 53 by (vm_compute; reflexivity).
  rewrite fexp_eq.
  replace (Z.min (Z.max (53 + ex - (53 + -49) - 53) (-1074)) (ex - -49)) with (ex - 4) by lia.
  replace (ex - -49 - (ex - 4)) with 53 by lia.
  rewrite Z.shiftl_mul_pow2 by lia. change (2 ^ 53) with 9007199254740992.
  destruct (Z.div_eucl _ _) as [q r] eqn:Hdiv.
  assert (Hq : q = Zpos mx * 9007199254740992 / 8444249301319680)
    by (unfold Z.div; now rewrite Hdiv).
  assert (Hq52 : 4503599627370496 <= q).
  { rewrite Hq. apply Z.div_le_lower_bound; lia. }
  destruct q as [|qp|qp]; [lia| |lia].
  apply binary_round_aux_lower; [| reflexivity | lia |].
  - pose proof (digits2_bounds qp) as [_ Hqhi].
    destruct (Z.le_gt_cases 53 (Zpos (digits2_pos qp))) as [|Hlt]; [assumption|exfalso].
    assert (2 ^ Zpos (digits2_pos qp) <= 2 ^ 52) by (apply Z.pow_le_mono_r; lia).
    change (2 ^ 52) with 4503599627370496 in *. lia.
  - destruct (Z.le_gt_cases (ex - 4) (-52)) as [Hle|Hgt]; [right|left; lia].
    split; [exact Hle|].
    assert (Hcases : ex = -49 \/ ex = -48) by lia.
    destruct Hcases as [-> | ->].
    + change (2 ^ (-52 - (-49 - 4))) with 2.
      rewrite Hq. apply Z.div_le_lower_bound; lia.
    + change (2 ^ (-52 - (-48 - 4))) with 1. lia.
Qed.

(** [1 <= y] implies [10 <= y * 10]. *)
Lemma mul_10_lower y :
  valid_binary y = true ->
  SFleb (S754_finite false 4503599627370496 (-52)) y = true ->
  SFleb (S754_finite false 5629499534213120 (-49))
        (SF64mul y (S754_finite false 5629499534213120 (-49))) = true.
Proof.
  intros Hvalid Hge.
  destruct (above_finite _ _ _ Hge) as [->|(my & ey & -> & Hey)]; [reflexivity|].
  assert (Hdy : Zpos (digits2_pos my) = 53) by (apply (valid_normal_digits _ _ _ Hvalid); lia).
  pose proof (digits2_bounds my) as [Hlo Hhi]. rewrite Hdy in Hlo, Hhi.
  change (2 ^ (53 - 1)) with 4503599627370496 in Hlo.
  unfold SF64mul, SFmul. cbn [xorb].
  apply binary_round_aux_lower; [| reflexivity | lia |].
  - pose proof (digits2_bounds (my * 5629499534213120)) as [_ Hphi].
    destruct (Z.le_gt_cases 53 (Zpos (digits2_pos (my * 5629499534213120))))
      as [|Hlt]; [assumption|exfalso].
    assert (2 ^ Zpos (digits2_pos (my * 5629499534213120)) <= 2 ^ 52)
      by (apply Z.pow_le_mono_r; lia).
    change (2 ^ 52) with 4503599627370496 in *. lia.
  - destruct (Z.le_gt_cases (ey + -49) (-49)) as [Hle|Hgt]; [right|left; lia].
    split; [exact Hle|].
    replace (-49 - (ey + -49)) with (- ey) by lia.
    assert (2 ^ (- ey) <= 2 ^ 52) by (apply Z.pow_le_mono_r; lia).
    change (2 ^ 52) with 4503599627370496 in *.
    rewrite Pos2Z.inj_mul. nia.
Qed.

(** A raw value of at least 15 saturates the normalisation. *)
Lemma normalisation_saturates (raw : float) :
  (15 <=? raw)%float = true -> (raw / 15 * 10 <? 10)%float = false.
Proof.
  rewrite leb_spec, ltb_spec, mul_spec. intros H.
  apply (leb_not_ltb 5629499534213120 (-49)).
  apply (mul_10_lower (Prim2SF (raw / 15))); [apply Prim2SF_valid|].
  rewrite div_spec.
  apply (div_15_lower (Prim2SF raw)); [apply Prim2SF_valid | exact H].
Qed.

End SpecFloatFacts.

Lemma SFmul_comm (x y : spec_float) : SF64mul x y = SF64mul y x.
Proof.
  unfold SF64mul.
  destruct x as [sx|sx| |sx mx ex], y as [sy|sy| |sy my ey]; cbn [SFmul];
    rewrite ?(xorb_comm sx sy); try reflexivity.
  now rewrite Pos.mul_comm, Z.add_comm.
Qed.

Lemma float_mul_comm (x y : float) : (x * y = y * x)%float.
Proof. apply Prim2SF_inj. rewrite !mul_spec. apply SFmul_comm. Qed.

(** ** Score aggregation: the claim *)

Lemma calculated_risk_value_spec (t d b : float) (p : string) :
  calculated_risk_value t d b p = Spec.raw t d b p.
Proof.
  unfold calculated_risk_value, Spec.raw.
  change (risk_weight "technical") with 0.4%float.
  change (risk_weight "dependency") with 0.3%float.
  change (risk_weight "business") with 0.3%float.
  rewrite (float_mul_comm t), (float_mul_comm d), (float_mul_comm b).
  unfold config.PRIORITY_ADJUSTMENTS. cbn [Py.dict_get].
  rewrite (String.eqb_sym "High" p), (String.eqb_sym "Critical" p).
  destruct (String.eqb p "High"); [reflexivity|].
  destruct (String.eqb p "Critical"); reflexivity.
Qed.

(** C2.  The scoring computes the weighted sum, the priority adjustment,
    the normalised score, the rounded safety score and the level as
    specified, on binary64 floats; the inputs (0, 0, 0, "Medium") give
    1.0, 10.0 and LOW; and every raw value of at least 15.0 gives 10.0,
    1.0 and HIGH. *)
Theorem C2_score_aggregation (t d b : float) (p : string) :
  let scores := risk_scores t d b p in
  let raw := Spec.raw t d b p in
  (calculated_risk_value t d b p = raw
   /\ normalized scores = Spec.normalized raw
   /\ risk_score scores = Spec.safety (Spec.normalized raw)
   /\ risk_level_of scores = Spec.level (Spec.safety (Spec.normalized raw)))
  /\ (forall (count business : Z),
        assess_risk_scores t count business p
        = Py.bind (PyFloat.of_int count) (fun d' =>
          Py.bind (PyFloat.of_int business) (fun b' =>
          Py.Ok (risk_scores t d' b' p))))
  /\ assess_risk_scores 0%float 0 0 "Medium"
     = Py.Ok {| normalized := 1.0%float; risk_score := 10.0%float;
                risk_level_of := "LOW" |}
  /\ ((15.0 <=? raw)%float = true ->
      normalized scores = 10.0%float
      /\ risk_score scores = 1.0%float
      /\ risk_level_of scores = "HIGH").
Proof.
  intros scores raw.
  assert (Hraw : calculated_risk_value t d b p = raw)
    by apply calculated_risk_value_spec.
  assert (Hnorm : normalized scores = Spec.normalized raw).
  { unfold scores, risk_scores. cbn [normalized]. now rewrite Hraw. }
  split; [|split; [|split]].
  - split; [exact Hraw|]. split; [exact Hnorm|].
    unfold scores, risk_scores in *. cbn [normalized risk_score risk_level_of] in *.
    rewrite Hnorm. split; reflexivity.
  - reflexivity.
  - vm_compute. reflexivity.
  - intros Hsat.
    assert (Hten : normalized scores = 10.0%float).
    { rewrite Hnorm. unfold Spec.normalized, Spec.clamp, PyFloat.min.
      rewrite (normalisation_saturates raw Hsat). reflexivity. }
    split; [exact Hten|].
    unfold scores, risk_scores in *. cbn [normalized risk_score risk_level_of] in *.
    rewrite Hten. split; vm_compute; reflexivity.
Qed.

Lemma C2_score_aggregation_witness :
  normalized (risk_scores 10.0 20.0 20.0 "Critical") = 10.0%float
  /\ risk_score (risk_scores 10.0 20.0 20.0 "Critical") = 1.0%float
  /\ risk_level_of (risk_scores 10.0 20.0 20.0 "Critical") = "HIGH".
Proof.
  apply (C2_score_aggregation 10.0 20.0 20.0 "Critical").
  vm_compute. reflexivity.
Defined.

(** ** Sorting *)

Section SortedFacts.
Context {A : Type} (leb : A -> A -> bool).
Hypothesis leb_total : forall a b, leb a b = true \/ leb b a = true.
Hypothesis leb_trans : forall a b c, leb a b = true -> leb b c = true -> leb a c = true.

Lemma insert_sorted_perm x l : Permutation (Py.insert_sorted leb x l) (x :: l).
Proof.
  induction l as [|y ys IH]; simpl; [reflexivity|].
  destruct (leb x y); [reflexivity|].
  rewrite IH. apply perm_swap.
Qed.

Lemma sorted_perm l : Permutation (Py.sorted leb l) l.
Proof.
  induction l as [|x xs IH]; simpl; [reflexivity|].
  now rewrite insert_sorted_perm, IH.
Qed.

Lemma insert_sorted_sorted x l :
  StronglySorted (fun a b => leb a b = true) l ->
  StronglySorted (fun a b => leb a b = true) (Py.insert_sorted leb x l).
Proof.
  induction 1 as [|y ys Hs IH Hall]; simpl.
  - repeat constructor.
  - destruct (leb x y) eqn:E.
    + constructor; [now constructor|].
      constructor; [exact E|].
      eapply Forall_impl; [exact Hall|]. intros z Hz. now apply leb_trans with y.
    + constructor; [exact IH|].
      eapply Permutation_Forall; [symmetry; apply insert_sorted_perm|].
      constructor; [|exact Hall].
      destruct (leb_total x y) as [H|H]; [congruence | exact H].
Qed.

Lemma sorted_sorted l : StronglySorted (fun a b => leb a b = true) (Py.sorted leb l).
Proof.
  induction l as [|x xs IH]; simpl; [constructor | now apply insert_sorted_sorted].
Qed.

End SortedFacts.

(** Python's order on strings is a total order. *)
Lemma ascii_compare_N a b : Ascii.compare a b = N.compare (N_of_ascii a) (N_of_ascii b).
Proof. reflexivity. Qed.

Lemma string_compare_trans c : forall x y z,
  String.compare x y = c -> String.compare y z = c -> String.compare x z = c.
Proof.
  induction x as [|a x IH]; intros [|b y] [|d z]; simpl; try congruence.
  rewrite !ascii_compare_N.
  destruct (N.compare_spec (N_of_ascii a) (N_of_ascii b)) as [E1|E1|E1];
  destruct (N.compare_spec (N_of_ascii b) (N_of_ascii d)) as [E2|E2|E2];
  intros H1 H2; subst; try congruence.
  - rewrite E1, E2, N.compare_refl. eapply IH; eauto.
  - rewrite E1. now apply N.compare_lt_iff in E2 as ->.
  - rewrite E1. now apply N.compare_gt_iff in E2 as ->.
  - rewrite <- E2. now apply N.compare_lt_iff in E1 as ->.
  - assert (H : (N_of_ascii a < N_of_ascii d)%N) by lia.
    now apply N.compare_lt_iff in H as ->.
  - rewrite <- E2. now apply N.compare_gt_iff in E1 as ->.
  - assert (H : (N_of_ascii d < N_of_ascii a)%N) by lia.
    now apply N.compare_gt_iff in H as ->.
Qed.

Lemma string_leb_trans a b c :
  String.leb a b = true -> String.leb b c = true -> String.leb a c = true.
Proof.
  unfold String.leb.
  destruct (String.compare a b) eqn:E1; try discriminate;
  destruct (String.compare b c) eqn:E2; try discriminate; intros _ _.
  - apply String.compare_eq_iff in E1. subst. now rewrite E2.
  - apply String.compare_eq_iff in E1. subst. now rewrite E2.
  - apply String.compare_eq_iff in E2. subst. now rewrite E1.
  - now rewrite (string_compare_trans Lt a b c).
Qed.

Lemma string_leb_total a b : String.leb a b = true \/ String.leb b a = true.
Proof.
  destruct (String.leb_total a b) as [H|H]; [left | right]; exact H.
Qed.

Lemma sorted_set_In (s : gset string) x : In x (Py.sorted_set s) <-> x ∈ s.
Proof.
  unfold Py.sorted_set. rewrite <- elem_of_elements, <- list_elem_of_In.
  now rewrite (sorted_perm String.leb (elements s)).
Qed.

Lemma sorted_set_NoDup (s : gset string) : NoDup (Py.sorted_set s).
Proof.
  unfold Py.sorted_set. rewrite (sorted_perm String.leb (elements s)).
  apply NoDup_elements.
Qed.

Lemma strictly_ascending l :
  StronglySorted (fun a b => String.leb a b = true) l -> NoDup l -> ascending l.
Proof.
  induction 1 as [|x xs Hs IH Hall]; intros Hnd; [constructor|].
  apply NoDup_cons in Hnd as [Hx Hnd].
  constructor; [now apply IH|].
  apply Forall_forall. intros y Hy.
  rewrite Forall_forall in Hall. specialize (Hall y Hy).
  unfold String.leb in Hall. unfold String.ltb.
  destruct (String.compare x y) eqn:E; try discriminate; [|reflexivity].
  apply String.compare_eq_iff in E. subst. contradiction.
Qed.

Lemma sorted_set_ascending (s : gset string) : ascending (Py.sorted_set s).
Proof.
  apply strictly_ascending; [|apply sorted_set_NoDup].
  apply sorted_sorted; [apply string_leb_total | apply string_leb_trans].
Qed.

(** ** Dependency analysis: what the traversal reports *)

Section TraversalFacts.
Context (extractOne : Matcher) (td : ToolsData) (tl : list string).

Local Abbreviation normalize := (_normalize_service_name extractOne td).
Local Abbreviation T := (list_to_set tl : gset string).
Local Abbreviation fd := (find_downstream extractOne td T).
Local Abbreviation consumers info := (map normalize (default [] (consumedBy info))).
Local Abbreviation services := (serviceDependencies (dataset td)).

(** What the one-hop scan adds. *)
Lemma consumed_by_scan_spec sys st y :
  y ∈ consumed_by_scan extractOne td T sys st
  <-> y ∈ st \/ ((y ∉ T) /\ exists info, In info services /\ In sys (consumers info)
                                   /\ y = normalize (serviceName info)).
Proof.
  unfold consumed_by_scan. generalize services as l. intros l. revert st.
  induction l as [|s l IH]; intros st; cbn [fold_left].
  - split; [now left | intros [H|(_ & i & [] & _)]; exact H].
  - rewrite IH. clear IH. split.
    + intros [H|(HT & i & Hi & Hc & ->)].
      * repeat case_decide; try (now left).
        apply elem_of_union in H as [H|H]; [|now left].
        apply elem_of_singleton in H. subst y. right.
        split; [tauto|]. exists s. split; [now left|]. split; [|reflexivity].
        now apply list_elem_of_In.
      * right. split; [exact HT|]. exists i. split; [now right | tauto].
    + intros [H|(HT & i & [->|Hi] & Hc & ->)].
      * left. repeat case_decide; set_solver.
      * left. apply list_elem_of_In in Hc.
        case_decide; [|contradiction].
        case_decide as Hd; [set_solver|].
        apply not_and_l in Hd as [Hd|Hd]; [|contradiction].
        now apply dec_stable in Hd.
      * right. split; [exact HT|]. exists i. tauto.
Qed.

Lemma consumed_by_scan_none sys st :
  no_consumers td -> consumed_by_scan extractOne td T sys st = st.
Proof.
  intros Hno. apply set_eq. intros y. rewrite consumed_by_scan_spec.
  split; [|now left]. intros [H|(_ & i & Hi & Hc & _)]; [exact H|].
  rewrite (Hno i Hi) in Hc. destruct Hc.
Qed.


Local Abbreviation conn := (connected extractOne td tl).
Local Abbreviation edges := (edges_within extractOne td tl).
Local Abbreviation cons_in := (consumers_within extractOne td tl).
Local Abbreviation post := (visit_post extractOne td tl).

Lemma edges_within_mono y st st' : st ⊆ st' -> edges y st -> edges y st'.
Proof.
  intros Hsub H deps d Hg Hd. specialize (H deps d Hg Hd).
  apply elem_of_union in H as [H|H]; [apply elem_of_union_l, Hsub, H | now apply elem_of_union_r].
Qed.

Lemma consumers_within_mono y st st' : st ⊆ st' -> cons_in y st -> cons_in y st'.
Proof.
  intros Hsub H deps i Hg Hi Hc. specialize (H deps i Hg Hi Hc).
  apply elem_of_union in H as [H|H]; [apply elem_of_union_l, Hsub, H | now apply elem_of_union_r].
Qed.

Lemma forward_deps_post rec :
  (forall s st st', rec s st = Some st' -> post s st st') ->
  forall deps st st',
    forward_deps extractOne td T rec deps st = Some st' ->
    st ⊆ st'
    /\ ((forall d, In d deps -> conn (normalize d)) ->
        forall y, y ∈ st' -> y ∈ st \/ conn y)
    /\ (forall d, In d deps -> normalize d ∈ st' ∪ T)
    /\ (no_consumers td -> forall y, y ∈ st' -> y ∉ st -> edges y st').
Proof.
  intros Hrec deps. induction deps as [|dep rest IH]; intros st st'; cbn [forward_deps].
  - intros [= <-]. split; [reflexivity|]. split; [now left|].
    split; [intros d []|]. intros _ y Hy Hny. contradiction.
  - case_decide as Hfresh.
    + destruct (rec _ _) as [st1|] eqn:E; [|discriminate]. intros H.
      destruct (Hrec _ _ _ E) as (S1 & C1 & E1 & _ & N1).
      destruct (IH _ _ H) as (S2 & C2 & D2 & N2). clear IH Hrec.
      assert (S0 : st ⊆ st1) by (etrans; [|exact S1]; apply union_subseteq_r).
      split; [etrans; [exact S0 | exact S2]|]. split; [|split].
      * intros Hall y Hy.
        destruct (C2 (fun d Hd => Hall d (or_intror Hd)) y Hy) as [Hy1|Hc]; [|now right].
        destruct (C1 (Hall dep (or_introl eq_refl)) y Hy1) as [Hy0|Hc]; [|now right].
        apply elem_of_union in Hy0 as [Hy0|Hy0]; [|now left].
        apply elem_of_singleton in Hy0. subst y. right. apply Hall. now left.
      * intros d [<-|Hd]; [|now apply D2].
        apply elem_of_union_l, S2, S1, elem_of_union_l, elem_of_singleton. reflexivity.
      * intros Hno y Hy Hny.
        destruct (decide (y ∈ st1)) as [Hy1|Hy1]; [|now apply N2].
        apply edges_within_mono with st1; [exact S2|].
        destruct (decide (y ∈ {[normalize dep]} ∪ st)) as [Hy0|Hy0]; [|now apply N1].
        apply elem_of_union in Hy0 as [Hy0|Hy0]; [|contradiction].
        apply elem_of_singleton in Hy0. subst y. exact E1.
    + intros H. destruct (IH _ _ H) as (S2 & C2 & D2 & N2). clear IH Hrec.
      split; [exact S2|]. split; [|split; [|exact N2]].
      * intros Hall. apply C2. intros d Hd. apply Hall. now right.
      * intros d [<-|Hd]; [|now apply D2].
        apply not_and_l in Hfresh as [Hd|Hd]; apply dec_stable in Hd.
        -- now apply elem_of_union_l, S2.
        -- now apply elem_of_union_r.
Qed.

Lemma find_downstream_post fuel : forall s st st',
  fd fuel s st = Some st' -> post s st st'.
Proof.
  induction fuel as [|fuel IH]; intros s st st'; [discriminate|].
  rewrite find_downstream_S.
  destruct (Py.dict_get (dep_graph td) (normalize s)) as [deps|] eqn:G.
  - destruct (forward_deps _ _ _ _ _ _) as [st1|] eqn:F; [|discriminate].
    intros [= <-].
    destruct (forward_deps_post _ IH _ _ _ F) as (S1 & C1 & D1 & N1). clear IH F.
    assert (S2 : st1 ⊆ consumed_by_scan extractOne td T (normalize s) st1).
    { intros y Hy. apply consumed_by_scan_spec. now left. }
    split; [etrans; [exact S1 | exact S2]|]. split; [|split; [|split]].
    + intros Hs y Hy.
      apply consumed_by_scan_spec in Hy as [Hy|(HT & i & Hi & Hc & ->)].
      * apply C1; [|exact Hy]. intros d Hd. now apply connected_forward with s deps.
      * right. now apply connected_consumer with s deps.
    + intros deps' d G' Hd. rewrite G in G'. injection G' as <-.
      specialize (D1 d Hd). apply elem_of_union in D1 as [H|H];
        [apply elem_of_union_l, S2, H | now apply elem_of_union_r].
    + intros deps' i _ Hi Hc.
      destruct (decide (normalize (serviceName i) ∈ T)) as [HT|HT];
        [now apply elem_of_union_r|].
      apply elem_of_union_l, consumed_by_scan_spec. right.
      split; [exact HT|]. exists i. tauto.
    + intros Hno y. rewrite consumed_by_scan_none by exact Hno. now apply N1.
  - intros [= <-]. split; [reflexivity|]. split; [now left|].
    split; [|split].
    + intros deps d G'. congruence.
    + intros deps i G'. congruence.
    + intros _ y Hy Hny. contradiction.
Qed.

Lemma each_target_post fuel systems : forall st st',
  each_target extractOne td T fuel systems st = Some st' ->
  st ⊆ st'
  /\ ((forall s, In s systems -> conn s) -> forall y, y ∈ st' -> y ∈ st \/ conn y)
  /\ (forall s, In s systems -> edges s st' /\ cons_in s st')
  /\ (no_consumers td -> forall y, y ∈ st' -> y ∉ st -> edges y st').
Proof.
  induction systems as [|system rest IH]; intros st st'; cbn [each_target].
  - intros [= <-]. split; [reflexivity|]. split; [now left|].
    split; [intros s []|]. intros _ y Hy Hny. contradiction.
  - destruct (fd fuel system st) as [st1|] eqn:E; [|discriminate]. intros H.
    destruct (find_downstream_post _ _ _ _ E) as (S1 & C1 & E1 & K1 & N1).
    destruct (IH _ _ H) as (S2 & C2 & D2 & N2). clear IH.
    split; [etrans; [exact S1 | exact S2]|]. split; [|split].
    + intros Hall y Hy.
      destruct (C2 (fun s Hs => Hall s (or_intror Hs)) y Hy) as [Hy1|Hc]; [|now right].
      apply C1; [|exact Hy1]. apply Hall. now left.
    + intros s [<-|Hs]; [|now apply D2].
      split; [now apply edges_within_mono with st1
             | now apply consumers_within_mono with st1].
    + intros Hno y Hy Hny.
      destruct (decide (y ∈ st1)) as [Hy1|Hy1]; [|now apply N2].
      apply edges_within_mono with st1; [exact S2 | now apply N1].
Qed.

End TraversalFacts.

Section AnalysisFacts.
Context (extractOne : Matcher) (td : ToolsData).

Local Abbreviation normalize := (_normalize_service_name extractOne td).
Local Abbreviation analyze := (analyze_service_dependencies extractOne td).
Local Abbreviation run targets :=
  (each_target extractOne td (list_to_set (normalize_all extractOne td targets))
     (enough_fuel td) (normalize_all extractOne td targets) ∅).

(** The analysis returns the report of the set the traversal ends with. *)
Lemma analyze_run targets :
  exists impacted : gset string,
    run targets = Some impacted
    /\ analyze targets
       = Some (dependency_report (list_to_set (normalize_all extractOne td targets)) impacted).
Proof.
  destruct (analyze_returns extractOne td targets) as (st & H & _).
  unfold analyze_service_dependencies, analyze_with in H |- *.
  destruct (run targets) as [impacted|]; [|discriminate].
  exists impacted. split; reflexivity.
Qed.

Lemma connected_forward_only tl x :
  no_consumers td -> connected extractOne td tl x -> forward_reachable extractOne td tl x.
Proof.
  intros Hno. induction 1 as [s Hs | x deps d _ IH Hg Hd | x deps i _ _ _ Hi Hc].
  - now apply forward_target.
  - now apply forward_edge with x deps.
  - rewrite (Hno i Hi) in Hc. destruct Hc.
Qed.

Lemma forward_reachable_connected tl x :
  forward_reachable extractOne td tl x -> connected extractOne td tl x.
Proof.
  induction 1 as [s Hs | x deps d _ IH Hg Hd].
  - now apply connected_target.
  - now apply connected_forward with x deps.
Qed.

(** X1. The three lists of the report are strictly ascending (so free of
    duplicates); the analysed targets are the normalised non-empty targets;
    no target is listed as impacted; and the involved services are the
    targets together with the impacted ones. *)
Theorem report_lists targets :
  exists r, analyze targets = Some r
    /\ (forall x, In x (target_systems_analyzed r)
                  <-> In x (normalize_all extractOne td targets))
    /\ (forall x, In x (impacted_dependencies r) -> ~ In x (target_systems_analyzed r))
    /\ (forall x, In x (all_involved_services r)
                  <-> In x (target_systems_analyzed r) \/ In x (impacted_dependencies r))
    /\ ascending (target_systems_analyzed r)
    /\ ascending (impacted_dependencies r)
    /\ ascending (all_involved_services r).
Proof.
  destruct (analyze_run targets) as (impacted & _ & ->).
  eexists. split; [reflexivity|]. cbn.
  split; [|split; [|split; [|repeat split; apply sorted_set_ascending]]].
  - intros x. rewrite sorted_set_In, elem_of_list_to_set. apply list_elem_of_In.
  - intros x. rewrite !sorted_set_In, elem_of_difference. tauto.
  - intros x. rewrite !sorted_set_In, elem_of_union, elem_of_difference.
    destruct (decide (x ∈ (list_to_set (normalize_all extractOne td targets) : gset string)));
      tauto.
Qed.

Lemma each_target_unknown T n systems st :
  (forall s, In s systems -> Py.dict_get (dep_graph td) (normalize s) = None) ->
  each_target extractOne td T (S n) systems st = Some st.
Proof.
  induction systems as [|s rest IH]; intros Hall; cbn [each_target]; [reflexivity|].
  rewrite find_downstream_S, (Hall s (or_introl eq_refl)).
  apply IH. intros s' Hs'. apply Hall. now right.
Qed.

(** X2. Targets that name no service of the directory (after the two
    normalisations the code applies), among them an empty target list and
    empty names, give an empty impact: no impacted dependency, the fixed
    summary, and the targets alone as involved services. *)
Theorem unknown_targets_no_impact targets :
  (forall s, In s (normalize_all extractOne td targets) ->
             Py.dict_get (dep_graph td) (normalize s) = None) ->
  exists r, analyze targets = Some r
    /\ impacted_dependencies r = []
    /\ dependency_summary r = "No significant additional downstream dependencies detected."
    /\ all_involved_services r = target_systems_analyzed r.
Proof.
  intros Hall. destruct (analyze_run targets) as (impacted & Hrun & ->).
  unfold enough_fuel in Hrun. rewrite each_target_unknown in Hrun by exact Hall.
  injection Hrun as <-. eexists. split; [reflexivity|].
  unfold dependency_report. cbn.
  rewrite union_empty_r_L.
  replace (∅ ∖ list_to_set (normalize_all extractOne td targets) : gset string)
    with (∅ : gset string) by (symmetry; apply difference_disjoint_L; set_solver).
  unfold Py.sorted_set. rewrite elements_empty. repeat split; reflexivity.
Qed.

(** X3. One hop is always reported: every forward edge of a target that is
    a key of the graph, and every listed service whose consumedBy list names
    such a target, is among the involved services. *)
Theorem direct_neighbours_reported targets :
  exists r, analyze targets = Some r
    /\ forall s deps, In s (normalize_all extractOne td targets) ->
         Py.dict_get (dep_graph td) (normalize s) = Some deps ->
         (forall d, In d deps -> In (normalize d) (all_involved_services r))
         /\ (forall service_info,
               In service_info (serviceDependencies (dataset td)) ->
               In (normalize s) (map normalize (default [] (consumedBy service_info))) ->
               In (normalize (serviceName service_info)) (all_involved_services r)).
Proof.
  destruct (analyze_run targets) as (impacted & Hrun & ->).
  eexists. split; [reflexivity|]. cbn. intros s deps Hs Hg.
  destruct (each_target_post _ _ _ _ _ _ _ Hrun) as (_ & _ & D & _).
  destruct (D s Hs) as [He Hc].
  split.
  - intros d Hd. apply sorted_set_In. specialize (He deps d Hg Hd).
    apply elem_of_union in He. apply elem_of_union. tauto.
  - intros i Hi Hin. apply sorted_set_In. specialize (Hc deps i Hg Hi Hin).
    apply elem_of_union in Hc. apply elem_of_union. tauto.
Qed.

(** X4. Nothing unrelated is reported: every impacted dependency is
    connected to a normalised target by forward edges and consumedBy links
    through keys of the graph, and is not itself a target. *)
Theorem impacted_are_connected targets :
  exists r, analyze targets = Some r
    /\ forall x, In x (impacted_dependencies r) ->
         connected extractOne td (normalize_all extractOne td targets) x
         /\ ~ In x (normalize_all extractOne td targets).
Proof.
  destruct (analyze_run targets) as (impacted & Hrun & ->).
  eexists. split; [reflexivity|]. cbn. intros x Hx.
  apply sorted_set_In, elem_of_difference in Hx as [Hx HT].
  destruct (each_target_post _ _ _ _ _ _ _ Hrun) as (_ & C & _ & _).
  split.
  - destruct (C (fun s Hs => connected_target _ _ _ s Hs) x Hx) as [H|H]; [|exact H].
    now apply elem_of_empty in H.
  - intros H. apply HT, elem_of_list_to_set, list_elem_of_In, H.
Qed.

(** X5. When no listed service has a consumedBy entry, the involved services
    are exactly the names reachable from the normalised targets along
    forward edges: the traversal is a complete transitive closure, cycles
    included. *)
Theorem forward_closure targets :
  no_consumers td ->
  exists r, analyze targets = Some r
    /\ forall x, In x (all_involved_services r)
                 <-> forward_reachable extractOne td (normalize_all extractOne td targets) x.
Proof.
  intros Hno. destruct (analyze_run targets) as (impacted & Hrun & ->).
  eexists. split; [reflexivity|]. cbn. intros x. rewrite sorted_set_In.
  destruct (each_target_post _ _ _ _ _ _ _ Hrun) as (_ & C & D & N).
  split.
  - intros Hx. apply elem_of_union in Hx as [Hx|Hx].
    + apply forward_target, list_elem_of_In. now apply elem_of_list_to_set in Hx.
    + apply connected_forward_only; [exact Hno|].
      destruct (C (fun s Hs => connected_target _ _ _ s Hs) x Hx) as [H|H]; [|exact H].
      now apply elem_of_empty in H.
  - induction 1 as [s Hs | y deps d _ IH Hg Hd].
    + apply elem_of_union_l, elem_of_list_to_set, list_elem_of_In, Hs.
    + assert (He : edges_within extractOne td (normalize_all extractOne td targets) y impacted).
      { apply elem_of_union in IH as [IH|IH].
        - apply D, list_elem_of_In. now apply elem_of_list_to_set in IH.
        - apply N; [exact Hno | exact IH | apply not_elem_of_empty]. }
      specialize (He deps d Hg Hd). apply elem_of_union in He. apply elem_of_union. tauto.
Qed.

End AnalysisFacts.

Lemma unknown_targets_no_impact_witness :
  exists r, analyze_service_dependencies extractOne_exact (startup_event scenario_dataset)
              [""; "mail-relay"] = Some r
    /\ impacted_dependencies r = []
    /\ dependency_summary r = "No significant additional downstream dependencies detected."
    /\ all_involved_services r = target_systems_analyzed r.
Proof.
  apply (unknown_targets_no_impact extractOne_exact (startup_event scenario_dataset)
           [""; "mail-relay"]).
  intros s [<-|[]]. vm_compute. reflexivity.
Defined.

Lemma forward_closure_witness :
  exists r, analyze_service_dependencies extractOne_exact (startup_event dangling_dataset)
              ["checkout-ui"] = Some r
    /\ forall x, In x (all_involved_services r)
                 <-> forward_reachable extractOne_exact (startup_event dangling_dataset)
                       (normalize_all extractOne_exact (startup_event dangling_dataset)
                          ["checkout-ui"]) x.
Proof.
  apply (forward_closure extractOne_exact (startup_event dangling_dataset) ["checkout-ui"]).
  intros service_info [<-|[]]. reflexivity.
Defined.

(** ** Business impact: what the merge loop maintains *)

Lemma day_get_None (d : day_dict) k : day_get d k = None -> k ∉ map fst d.
Proof.
  induction d as [|[k0 v0] d IH]; cbn [day_get map fst].
  - intros _. apply not_elem_of_nil.
  - destruct (Datetime.pydate_eqb k0 k) eqn:E; [discriminate|].
    intros H. apply not_elem_of_cons. split; [|now apply IH].
    intros ->. now rewrite pydate_eqb_refl in E.
Qed.

Lemma day_get_Some_In (d : day_dict) k v : day_get d k = Some v -> In (k, v) d.
Proof.
  induction d as [|[k0 v0] d IH]; cbn [day_get]; [discriminate|].
  destruct (Datetime.pydate_eqb k0 k) eqn:E.
  - apply pydate_eqb_eq in E. subst. intros [= ->]. now left.
  - intros H. right. now apply IH.
Qed.

Lemma day_set_keys (d : day_dict) k v :
  map fst (day_set d k v)
  = match day_get d k with Some _ => map fst d | None => map fst d ++ [k] end.
Proof.
  induction d as [|[k0 v0] d IH]; cbn [day_set day_get map fst app]; [reflexivity|].
  destruct (Datetime.pydate_eqb k0 k); cbn [map fst]; [reflexivity|].
  rewrite IH. now destruct (day_get d k).
Qed.

Lemma day_set_In (d : day_dict) k v k' v' :
  In (k', v') (day_set d k v) -> (k' = k /\ v' = v) \/ In (k', v') d.
Proof.
  induction d as [|[k0 v0] d IH]; cbn [day_set].
  - intros [[= <- <-]|[]]. now left.
  - destruct (Datetime.pydate_eqb k0 k) eqn:E.
    + apply pydate_eqb_eq in E. subst k0.
      intros [[= <- <-]|H]; [now left | right; now right].
    + intros [H|H]; [right; now left|].
      destruct (IH H) as [?|?]; [now left | right; now right].
Qed.

Lemma day_set_NoDup (d : day_dict) k v : NoDup (map fst d) -> NoDup (map fst (day_set d k v)).
Proof.
  intros H. rewrite day_set_keys. destruct (day_get d k) eqn:E; [exact H|].
  apply NoDup_app. split; [exact H|]. split; [|apply NoDup_singleton].
  intros x Hx Hk. apply list_elem_of_singleton in Hk. subst x.
  now apply (day_get_None d k E).
Qed.

Lemma merge_item_invariant dt seen acc x :
  merge_invariant dt seen acc -> merge_invariant dt (seen ++ [x]) (merge_item dt acc x).
Proof.
  intros (Hnd & Hseen & Hstored).
  assert (Hkeep : forall acc',
    NoDup (map fst acc') ->
    (forall k', day_get acc' k'
                = if Datetime.pydate_eqb (date_key dt x) k'
                  then day_get acc' (date_key dt x) else day_get acc k') ->
    (exists stored, day_get acc' (date_key dt x) = Some stored
       /\ (level_priority (level x) <= level_priority (level stored))%Z
       /\ (forall old, day_get acc (date_key dt x) = Some old ->
             level_priority (level old) <= level_priority (level stored))%Z
       /\ exists item, In item (seen ++ [x]) /\ date_key dt item = date_key dt x
            /\ level stored = level item /\ date stored = date item) ->
    (forall k s, In (k, s) acc' -> In (k, s) acc \/ day_get acc' (date_key dt x) = Some s
                                               /\ k = date_key dt x) ->
    merge_invariant dt (seen ++ [x]) acc').
  { intros acc' Hnd' Hget (stored & Hst & Hle & Hold & Horigin) Hin.
    split; [exact Hnd'|]. split.
    - intros item Hitem. apply in_app_iff in Hitem as [Hitem|[<-|[]]].
      + destruct (Hseen item Hitem) as (s0 & Hs0 & Hle0).
        rewrite Hget.
        destruct (Datetime.pydate_eqb (date_key dt x) (date_key dt item)) eqn:E.
        * apply pydate_eqb_eq in E. rewrite <- E in Hs0.
          exists stored. split; [exact Hst|]. specialize (Hold s0 Hs0). lia.
        * now exists s0.
      + now exists stored.
    - intros k s Hks. destruct (Hin k s Hks) as [Hacc|[Hs ->]].
      + destruct (Hstored k s Hacc) as (item & Hi & Hk & Hl & Hd).
        exists item. split; [apply in_app_iff; now left | tauto].
      + rewrite Hst in Hs. injection Hs as <-. exact Horigin. }
  assert (Hx : In x (seen ++ [x])) by (apply in_app_iff; right; now left).
  assert (Hset : forall v k', day_get (day_set acc (date_key dt x) v) k'
            = if Datetime.pydate_eqb (date_key dt x) k'
              then day_get (day_set acc (date_key dt x) v) (date_key dt x)
              else day_get acc k').
  { intros v k'. rewrite !day_get_set, pydate_eqb_refl.
    now destruct (Datetime.pydate_eqb (date_key dt x) k'). }
  assert (Hsetin : forall v k s, In (k, s) (day_set acc (date_key dt x) v) ->
            In (k, s) acc \/ day_get (day_set acc (date_key dt x) v) (date_key dt x) = Some s
                             /\ k = date_key dt x).
  { intros v k s H. apply day_set_In in H as [[-> ->]|H]; [right|now left].
    now rewrite day_get_set, pydate_eqb_refl. }
  unfold merge_item.
  destruct (day_get acc (date_key dt x)) as [existing|] eqn:Eg.
  - destruct (Hstored _ _ (day_get_Some_In _ _ _ Eg)) as (it0 & Hi0 & Hk0 & Hl0 & Hd0).
    destruct (Z.gtb_spec (level_priority (level x)) (level_priority (level existing)))
      as [Hgt|Hle].
    + apply Hkeep; [now apply day_set_NoDup | apply Hset | | apply Hsetin].
      exists x. rewrite day_get_set, pydate_eqb_refl.
      split; [reflexivity|]. split; [lia|]. split; [intros old [= <-]; lia|].
      exists x. tauto.
    + destruct (Z.eqb_spec (level_priority (level x)) (level_priority (level existing)))
        as [Heq|Hne].
      * destruct (negb _).
        -- apply Hkeep; [now apply day_set_NoDup | apply Hset | | apply Hsetin].
           eexists. rewrite day_get_set, pydate_eqb_refl.
           split; [reflexivity|]. cbn [level date].
           split; [lia|]. split; [intros old [= <-]; lia|].
           exists it0. split; [apply in_app_iff; now left | tauto].
        -- apply Hkeep; [exact Hnd | | | now left].
           ++ intros k'. destruct (Datetime.pydate_eqb (date_key dt x) k') eqn:E;
                [|reflexivity]. apply pydate_eqb_eq in E. now subst k'.
           ++ exists existing. split; [exact Eg|]. split; [lia|].
              split; [intros old [= <-]; lia|].
              exists it0. split; [apply in_app_iff; now left | tauto].
      * apply Hkeep; [exact Hnd | | | now left].
        -- intros k'. destruct (Datetime.pydate_eqb (date_key dt x) k') eqn:E;
             [|reflexivity]. apply pydate_eqb_eq in E. now subst k'.
        -- exists existing. split; [exact Eg|]. split; [lia|].
           split; [intros old [= <-]; lia|].
           exists it0. split; [apply in_app_iff; now left | tauto].
  - apply Hkeep; [now apply day_set_NoDup | apply Hset | | apply Hsetin].
    exists x. rewrite day_get_set, pydate_eqb_refl.
    split; [reflexivity|]. split; [lia|]. split; [discriminate|].
    exists x. tauto.
Qed.

(** The merge loop establishes its invariant for the whole display list. *)
Lemma merge_timeline_keeps (dt : Datetime.datetime) (display : list TimelineEntry) :
  merge_invariant dt display (merge_timeline dt display).
Proof.
  unfold merge_timeline.
  assert (H : forall items seen acc,
            merge_invariant dt seen acc ->
            merge_invariant dt (seen ++ items) (fold_left (merge_item dt) items acc)).
  { induction items as [|x rest IH]; intros seen acc Hinv; cbn [fold_left].
    - now rewrite app_nil_r.
    - replace (seen ++ x :: rest) with ((seen ++ [x]) ++ rest)
        by (now rewrite <- app_assoc).
      apply IH. now apply merge_item_invariant. }
  apply (H display [] []).
  split; [constructor|]. split; [intros item []|intros k stored []].
Qed.

(** X8. The merge loop keeps one entry per calendar day; every displayed
    entry is represented on its day by a stored entry whose level has at
    least its priority; and every stored entry bears the date string and the
    level of a displayed entry of that day (only its event label may have
    been extended). *)
Theorem merge_timeline_invariant (dt : Datetime.datetime) (display : list TimelineEntry) :
  NoDup (map fst (merge_timeline dt display))
  /\ (forall item, In item display ->
        exists stored,
          day_get (merge_timeline dt display) (date_key dt item) = Some stored
          /\ (level_priority (level item) <= level_priority (level stored))%Z)
  /\ (forall k stored, In (k, stored) (merge_timeline dt display) ->
        exists item, In item display /\ date_key dt item = k
          /\ level stored = level item /\ date stored = date item).
Proof.
  pose proof (merge_timeline_keeps dt display) as (Hdays & Hseen & Hstored).
  split; [exact Hdays|]. split; [exact Hseen | exact Hstored].
Qed.

Section ImpactResult.
Context (extractOne : Matcher)
        (fromisoformat : string -> Py.result Datetime.datetime)
        (td : ToolsData).

Lemma event_contribution_nonneg (e : BusinessEvent) : (0 <= event_contribution e)%Z.
Proof.
  unfold event_contribution.
  repeat match goal with |- context [if ?b then _ else _] => destruct b end; lia.
Qed.

Lemma contributions_nonneg (l : list BusinessEvent) :
  (0 <= fold_right Z.add 0 (map event_contribution l))%Z.
Proof.
  induction l as [|e l IH]; cbn [map fold_right]; [lia|].
  pose proof (event_contribution_nonneg e). lia.
Qed.

Lemma contribution_le_sum (l : list BusinessEvent) e :
  In e l -> (event_contribution e <= fold_right Z.add 0 (map event_contribution l))%Z.
Proof.
  induction l as [|x l IH]; [intros []|]. intros [<-|H]; cbn [map fold_right].
  - pose proof (contributions_nonneg l). lia.
  - specialize (IH H). pose proof (event_contribution_nonneg x). lia.
Qed.

Lemma has_level_recorded dt lv (l : list BusinessEvent) :
  has_level lv (map (impact_entry dt) l) = true ->
  exists e, In e l /\ criticality e = lv.
Proof.
  unfold has_level. rewrite existsb_exists.
  intros (x & Hx & Hlv). apply in_map_iff in Hx as (e & <- & He).
  exists e. split; [exact He|]. now apply String.eqb_eq in Hlv.
Qed.

Lemma has_level_peak dt lv evs :
  lv <> "Peak" -> has_level lv (evs ++ [peak_hours_entry dt]) = has_level lv evs.
Proof.
  intros Hlv. unfold has_level, peak_hours_entry. rewrite existsb_app.
  cbn [existsb level].
  destruct (String.eqb_spec "Peak" lv) as [E|_]; [now symmetry in E|].
  now rewrite !orb_false_r.
Qed.

Lemma sort_keys_length items keyed : sort_keys items = Py.Ok keyed -> length keyed = length items.
Proof.
  revert keyed. induction items as [|x rest IH]; intros keyed; cbn [sort_keys].
  - now intros [= <-].
  - unfold Py.bind. destruct (Datetime.strptime_b_d (date x)); [|discriminate].
    destruct (sort_keys rest) as [k'|]; [|discriminate].
    intros [= <-]. cbn [length]. now rewrite (IH k').
Qed.

Lemma timeline_display_nonempty dt lv evs display :
  timeline_display dt lv evs = Py.Ok display -> display <> [].
Proof.
  unfold timeline_display, Py.bind. destruct evs.
  - destruct (Datetime.add_timedelta dt (-1) 0); [|discriminate].
    destruct (Datetime.add_timedelta dt 1 0); [|discriminate].
    now intros [= <-].
  - now intros [= <-].
Qed.

(** X9. Whenever the evaluation returns, its outputs agree with one
    another: the score is not negative; the level is one of "Low", "Medium"
    and "High"; level "High" comes with a score of at least 5 and level
    "Medium" with a score of at least 1 (so a score of 0 means "Low"); and
    the timeline is not empty. *)
Theorem impact_result_consistent (s : string) (svcs : list string) (r : BusinessImpact) :
  assess_business_impact extractOne fromisoformat td s svcs = Py.Ok r ->
  (0 <= overall_business_risk_score r)%Z
  /\ In (business_impact_level r) ["Low"; "Medium"; "High"]
  /\ (business_impact_level r = "High" -> 5 <= overall_business_risk_score r)%Z
  /\ (business_impact_level r = "Medium" -> 1 <= overall_business_risk_score r)%Z
  /\ business_impact_timeline r <> [].
Proof.
  unfold assess_business_impact, Py.bind.
  destruct (fromisoformat s) as [dt|]; [|discriminate].
  destruct (scan_events _ _ _ _ _ _ _ _) as [[evs sc]|] eqn:Hscan; [|discriminate].
  cbn [fst snd]. rewrite peak_adjustment_spec.
  apply scan_events_spec in Hscan as [Hevs Hsc]. cbn [app] in Hevs.
  set (F := List.filter (applies extractOne fromisoformat td dt
                           (normalize_all extractOne td svcs))
                        (businessEvents (dataset td))) in *.
  rewrite Z.add_0_l in Hsc.
  match goal with
  | |- context [timeline_display dt (final_level ?e) _] => set (evs' := e)
  end.
  destruct (timeline_display dt (final_level evs') evs') as [display|] eqn:Hd;
    [|discriminate].
  destruct (sorted_timeline _) as [timeline|] eqn:Hsort; [|discriminate].
  intros [= <-]. cbn.
  assert (Hbonus : (0 <= peak_bonus dt evs)%Z).
  { unfold peak_bonus. destruct (_ && _); lia. }
  assert (Hlv : forall lv, lv <> "Peak" -> has_level lv evs' = true ->
                  exists e, In e F /\ criticality e = lv).
  { intros lv Hne H. apply (has_level_recorded dt). rewrite <- Hevs.
    subst evs'. destruct (_ && _); [|exact H]. now rewrite has_level_peak in H. }
  assert (Hsum : forall e, In e F -> (event_contribution e <= sc)%Z).
  { intros e He. subst sc. now apply contribution_le_sum. }
  pose proof (contributions_nonneg F) as Hnn. rewrite <- Hsc in Hnn.
  split; [lia|].
  assert (Hcases : (final_level evs' = "High" /\ has_level "Critical" evs' = true)
                   \/ (final_level evs' = "Medium"
                       /\ (has_level "High" evs' = true \/ has_level "Medium" evs' = true))
                   \/ final_level evs' = "Low").
  { unfold final_level.
    destruct (has_level "Critical" evs'); [now left|].
    destruct (has_level "High" evs'); [right; left; split; [reflexivity | now left]|].
    destruct (has_level "Medium" evs'); cbn.
    - right. left. split; [reflexivity | now right].
    - right. right. now destruct evs'. }
  split; [|split; [|split]].
  - destruct Hcases as [[-> _]|[[-> _]| ->]]; cbn; tauto.
  - intros Hhigh. destruct Hcases as [[_ Hc]|[[E _]|E]]; [|congruence..].
    destruct (Hlv "Critical" ltac:(discriminate) Hc) as (e & He & Hcrit).
    specialize (Hsum e He). unfold event_contribution in Hsum. rewrite Hcrit in Hsum.
    cbn in Hsum. destruct (default false (blackoutWindow e)); lia.
  - intros Hmed. destruct Hcases as [[E _]|[[_ [Hc|Hc]]|E]]; [congruence| | |congruence].
    + destruct (Hlv "High" ltac:(discriminate) Hc) as (e & He & Hcrit).
      specialize (Hsum e He). unfold event_contribution in Hsum. rewrite Hcrit in Hsum.
      cbn in Hsum. destruct (default false (blackoutWindow e)); lia.
    + destruct (Hlv "Medium" ltac:(discriminate) Hc) as (e & He & Hcrit).
      specialize (Hsum e He). unfold event_contribution in Hsum. rewrite Hcrit in Hsum.
      cbn in Hsum. destruct (default false (blackoutWindow e)); lia.
  - unfold sorted_timeline, Py.bind in Hsort.
    destruct (sort_keys _) as [keyed|] eqn:Hk; [|discriminate].
    injection Hsort as <-. intros Hnil.
    apply (f_equal (@length _)) in Hnil.
    rewrite length_map, sorted_length, (sort_keys_length _ _ Hk), length_map in Hnil.
    destruct display as [|x xs]; [now apply timeline_display_nonempty in Hd|].
    destruct (merge_timeline_keeps dt (x :: xs)) as (_ & Hrep & _).
    destruct (Hrep x (or_introl eq_refl)) as (stored & Hget & _).
    destruct (merge_timeline dt (x :: xs)); [discriminate Hget | discriminate Hnil].
Qed.


Lemma sort_keys_spec items keyed :
  sort_keys items = Py.Ok keyed ->
  map snd keyed = items
  /\ Forall (fun kx => Datetime.strptime_b_d (date (snd kx)) = Py.Ok (fst kx)) keyed.
Proof.
  revert keyed. induction items as [|x rest IH]; intros keyed; cbn [sort_keys].
  - intros [= <-]. split; [reflexivity | constructor].
  - unfold Py.bind. destruct (Datetime.strptime_b_d (date x)) as [k|] eqn:E; [|discriminate].
    destruct (sort_keys rest) as [k'|]; [|discriminate].
    intros [= <-]. destruct (IH k' eq_refl) as [Hm Hf].
    cbn [map snd]. rewrite Hm. split; [reflexivity|]. now constructor.
Qed.

Lemma keyed_ascending (L : list (Datetime.datetime * TimelineEntry)) :
  StronglySorted (fun a b => Datetime.leb (fst a) (fst b) = true) L ->
  Forall (fun kx => Datetime.strptime_b_d (date (snd kx)) = Py.Ok (fst kx)) L ->
  NoDup (map (fun kx => Datetime.date_of (fst kx)) L) ->
  StronglySorted day_before (map snd L).
Proof.
  induction 1 as [|a L' Hs IH Hall]; intros HP Hnd; cbn [map]; [constructor|].
  apply Forall_cons in HP as [Pa PL]. apply NoDup_cons in Hnd as [Hna Hnd].
  constructor; [now apply IH|].
  apply Forall_forall. intros y Hy.
  apply list_elem_of_In, in_map_iff in Hy as (b & <- & Hb).
  rewrite Forall_forall in Hall, PL. apply list_elem_of_In in Hb.
  specialize (Hall b Hb). specialize (PL b Hb). cbn beta in Hall, PL.
  exists (fst a), (fst b). split; [exact Pa|]. split; [exact PL|].
  destruct (strptime_shape _ _ Pa) as [Sa _], (strptime_shape _ _ PL) as [Sb _].
  rewrite Sa, Sb, leb_midnight in Hall.
  assert (Hne : Datetime.date_of (fst a) <> Datetime.date_of (fst b)).
  { intros E. apply Hna. rewrite E.
    apply list_elem_of_In, in_map_iff. exists b. split; [reflexivity|].
    now apply list_elem_of_In. }
  rewrite Sa, Sb in Hne. unfold Datetime.date_of, Datetime.midnight in Hne.
  cbn [Datetime.year Datetime.month Datetime.day] in Hne.
  apply orb_true_iff in Hall as [H|H]; [left; lia|].
  apply andb_true_iff in H as [Hm Hd]. apply Z.eqb_eq in Hm. apply Z.leb_le in Hd.
  right. split; [exact Hm|].
  destruct (Z.eq_dec (Datetime.day (fst a)) (Datetime.day (fst b))) as [E|E]; [|lia].
  exfalso. apply Hne. now rewrite Hm, E.
Qed.

Lemma lex_leb_total : forall a b, length a = length b ->
  Datetime.lex_leb a b = true \/ Datetime.lex_leb b a = true.
Proof.
  induction a as [|x a IH]; intros [|y b]; cbn [length Datetime.lex_leb];
    try discriminate; [now left|].
  intros [= Hlen]. destruct (IH b Hlen) as [H|H]; rewrite H;
    destruct (Z.ltb_spec x y), (Z.ltb_spec y x), (Z.eqb_spec x y), (Z.eqb_spec y x);
    cbn; auto; lia.
Qed.

Lemma lex_leb_trans : forall a b c,
  Datetime.lex_leb a b = true -> Datetime.lex_leb b c = true -> Datetime.lex_leb a c = true.
Proof.
  induction a as [|x a IH]; intros [|y b] [|z c]; cbn [Datetime.lex_leb];
    try discriminate; try reflexivity.
  intros H1 H2.
  apply orb_true_iff in H1 as [H1|H1]; apply orb_true_iff in H2 as [H2|H2];
    rewrite ?andb_true_iff, ?Z.ltb_lt, ?Z.eqb_eq in *; apply orb_true_iff.
  - left. apply Z.ltb_lt. lia.
  - left. apply Z.ltb_lt. lia.
  - left. apply Z.ltb_lt. lia.
  - right. apply andb_true_iff. split; [apply Z.eqb_eq; lia|].
    apply IH with b; tauto.
Qed.

(** X10. Whenever the evaluation returns, the timeline is strictly
    ascending by month and day, read without the year: it holds at most one
    entry per calendar day, in calendar order within one year. *)
Theorem timeline_ascending (s : string) (svcs : list string) (r : BusinessImpact) :
  assess_business_impact extractOne fromisoformat td s svcs = Py.Ok r ->
  StronglySorted day_before (business_impact_timeline r).
Proof.
  unfold assess_business_impact, Py.bind.
  destruct (fromisoformat s) as [dt|]; [|discriminate].
  destruct (scan_events _ _ _ _ _ _ _ _) as [[evs sc]|]; [|discriminate].
  cbn [fst snd]. destruct (peak_adjustment dt evs sc) as [evs' sc'].
  destruct (timeline_display dt (final_level evs') evs') as [display|]; [|discriminate].
  destruct (sorted_timeline _) as [timeline|] eqn:Hsort; [|discriminate].
  intros [= <-]. cbn [business_impact_timeline].
  unfold sorted_timeline, Py.bind in Hsort.
  destruct (sort_keys _) as [keyed|] eqn:Hk; [|discriminate].
  injection Hsort as <-.
  destruct (sort_keys_spec _ _ Hk) as [Hsnd HP].
  destruct (merge_timeline_keeps dt display) as (Hnd & _ & Horigin).
  set (lebk := fun a b : Datetime.datetime * TimelineEntry =>
                 Datetime.leb (fst a) (fst b)).
  pose proof (sorted_perm lebk keyed) as Hperm.
  assert (Hkeys : map (fun kx => Datetime.date_of (fst kx)) keyed
                  = map fst (merge_timeline dt display)).
  { revert Hsnd HP Horigin. generalize (merge_timeline dt display) as m.
    clear. induction keyed as [|[k x] keyed IH]; intros [|[K x'] m]; cbn [map fst snd];
      try discriminate; [reflexivity|].
    intros [= -> Hsnd] HP Horigin. apply Forall_cons in HP as [Px HP]. cbn [fst snd] in Px.
    f_equal.
    - destruct (Horigin K x' (or_introl eq_refl)) as (item & _ & HK & _ & Hd).
      unfold date_key in HK. rewrite <- Hd, Px in HK. exact HK.
    - apply IH; [exact Hsnd | exact HP|].
      intros k0 s0 H0. apply Horigin. now right. }
  apply keyed_ascending.
  - apply sorted_sorted.
    + intros a b. apply lex_leb_total. reflexivity.
    + intros a b c. apply lex_leb_trans.
  - now rewrite Hperm.
  - rewrite Hperm, Hkeys. exact Hnd.
Qed.

Lemma scan_events_raises dt inv events e x :
  In e events ->
  event_applies extractOne fromisoformat td dt inv e = Py.Raise x ->
  forall acc sc, exists y,
    scan_events extractOne fromisoformat td dt inv events acc sc = Py.Raise y.
Proof.
  induction events as [|e0 rest IH]; intros Hin Hraise acc sc; [destruct Hin|].
  rewrite scan_events_step.
  destruct (event_applies extractOne fromisoformat td dt inv e0) as [[|]|y] eqn:E0.
  - destruct Hin as [->|Hin]; [congruence | now apply IH].
  - destruct Hin as [->|Hin]; [congruence | now apply IH].
  - now exists y.
Qed.

(** X11. One business event whose start or end date cannot be read makes
    every evaluation raise, whatever the proposed time and the services, and
    whether or not the event would have applied: the dates of all events are
    read, unguarded, on each call. *)
Theorem unreadable_event_date_raises (e : BusinessEvent) (s : string) (svcs : list string) :
  In e (businessEvents (dataset td)) ->
  (exists x, fromisoformat (startDate e) = Py.Raise x)
  \/ (exists x, fromisoformat (endDate e) = Py.Raise x) ->
  exists x, assess_business_impact extractOne fromisoformat td s svcs = Py.Raise x.
Proof.
  intros Hin Hbad. unfold assess_business_impact, Py.bind.
  destruct (fromisoformat s) as [dt|x0]; [|now exists x0].
  assert (Hraise : exists x, event_applies extractOne fromisoformat td dt
                               (normalize_all extractOne td svcs) e = Py.Raise x).
  { unfold event_applies, Py.bind. destruct Hbad as [[x ->]|[x Hx]]; [now exists x|].
    destruct (fromisoformat (startDate e)) as [st|x0]; [|now exists x0].
    rewrite Hx. now exists x. }
  destruct Hraise as [x Hx].
  destruct (scan_events_raises dt _ _ e x Hin Hx [] 0%Z) as [y ->].
  now exists y.
Qed.

(** X6. On every 29 February the evaluation raises, whatever the calendar
    and the services: the entry of the proposed change is dated "Feb 29",
    which the final sort reads back in the year 1900. *)
Theorem leap_day_always_raises (s : string) (svcs : list string) (dt : Datetime.datetime) :
  fromisoformat s = Py.Ok dt ->
  Datetime.month dt = 2%Z -> Datetime.day dt = 29%Z ->
  exists x, assess_business_impact extractOne fromisoformat td s svcs = Py.Raise x.
Proof.
  intros Hparse Hm Hd.
  destruct (assess_business_impact extractOne fromisoformat td s svcs) as [r|x] eqn:E.
  - exfalso. exact (leap_day_never_returns extractOne fromisoformat td s svcs dt
                      Hparse Hm Hd r E).
  - now exists x.
Qed.

End ImpactResult.

Lemma impact_result_consistent_witness :
  exists r,
    assess_business_impact extractOne_exact Datetime.fromisoformat_basic campaign_calendar
      "2024-12-24T09:00:00" ["checkout-ui"] = Py.Ok r
    /\ (0 <= overall_business_risk_score r)%Z
    /\ In (business_impact_level r) ["Low"; "Medium"; "High"]
    /\ (business_impact_level r = "High" -> 5 <= overall_business_risk_score r)%Z
    /\ (business_impact_level r = "Medium" -> 1 <= overall_business_risk_score r)%Z
    /\ business_impact_timeline r <> [].
Proof.
  eexists. split; [vm_compute; reflexivity|].
  apply (impact_result_consistent extractOne_exact Datetime.fromisoformat_basic
           campaign_calendar "2024-12-24T09:00:00" ["checkout-ui"]).
  vm_compute. reflexivity.
Defined.

Lemma timeline_ascending_witness :
  exists r,
    assess_business_impact extractOne_exact Datetime.fromisoformat_basic (calendar [])
      "2024-06-15T20:00:00" [] = Py.Ok r
    /\ length (business_impact_timeline r) = 3
    /\ StronglySorted day_before (business_impact_timeline r).
Proof.
  eexists. split; [vm_compute; reflexivity|]. split; [reflexivity|].
  apply (timeline_ascending extractOne_exact Datetime.fromisoformat_basic (calendar [])
           "2024-06-15T20:00:00" []).
  vm_compute. reflexivity.
Defined.

Lemma unreadable_event_date_raises_witness :
  exists x,
    assess_business_impact extractOne_exact Datetime.fromisoformat_basic
      (calendar [ {| eventName := "Data Centre Move";
                     startDate := "next quarter";
                     endDate := "2025-03-31";
                     impactedSystems := ["mail-relay"];
                     criticality := "Low";
                     blackoutWindow := None |} ])
      "2024-06-15T20:00:00" ["checkout-ui"] = Py.Raise x.
Proof.
  apply (unreadable_event_date_raises extractOne_exact Datetime.fromisoformat_basic _
           {| eventName := "Data Centre Move";
              startDate := "next quarter";
              endDate := "2025-03-31";
              impactedSystems := ["mail-relay"];
              criticality := "Low";
              blackoutWindow := None |}).
  - left. reflexivity.
  - left. eexists. vm_compute. reflexivity.
Defined.

Lemma leap_day_always_raises_witness :
  exists x,
    assess_business_impact extractOne_exact Datetime.fromisoformat_basic freeze_calendar
      "2028-02-29T03:00:00" ["checkout-ui"] = Py.Raise x.
Proof.
  apply (leap_day_always_raises extractOne_exact Datetime.fromisoformat_basic freeze_calendar
           "2028-02-29T03:00:00" ["checkout-ui"]
           {| Datetime.year := 2028; Datetime.month := 2; Datetime.day := 29;
              Datetime.hour := 3; Datetime.minute := 0; Datetime.second := 0;
              Datetime.microsecond := 0 |}).
  - vm_compute. reflexivity.
  - reflexivity.
  - reflexivity.
Defined.

Lemma quiet_day_timeline_witness :
  assess_business_impact extractOne_exact Datetime.fromisoformat_basic freeze_calendar
    "2024-08-31T22:30:00" ["checkout-ui"]
  = Py.Ok
      {| business_impact_level := "Low";
         overall_business_risk_score := 0;
         business_impact_timeline :=
           [ timeline_entry "Aug 30" "Safe Window" "Safe";
             timeline_entry "Aug 31" "Proposed Change" "Safe";
             timeline_entry "Sep 01" "Safe Window" "Safe" ];
         business_summary := "Business impact level: Low. Conflicts identified: None." |}.
Proof.
  apply (quiet_day_timeline extractOne_exact Datetime.fromisoformat_basic freeze_calendar
           "2024-08-31T22:30:00" ["checkout-ui"]
           {| Datetime.year := 2024; Datetime.month := 8; Datetime.day := 31;
              Datetime.hour := 22; Datetime.minute := 30; Datetime.second := 0;
              Datetime.microsecond := 0 |}
           {| Datetime.year := 2024; Datetime.month := 8; Datetime.day := 30;
              Datetime.hour := 22; Datetime.minute := 30; Datetime.second := 0;
              Datetime.microsecond := 0 |}
           {| Datetime.year := 2024; Datetime.month := 9; Datetime.day := 1;
              Datetime.hour := 22; Datetime.minute := 30; Datetime.second := 0;
              Datetime.microsecond := 0 |} 0%Z).
  - vm_compute. reflexivity.
  - vm_compute. reflexivity.
  - vm_compute. reflexivity.
  - vm_compute. reflexivity.
  - vm_compute. reflexivity.
  - reflexivity.
  - reflexivity.
  - reflexivity.
  - right. cbn. lia.
  - left. cbn. lia.
Defined.

(** ** Score aggregation: the range of the scores *)

Lemma float_ltb_leb (x y : float) : (x <? y)%float = true -> (x <=? y)%float = true.
Proof.
  rewrite ltb_spec, leb_spec. unfold SFltb, SFleb.
  now destruct (SFcompare (Prim2SF x) (Prim2SF y)) as [[| |]|].
Qed.

(** [max(1.0, min(10.0, x))] lies between 1.0 and 10.0 for every float,
    NaN and the infinities included. *)
Lemma clamp_range (x : float) :
  (1.0 <=? PyFloat.max 1.0 (PyFloat.min 10.0 x))%float = true
  /\ (PyFloat.max 1.0 (PyFloat.min 10.0 x) <=? 10.0)%float = true.
Proof.
  unfold PyFloat.min. destruct (x <? 10.0)%float eqn:E1.
  - unfold PyFloat.max. destruct (1.0 <? x)%float eqn:E2.
    + split; now apply float_ltb_leb.
    + split; vm_compute; reflexivity.
  - split; vm_compute; reflexivity.
Qed.

Lemma round_half_even_bounds (num den a b : Z) :
  (0 < den)%Z -> (a * den <= num <= b * den)%Z ->
  (a <= PyFloat.round_half_even num den <= b)%Z.
Proof.
  intros Hden [Hlo Hhi]. unfold PyFloat.round_half_even.
  pose proof (Z.div_mod num den ltac:(lia)) as Hdm.
  pose proof (Z.mod_pos_bound num den Hden) as Hr.
  assert (Hq : (a <= num / den)%Z) by (apply Z.div_le_lower_bound; lia).
  assert (Hq' : (num / den <= b)%Z) by (apply Z.div_le_upper_bound; try lia; nia).
  assert (Hstrict : (0 < num mod den -> num / den + 1 <= b)%Z) by nia.
  destruct (Z.compare_spec (2 * (num mod den)) den) as [E|E|E].
  - destruct (Z.even (num / den)); lia.
  - lia.
  - lia.
Qed.

Lemma tenths_table :
  forallb (fun n => (1.0 <=? PyFloat.tenths false (Pos.of_nat n))%float
                    && (PyFloat.tenths false (Pos.of_nat n) <=? 10.0)%float)
          (seq 10 91) = true.
Proof. vm_compute. reflexivity. Qed.

Lemma tenths_range (n : positive) :
  (10 <= Zpos n <= 100)%Z ->
  (1.0 <=? PyFloat.tenths false n)%float = true
  /\ (PyFloat.tenths false n <=? 10.0)%float = true.
Proof.
  intros Hn. pose proof tenths_table as H.
  rewrite forallb_forall in H. specialize (H (Pos.to_nat n)).
  rewrite Pos2Nat.id in H. apply andb_true_iff, H, in_seq. lia.
Qed.

(** Rounding to one decimal keeps a float of [1.0, 10.0] in that range. *)
Lemma round1_range (c : float) :
  (1.0 <=? c)%float = true -> (c <=? 10.0)%float = true ->
  (1.0 <=? PyFloat.round1 c)%float = true /\ (PyFloat.round1 c <=? 10.0)%float = true.
Proof.
  intros Hlo Hhi. pose proof (Prim2SF_valid c) as Hvalid.
  rewrite leb_spec in Hlo, Hhi.
  change (Prim2SF 1.0) with (S754_finite false 4503599627370496 (-52)) in Hlo.
  change (Prim2SF 10.0) with (S754_finite false 5629499534213120 (-49)) in Hhi.
  unfold PyFloat.round1.
  destruct (Prim2SF c) as [s|[|]| |[|] m e] eqn:E; cbn [SFleb SFcompare] in Hlo, Hhi;
    try discriminate.
  assert (He : (-52 <= e <= -49)%Z).
  { destruct (Z.compare_spec (-52) e), (Z.compare_spec e (-49)); try discriminate; lia. }
  assert (Hd : Zpos (digits2_pos m) = 53%Z)
    by (apply (valid_normal_digits _ _ _ Hvalid); lia).
  pose proof (digits2_bounds m) as [Hm1 Hm2]. rewrite Hd in Hm1, Hm2.
  change (2 ^ (53 - 1))%Z with 4503599627370496%Z in Hm1.
  change (2 ^ 53)%Z with 9007199254740992%Z in Hm2.
  assert (Hm3 : e = (-49)%Z -> (Zpos m <= 5629499534213120)%Z).
  { intros ->. rewrite Z.compare_refl, Pos.compare_cont_spec in Hhi.
    cbn [Pos.switch_Eq] in Hhi.
    destruct (Pos.compare_spec m 5629499534213120) as [H|H|H]; [| |discriminate].
    - rewrite H. apply Z.le_refl.
    - apply Z.lt_le_incl, Pos2Z.pos_lt_pos, H. }
  destruct (Z.leb_spec 0 e) as [H0|_]; [lia|].
  clear Hlo Hhi Hvalid E Hd.
  assert (Hs : (10 <= PyFloat.round_half_even (Zpos m * 10) (2 ^ (- e)) <= 100)%Z).
  { assert (Hcases : e = (-52)%Z \/ e = (-51)%Z \/ e = (-50)%Z \/ e = (-49)%Z) by lia.
    destruct Hcases as [-> | [-> | [-> | ->]]].
    - change (2 ^ (- -52))%Z with 4503599627370496%Z.
      apply round_half_even_bounds; lia.
    - change (2 ^ (- -51))%Z with 2251799813685248%Z.
      apply round_half_even_bounds; lia.
    - change (2 ^ (- -50))%Z with 1125899906842624%Z.
      apply round_half_even_bounds; lia.
    - change (2 ^ (- -49))%Z with 562949953421312%Z.
      specialize (Hm3 eq_refl). apply round_half_even_bounds; lia. }
  destruct (PyFloat.round_half_even (Zpos m * 10) (2 ^ (- e))) as [|n|n]; [lia| |lia].
  now apply tenths_range.
Qed.

(** X12. For every float input, NaN and the infinities included, and
    every priority, the normalised risk and the safety score both lie
    between 1.0 and 10.0, and the level is one of the three labels. *)
Theorem scores_in_range (t d b : float) (p : string) :
  let scores := risk_scores t d b p in
  (1.0 <=? normalized scores)%float = true
  /\ (normalized scores <=? 10.0)%float = true
  /\ (1.0 <=? risk_score scores)%float = true
  /\ (risk_score scores <=? 10.0)%float = true
  /\ In (risk_level_of scores) ["HIGH"; "MEDIUM"; "LOW"].
Proof.
  intros scores. unfold scores, risk_scores. cbn [normalized risk_score risk_level_of].
  set (raw := calculated_risk_value t d b p).
  destruct (clamp_range (raw / config.MAX_CALCULATED_RISK * 10.0)%float) as [N1 N2].
  split; [exact N1|]. split; [exact N2|].
  unfold credit_score at 1 2.
  destruct (clamp_range (10.0 - normalized_risk raw + 1.0)%float) as [C1 C2].
  destruct (round1_range _ C1 C2) as [R1 R2].
  split; [exact R1|]. split; [exact R2|].
  unfold risk_level.
  destruct (_ <=? 3.5)%float; [now left|].
  destruct (_ <=? 7.0)%float; [right; now left | right; right; now left].
Qed.

(** ** The change workflow *)

Lemma dict_get_set {V} (d : Py.dict V) k v k' :
  Py.dict_get (Py.dict_set d k v) k'
  = if String.eqb k k' then Some v else Py.dict_get d k'.
Proof.
  induction d as [|[k0 v0] d IH]; cbn [Py.dict_set Py.dict_get]; [reflexivity|].
  destruct (String.eqb_spec k0 k) as [->|Hne]; cbn [Py.dict_get].
  - now destruct (String.eqb k k').
  - destruct (String.eqb_spec k0 k') as [->|Hne']; [|exact IH].
    destruct (String.eqb_spec k k') as [->|_]; [contradiction | reflexivity].
Qed.

Lemma assign_get_other change updates k :
  ~ In k (map fst updates) ->
  Py.dict_get (assign change updates) k = Py.dict_get change k.
Proof.
  unfold assign. revert change.
  induction updates as [|[k0 v0] updates IH]; intros change Hk; cbn [fold_left fst snd];
    [reflexivity|].
  rewrite IH by (intros H; apply Hk; now right).
  rewrite dict_get_set.
  destruct (String.eqb_spec k0 k) as [->|_]; [|reflexivity].
  exfalso. apply Hk. now left.
Qed.

Lemma first_match_split {A} (p : A -> bool) (l : list A) :
  existsb p l = true ->
  exists before c after,
    l = before ++ c :: after /\ (forall b, In b before -> p b = false) /\ p c = true.
Proof.
  induction l as [|x l IH]; cbn [existsb]; [discriminate|].
  destruct (p x) eqn:E.
  - intros _. exists [], x, l. split; [reflexivity|]. split; [intros b []|exact E].
  - intros H. destruct (IH H) as (before & c & after & -> & Hb & Hc).
    exists (x :: before), c, after. split; [reflexivity|].
    split; [|exact Hc]. intros b [<-|Hin]; [exact E | now apply Hb].
Qed.

Section Decide.
Context (change_id decision action completedDate completedTime : string)
        (extra : list (string * json)).

Local Abbreviation updates :=
  ([("status", JStr decision); ("recommendedAction", JStr action)] ++ extra).
Local Abbreviation matches := (fun c => eq_str (Py.dict_get c "changeId") change_id).
Local Abbreviation loop :=
  (decide_first change_id decision action completedDate completedTime extra).

Lemma decide_first_unknown changes :
  existsb matches changes = false -> loop changes = None.
Proof.
  induction changes as [|c rest IH]; cbn [existsb decide_first]; [reflexivity|].
  destruct (eq_str (Py.dict_get c "changeId") change_id); [discriminate|].
  cbn [orb]. intros H. now rewrite IH.
Qed.

Lemma decide_first_found before c after :
  (forall b, In b before -> matches b = false) -> matches c = true ->
  loop (before ++ c :: after)
  = Some (before ++ assign c updates :: after,
          match assessment_summary (assign c updates) with
          | Some summary =>
              Some (history_entry change_id (assign c updates) decision completedDate
                      completedTime extra summary)
          | None => None
          end).
Proof.
  intros Hb Hc. induction before as [|b before IH]; cbn [app decide_first].
  - cbn beta in Hc. now rewrite Hc.
  - rewrite (Hb b (or_introl eq_refl)), IH; [reflexivity|].
    intros b' Hb'. apply Hb. now right.
Qed.

End Decide.

(** X13. A decision on a change id that no change request bears is
    answered 404 "Change not found." and leaves both lists as they were,
    for an approval and for a rejection. *)
Theorem unknown_change_not_found (st : AppState) (change_id : string)
    (request : RejectRequest) (completedDate completedTime : string) :
  known_change st change_id = false ->
  approve_change st change_id completedDate completedTime
  = (st, Http.HTTPException 404 "Change not found.")
  /\ reject_change st change_id request completedDate completedTime
     = (st, Http.HTTPException 404 "Change not found.").
Proof.
  intros H. unfold approve_change, reject_change, decide_change.
  now rewrite !decide_first_unknown by exact H.
Qed.

Lemma assessment_summary_assign change updates :
  ~ In "ai_assessment" (map fst updates) ->
  assessment_summary (assign change updates) = assessment_summary change.
Proof.
  intros H. unfold assessment_summary. now rewrite assign_get_other.
Qed.

(** X14. An approval updates the first change request that bears the id,
    and only that one: its status becomes "Approved" and its recommended
    action "Approved by Human", its other keys are kept; one entry for the
    change, with decision "Approved", is put at the head of the risk
    history; and the change is no longer pending, while the changes around
    it are pending as before. *)
Theorem approve_change_effects (st : AppState) (change_id completedDate completedTime : string)
    (before after : list change_request) (c : change_request) (summary : json) :
  active_change_requests st = before ++ c :: after ->
  (forall b, In b before -> eq_str (Py.dict_get b "changeId") change_id = false) ->
  eq_str (Py.dict_get c "changeId") change_id = true ->
  assessment_summary c = Some summary ->
  exists c' entry,
    approve_change st change_id completedDate completedTime
    = ({| active_change_requests := before ++ c' :: after;
          risk_history_items := entry :: risk_history_items st |},
       Http.Return [("status", JStr "success")])
    /\ Py.dict_get c' "status" = Some (JStr "Approved")
    /\ Py.dict_get c' "recommendedAction" = Some (JStr "Approved by Human")
    /\ (forall k, k <> "status" -> k <> "recommendedAction" ->
          Py.dict_get c' k = Py.dict_get c k)
    /\ Py.dict_get entry "changeId" = Some (JStr change_id)
    /\ Py.dict_get entry "decision" = Some (JStr "Approved")
    /\ Py.dict_get entry "summary" = Some summary
    /\ get_pending_approvals
         (fst (approve_change st change_id completedDate completedTime))
       = List.filter (fun c => eq_str (Py.dict_get c "status") "AI Assessed") before
         ++ List.filter (fun c => eq_str (Py.dict_get c "status") "AI Assessed") after.
Proof.
  intros Hsplit Hbefore Hc Hsum.
  unfold approve_change, decide_change. rewrite Hsplit.
  rewrite (decide_first_found _ _ _ _ _ _ before c after Hbefore Hc).
  cbn [app]. set (c' := assign c _).
  assert (Hs' : assessment_summary c' = assessment_summary c).
  { apply assessment_summary_assign. cbn. intros [H|[H|[]]]; discriminate. }
  rewrite Hs', Hsum.
  assert (Hstatus : Py.dict_get c' "status" = Some (JStr "Approved")).
  { subst c'. unfold assign. cbn [fold_left fst snd]. now rewrite !dict_get_set. }
  eexists c', _. split; [reflexivity|]. split; [exact Hstatus|].
  split; [|split; [|split; [|split; [|split]]]].
  - subst c'. unfold assign. cbn [fold_left fst snd]. now rewrite !dict_get_set.
  - intros k Hk1 Hk2. subst c'. apply assign_get_other. cbn.
    intros [H|[H|[]]]; congruence.
  - reflexivity.
  - reflexivity.
  - reflexivity.
  - unfold get_pending_approvals. cbn [fst active_change_requests].
    rewrite List.filter_app. cbn [List.filter]. now rewrite Hstatus.
Qed.

(** X16. When the first change that bears the id has an [ai_assessment]
    that is not an object (null, say), an approval fails on reading its
    summary, after the change has been marked: the call raises, nothing is
    added to the risk history, and the change is left with status
    "Approved". *)
Theorem approve_change_half_done (st : AppState)
    (change_id completedDate completedTime : string)
    (before after : list change_request) (c : change_request) :
  active_change_requests st = before ++ c :: after ->
  (forall b, In b before -> eq_str (Py.dict_get b "changeId") change_id = false) ->
  eq_str (Py.dict_get c "changeId") change_id = true ->
  assessment_summary c = None ->
  exists c',
    approve_change st change_id completedDate completedTime
    = ({| active_change_requests := before ++ c' :: after;
          risk_history_items := risk_history_items st |},
       Http.AttributeError)
    /\ Py.dict_get c' "status" = Some (JStr "Approved").
Proof.
  intros Hsplit Hbefore Hc Hsum.
  unfold approve_change, decide_change. rewrite Hsplit.
  rewrite (decide_first_found _ _ _ _ _ _ before c after Hbefore Hc).
  cbn [app]. set (c' := assign c _).
  assert (Hs' : assessment_summary c' = assessment_summary c).
  { apply assessment_summary_assign. cbn. intros [H|[H|[]]]; discriminate. }
  rewrite Hs', Hsum. exists c'. split; [reflexivity|].
  subst c'. unfold assign. cbn [fold_left fst snd]. now rewrite !dict_get_set.
Qed.

Lemma decide_change_again (st st1 : AppState)
    (change_id decision action completedDate completedTime : string)
    (extra : list (string * json)) (r : Py.dict json) :
  ~ In "changeId" (map fst extra) ->
  decide_change st change_id decision action completedDate completedTime extra
  = (st1, Http.Return r) ->
  forall (decision' action' completedDate' completedTime' : string)
         (extra' : list (string * json)),
    ~ In "ai_assessment" (map fst extra') ->
    exists st2,
      decide_change st1 change_id decision' action' completedDate' completedTime' extra'
      = (st2, Http.Return [("status", JStr "success")])
      /\ length (risk_history_items st2) = S (S (length (risk_history_items st)))
      /\ length (active_change_requests st2) = length (active_change_requests st).
Proof.
  intros Hid Hfirst decision' action' completedDate' completedTime' extra' Has'.
  unfold decide_change in Hfirst.
  destruct (existsb (fun c => eq_str (Py.dict_get c "changeId") change_id)
              (active_change_requests st)) eqn:Hknown.
  - destruct (first_match_split _ _ Hknown) as (before & c & after & Hsplit & Hb & Hc).
    rewrite Hsplit, (decide_first_found _ _ _ _ _ _ before c after Hb Hc) in Hfirst.
    set (c1 := assign c _) in Hfirst.
    destruct (assessment_summary c1) as [summary|] eqn:Hsum; [|discriminate].
    injection Hfirst as <- _.
    assert (Hc1 : eq_str (Py.dict_get c1 "changeId") change_id = true).
    { subst c1. rewrite assign_get_other; [exact Hc|].
      cbn. intros [H|[H|H]]; [discriminate | discriminate | now apply Hid]. }
    unfold decide_change. cbn [active_change_requests risk_history_items].
    rewrite (decide_first_found _ _ _ _ _ _ before c1 after Hb Hc1).
    rewrite assessment_summary_assign, Hsum
      by (cbn; intros [H|[H|H]]; [discriminate | discriminate | now apply Has']).
    eexists. split; [reflexivity|]. cbn [active_change_requests risk_history_items length].
    split; [reflexivity|]. rewrite Hsplit, !length_app. reflexivity.
  - rewrite decide_first_unknown in Hfirst by exact Hknown. discriminate.
Qed.

(** X15. A decision does not look at the status of the change: once an
    approval or a rejection of a change has succeeded, both an approval and
    a rejection of the same change succeed again, each adding one more
    entry to the risk history. *)
Theorem decided_change_can_be_decided_again (st st1 : AppState) (change_id : string)
    (request request' : RejectRequest)
    (completedDate completedTime completedDate' completedTime' : string)
    (r : Py.dict json) :
  approve_change st change_id completedDate completedTime = (st1, Http.Return r)
  \/ reject_change st change_id request completedDate completedTime = (st1, Http.Return r) ->
  (exists st2,
     approve_change st1 change_id completedDate' completedTime'
     = (st2, Http.Return [("status", JStr "success")])
     /\ length (risk_history_items st2) = S (S (length (risk_history_items st))))
  /\ (exists st2,
        reject_change st1 change_id request' completedDate' completedTime'
        = (st2, Http.Return [("status", JStr "success")])
        /\ length (risk_history_items st2) = S (S (length (risk_history_items st)))).
Proof.
  intros Hfirst.
  assert (Hagain : forall decision' action' extra',
            ~ In "ai_assessment" (map fst extra') ->
            exists st2,
              decide_change st1 change_id decision' action' completedDate' completedTime'
                extra'
              = (st2, Http.Return [("status", JStr "success")])
              /\ length (risk_history_items st2) = S (S (length (risk_history_items st)))).
  { intros decision' action' extra' Has'.
    assert (Hn0 : ~ In "changeId" (map fst (@nil (string * json)))) by (intros []).
    assert (Hn1 : ~ In "changeId"
                    (map fst [ ("rejectionReason", JStr (reason request));
                               ("feedbackType", JStr (feedbackType request)) ]))
      by (cbn; intros [?|[?|[]]]; discriminate).
    destruct Hfirst as [H|H].
    - destruct (decide_change_again _ _ _ _ _ _ _ _ _ Hn0 H
                  decision' action' completedDate' completedTime' extra' Has')
        as (st2 & H2 & Hlen & _).
      now exists st2.
    - destruct (decide_change_again _ _ _ _ _ _ _ _ _ Hn1 H
                  decision' action' completedDate' completedTime' extra' Has')
        as (st2 & H2 & Hlen & _).
      now exists st2. }
  split.
  - apply Hagain. intros [].
  - apply Hagain. cbn. intros [?|[?|[]]]; discriminate.
Qed.

Lemma initial_change_status change :
  Py.dict_get (initial_change change) "status"
  = Some (JStr (if existsb (eq_str (Py.dict_get change "riskLevel")) ["High"; "Critical"]
                then "AI Assessed" else "Approved")).
Proof.
  unfold initial_change.
  destruct (existsb _ _); unfold assign; cbn [fold_left fst snd];
    now rewrite !dict_get_set.
Qed.

(** X17. After start-up the pending approvals are exactly the change
    requests of the dataset whose risk level is "High" or "Critical", in
    their order; every other change request starts as "Approved". *)
Theorem startup_pending_approvals (changeRequests : list change_request)
    (history : list (Py.dict json)) :
  get_pending_approvals
    {| active_change_requests := initial_change_requests changeRequests;
       risk_history_items := history |}
  = map initial_change
      (List.filter
         (fun c => existsb (eq_str (Py.dict_get c "riskLevel")) ["High"; "Critical"])
         changeRequests)
  /\ Forall (fun c => Py.dict_get c "status" = Some (JStr "AI Assessed")
                      \/ Py.dict_get c "status" = Some (JStr "Approved"))
            (initial_change_requests changeRequests).
Proof.
  unfold get_pending_approvals, initial_change_requests. cbn [active_change_requests].
  split.
  - induction changeRequests as [|c rest IH]; cbn [map List.filter]; [reflexivity|].
    rewrite initial_change_status, IH.
    destruct (existsb _ _); reflexivity.
  - apply Forall_forall. intros c' Hc'.
    apply list_elem_of_In, in_map_iff in Hc' as (c & <- & _).
    rewrite initial_change_status. destruct (existsb _ _); [now left | now right].
Qed.

(** X22. A rejection updates the first change request that bears the id:
    its status becomes "Rejected" and the reason and the feedback type of
    the request are stored in it; the entry put at the head of the risk
    history records the decision "Rejected" with the same reason; and the
    change is no longer pending. *)
Theorem reject_change_effects (st : AppState) (change_id : string) (request : RejectRequest)
    (completedDate completedTime : string)
    (before after : list change_request) (c : change_request) (summary : json) :
  active_change_requests st = before ++ c :: after ->
  (forall b, In b before -> eq_str (Py.dict_get b "changeId") change_id = false) ->
  eq_str (Py.dict_get c "changeId") change_id = true ->
  assessment_summary c = Some summary ->
  exists c' entry,
    reject_change st change_id request completedDate completedTime
    = ({| active_change_requests := before ++ c' :: after;
          risk_history_items := entry :: risk_history_items st |},
       Http.Return [("status", JStr "success")])
    /\ Py.dict_get c' "status" = Some (JStr "Rejected")
    /\ Py.dict_get c' "rejectionReason" = Some (JStr (reason request))
    /\ Py.dict_get c' "feedbackType" = Some (JStr (feedbackType request))
    /\ Py.dict_get entry "decision" = Some (JStr "Rejected")
    /\ Py.dict_get entry "rejectionReason" = Some (JStr (reason request))
    /\ Py.dict_get entry "summary" = Some summary
    /\ get_pending_approvals
         (fst (reject_change st change_id request completedDate completedTime))
       = List.filter (fun c => eq_str (Py.dict_get c "status") "AI Assessed") before
         ++ List.filter (fun c => eq_str (Py.dict_get c "status") "AI Assessed") after.
Proof.
  intros Hsplit Hbefore Hc Hsum.
  unfold reject_change, decide_change. rewrite Hsplit.
  rewrite (decide_first_found _ _ _ _ _ _ before c after Hbefore Hc).
  cbn [app]. set (c' := assign c _).
  assert (Hs' : assessment_summary c' = assessment_summary c).
  { apply assessment_summary_assign. cbn. intros [H|[H|[H|[H|[]]]]]; discriminate. }
  rewrite Hs', Hsum.
  assert (Hstatus : Py.dict_get c' "status" = Some (JStr "Rejected")).
  { subst c'. unfold assign. cbn [fold_left fst snd]. now rewrite !dict_get_set. }
  eexists c', _. split; [reflexivity|]. split; [exact Hstatus|].
  split; [|split; [|split; [|split; [|split]]]].
  - subst c'. unfold assign. cbn [fold_left fst snd]. now rewrite !dict_get_set.
  - subst c'. unfold assign. cbn [fold_left fst snd]. now rewrite !dict_get_set.
  - reflexivity.
  - reflexivity.
  - reflexivity.
  - unfold get_pending_approvals. cbn [fst active_change_requests].
    rewrite List.filter_app. cbn [List.filter]. now rewrite Hstatus.
Qed.

Lemma decide_change_success (st st1 : AppState)
    (change_id decision action completedDate completedTime : string)
    (extra : list (string * json)) (r : Py.dict json) :
  decide_change st change_id decision action completedDate completedTime extra
  = (st1, Http.Return r) ->
  exists before c after entry,
    active_change_requests st = before ++ c :: after
    /\ active_change_requests st1
       = before
         ++ assign c ([("status", JStr decision); ("recommendedAction", JStr action)]
                      ++ extra) :: after
    /\ risk_history_items st1 = entry :: risk_history_items st.
Proof.
  unfold decide_change. intros H.
  destruct (existsb (fun c => eq_str (Py.dict_get c "changeId") change_id)
              (active_change_requests st)) eqn:Hknown.
  - destruct (first_match_split _ _ Hknown) as (before & c & after & Hsplit & Hb & Hc).
    rewrite Hsplit, (decide_first_found _ _ _ _ _ _ before c after Hb Hc) in H.
    destruct (assessment_summary _) as [summary|]; [|discriminate].
    injection H as <- _. exists before, c, after. eexists.
    split; [exact Hsplit|]. split; reflexivity.
  - rewrite decide_first_unknown in H by exact Hknown. discriminate.
Qed.

(** X23. Every successful decision counts as an incident in the
    analytics: an approval or a rejection raises [total_incidents] by one,
    and leaves [total_high_risk_changes] as it was. *)
Theorem decisions_count_as_incidents (st st1 : AppState) (change_id : string)
    (request : RejectRequest) (completedDate completedTime : string) (r : Py.dict json) :
  approve_change st change_id completedDate completedTime = (st1, Http.Return r)
  \/ reject_change st change_id request completedDate completedTime = (st1, Http.Return r) ->
  total_incidents st1 = S (total_incidents st)
  /\ total_high_risk_changes st1 = total_high_risk_changes st.
Proof.
  intros H.
  assert (Hshape : exists before c after entry updates,
            active_change_requests st = before ++ c :: after
            /\ active_change_requests st1 = before ++ assign c updates :: after
            /\ risk_history_items st1 = entry :: risk_history_items st
            /\ ~ In "riskLevel" (map fst updates)).
  { destruct H as [H|H]; apply decide_change_success in H
      as (before & c & after & entry & H1 & H2 & H3);
      exists before, c, after, entry; eexists; (split; [exact H1|]);
      (split; [exact H2|]); (split; [exact H3|]); cbn.
    - intros [?|[?|[]]]; discriminate.
    - intros [?|[?|[?|[?|[]]]]]; discriminate. }
  destruct Hshape as (before & c & after & entry & updates & H1 & H2 & H3 & Hk).
  unfold total_incidents, total_high_risk_changes. rewrite H1, H2, H3.
  split; [reflexivity|].
  rewrite !List.filter_app. cbn [List.filter].
  rewrite (assign_get_other c updates "riskLevel" Hk).
  destruct (existsb _ _); rewrite !length_app; reflexivity.
Qed.

Lemma unknown_change_not_found_witness :
  approve_change example_state "CHG-404" "2025-01-15" "10:30:00"
  = (example_state, Http.HTTPException 404 "Change not found.")
  /\ reject_change example_state "CHG-404"
       {| reason := "Out of window"; feedbackType := "none" |} "2025-01-15" "10:30:00"
     = (example_state, Http.HTTPException 404 "Change not found.").
Proof.
  apply (unknown_change_not_found example_state "CHG-404"). reflexivity.
Defined.

Lemma approve_change_effects_witness :
  exists c' entry,
    fst (approve_change example_state "CHG-002" "2025-01-15" "10:30:00")
    = {| active_change_requests :=
           [ initial_change (example_change "CHG-001" "Low" []); c';
             initial_change (example_change "CHG-003" "Critical"
                               [("ai_assessment", JNull)]) ];
         risk_history_items := [entry] |}
    /\ Py.dict_get c' "status" = Some (JStr "Approved")
    /\ Py.dict_get entry "summary" = Some (JStr "Schema migration")
    /\ length (get_pending_approvals
                 (fst (approve_change example_state "CHG-002" "2025-01-15" "10:30:00")))
       = 1.
Proof.
  destruct (approve_change_effects example_state "CHG-002" "2025-01-15" "10:30:00"
              [ initial_change (example_change "CHG-001" "Low" []) ]
              [ initial_change (example_change "CHG-003" "Critical"
                                  [("ai_assessment", JNull)]) ]
              (initial_change
                 (example_change "CHG-002" "High"
                    [("ai_assessment", JDict [("summary", JStr "Schema migration")])]))
              (JStr "Schema migration"))
    as (c' & entry & Hrun & Hstatus & _ & _ & _ & _ & Hsummary & Hpending).
  - reflexivity.
  - intros b [<-|[]]. reflexivity.
  - reflexivity.
  - reflexivity.
  - exists c', entry. rewrite Hpending, Hrun. repeat split; assumption || reflexivity.
Defined.

Lemma decided_change_can_be_decided_again_witness :
  (exists st2,
     approve_change
       (fst (reject_change example_state "CHG-002"
               {| reason := "Out of window"; feedbackType := "none" |}
               "2025-01-15" "10:30:00"))
       "CHG-002" "2025-01-16" "08:00:00"
     = (st2, Http.Return [("status", JStr "success")])
     /\ length (risk_history_items st2) = 2)
  /\ (exists st2,
        reject_change
          (fst (reject_change example_state "CHG-002"
                  {| reason := "Out of window"; feedbackType := "none" |}
                  "2025-01-15" "10:30:00"))
          "CHG-002" {| reason := "Still out of window"; feedbackType := "none" |}
          "2025-01-16" "08:00:00"
        = (st2, Http.Return [("status", JStr "success")])
        /\ length (risk_history_items st2) = 2).
Proof.
  apply (decided_change_can_be_decided_again example_state _ "CHG-002"
           {| reason := "Out of window"; feedbackType := "none" |}
           {| reason := "Still out of window"; feedbackType := "none" |}
           "2025-01-15" "10:30:00" "2025-01-16" "08:00:00"
           [("status", JStr "success")]).
  right. reflexivity.
Defined.

Lemma approve_change_half_done_witness :
  exists c',
    approve_change example_state "CHG-003" "2025-01-15" "10:30:00"
    = ({| active_change_requests :=
            [ initial_change (example_change "CHG-001" "Low" []);
              initial_change
                (example_change "CHG-002" "High"
                   [("ai_assessment", JDict [("summary", JStr "Schema migration")])]) ]
            ++ c' :: [];
          risk_history_items := [] |},
       Http.AttributeError)
    /\ Py.dict_get c' "status" = Some (JStr "Approved").
Proof.
  apply (approve_change_half_done example_state "CHG-003" "2025-01-15" "10:30:00"
           [ initial_change (example_change "CHG-001" "Low" []);
             initial_change
               (example_change "CHG-002" "High"
                  [("ai_assessment", JDict [("summary", JStr "Schema migration")])]) ]
           []
           (initial_change (example_change "CHG-003" "Critical" [("ai_assessment", JNull)]))).
  - reflexivity.
  - intros b [<-|[<-|[]]]; reflexivity.
  - reflexivity.
  - reflexivity.
Defined.

Lemma reject_change_effects_witness :
  exists c' entry,
    fst (reject_change example_state "CHG-002"
           {| reason := "Out of window"; feedbackType := "timing" |}
           "2025-01-15" "10:30:00")
    = {| active_change_requests :=
           [ initial_change (example_change "CHG-001" "Low" []); c';
             initial_change (example_change "CHG-003" "Critical"
                               [("ai_assessment", JNull)]) ];
         risk_history_items := [entry] |}
    /\ Py.dict_get c' "status" = Some (JStr "Rejected")
    /\ Py.dict_get entry "rejectionReason" = Some (JStr "Out of window").
Proof.
  destruct (reject_change_effects example_state "CHG-002"
              {| reason := "Out of window"; feedbackType := "timing" |}
              "2025-01-15" "10:30:00"
              [ initial_change (example_change "CHG-001" "Low" []) ]
              [ initial_change (example_change "CHG-003" "Critical"
                                  [("ai_assessment", JNull)]) ]
              (initial_change
                 (example_change "CHG-002" "High"
                    [("ai_assessment", JDict [("summary", JStr "Schema migration")])]))
              (JStr "Schema migration"))
    as (c' & entry & Hrun & Hstatus & _ & _ & _ & Hreason & _).
  - reflexivity.
  - intros b [<-|[]]. reflexivity.
  - reflexivity.
  - reflexivity.
  - exists c', entry. rewrite Hrun. repeat split; assumption.
Defined.

Lemma decisions_count_as_incidents_witness :
  total_incidents (fst (approve_change example_state "CHG-002" "2025-01-15" "10:30:00")) = 1
  /\ total_high_risk_changes
       (fst (approve_change example_state "CHG-002" "2025-01-15" "10:30:00"))
     = total_high_risk_changes example_state.
Proof.
  apply (decisions_count_as_incidents example_state _ "CHG-002"
           {| reason := "Out of window"; feedbackType := "none" |}
           "2025-01-15" "10:30:00" [("status", JStr "success")]).
  left. reflexivity.
Defined.

(** ** The tools that read the history *)

Section HistoryFacts.
Context (extractOne : Matcher) (td : ToolsData).

Lemma collect_recommendations_spec (riskAssessments : list RiskAssessment)
    (change_type : string) (normalized : list string) :
  collect_recommendations riskAssessments change_type normalized
  = concat (map assessment_lines
              (List.filter (assessment_matches change_type normalized) riskAssessments)).
Proof.
  unfold collect_recommendations.
  assert (H : forall l acc,
            fold_left
              (fun historical_recs ra =>
                 if assessment_matches change_type normalized ra
                 then historical_recs ++ assessment_lines ra else historical_recs) l acc
            = acc ++ concat (map assessment_lines
                               (List.filter (assessment_matches change_type normalized) l))).
  { induction l as [|ra l IH]; intros acc; cbn [fold_left List.filter map concat].
    - now rewrite app_nil_r.
    - rewrite IH. destruct (assessment_matches change_type normalized ra);
        cbn [map concat]; [now rewrite app_assoc | reflexivity]. }
  apply (H riskAssessments []).
Qed.

(** X18. The recommendations returned are exactly the lines of the risk
    assessments that match the change type or a target: nothing else is
    returned, and no line of a matching assessment is left out. *)
Theorem recommendations_of_matching_assessments (riskAssessments : list RiskAssessment)
    (change_type : string) (target_systems : list string) (x : string) :
  x ∈ get_historical_recommendations extractOne td riskAssessments change_type target_systems
  <-> exists ra, In ra riskAssessments
        /\ assessment_matches change_type (normalize_all extractOne td target_systems) ra
           = true
        /\ In x (assessment_lines ra).
Proof.
  unfold get_historical_recommendations.
  rewrite elem_of_list_to_set, collect_recommendations_spec, list_elem_of_In, in_concat.
  split.
  - intros (lines & Hl & Hx). apply in_map_iff in Hl as (ra & <- & Hra).
    apply filter_In in Hra as [Hin Hm]. now exists ra.
  - intros (ra & Hin & Hm & Hx). exists (assessment_lines ra). split; [|exact Hx].
    apply in_map, filter_In. now split.
Qed.

Lemma contains_empty (s : string) : Py.contains "" s = true.
Proof. destruct s; reflexivity. Qed.

(** X19. An empty change type matches every risk assessment: the lines of
    all of them are returned, whatever the targets. *)
Theorem empty_change_type_matches_all (riskAssessments : list RiskAssessment)
    (target_systems : list string) :
  get_historical_recommendations extractOne td riskAssessments "" target_systems
  = list_to_set (concat (map assessment_lines riskAssessments)).
Proof.
  unfold get_historical_recommendations. rewrite collect_recommendations_spec.
  replace (List.filter _ riskAssessments) with riskAssessments; [reflexivity|].
  induction riskAssessments as [|ra l IH]; cbn [List.filter]; [reflexivity|].
  unfold assessment_matches at 1. cbn [Py.lower]. rewrite contains_empty, orb_true_r.
  cbn [orb]. now rewrite <- IH.
Qed.

Lemma normalize_all_falsy (target_systems : list string) :
  (forall s, In s target_systems -> Py.truthy s = false) ->
  normalize_all extractOne td target_systems = [].
Proof.
  intros H. unfold normalize_all.
  induction target_systems as [|s l IH]; [reflexivity|].
  rewrite filter_cons. rewrite (H s (or_introl eq_refl)).
  destruct (decide (Is_true false)) as [[]|_].
  apply IH. intros s' Hs'. apply H. now right.
Qed.

(** X20. With no non-empty target system, no past incident counts as
    related, even one whose category is the change type: the assessment is
    the one made with an empty incident history. *)
Theorem no_target_no_related_failure (historicalFailures : list HistoricalFailure)
    (base_risk : float) (change_type documentation_notes priority : string)
    (target_systems : list string) :
  (forall s, In s target_systems -> Py.truthy s = false) ->
  assess_technical_risk extractOne td historicalFailures base_risk change_type
    documentation_notes priority target_systems
  = assess_technical_risk extractOne td [] base_risk change_type
      documentation_notes priority target_systems.
Proof.
  intros H. unfold assess_technical_risk, technical_factors.
  rewrite (normalize_all_falsy _ H).
  replace (List.filter (failure_related change_type []) historicalFailures)
    with (@nil HistoricalFailure); [reflexivity|].
  induction historicalFailures as [|f l IH]; [reflexivity|].
  cbn [List.filter failure_related existsb orb]. exact IH.
Qed.

(** X21. The technical score is capped: whatever the notes, the priority and
    the number of related incidents, when the product of the base risk and
    the multiplier is at least 1.0 the score lies between 1.0 and 10.0. *)
Theorem technical_score_capped (historicalFailures : list HistoricalFailure)
    (base_risk : float) (change_type documentation_notes priority : string)
    (target_systems : list string) (multiplier : float) (factors : list string) :
  technical_factors extractOne td historicalFailures change_type documentation_notes
    priority target_systems = Py.Ok (multiplier, factors) ->
  (1.0 <=? base_risk * multiplier)%float = true ->
  exists r,
    assess_technical_risk extractOne td historicalFailures base_risk change_type
      documentation_notes priority target_systems = Py.Ok r
    /\ (1.0 <=? technical_risk_score r)%float = true
    /\ (technical_risk_score r <=? 10.0)%float = true.
Proof.
  intros Hf Hp. unfold assess_technical_risk. rewrite Hf. cbn [Py.bind fst snd].
  eexists. split; [reflexivity|]. cbn [technical_risk_score].
  unfold PyFloat.min. destruct (10.0 <? base_risk * multiplier)%float eqn:E.
  - split; vm_compute; reflexivity.
  - apply round1_range; [exact Hp|].
    rewrite leb_spec. rewrite ltb_spec in E. rewrite leb_spec in Hp.
    revert E Hp. unfold SFltb, SFleb.
    change (Prim2SF 10.0) with (S754_finite false 5629499534213120 (-49)).
    change (Prim2SF 1.0) with (S754_finite false 4503599627370496 (-52)).
    destruct (Prim2SF (base_risk * multiplier)) as [s|[|]| |[|] m e];
      cbn [SFcompare]; try discriminate.
    destruct (Z.compare_spec (-49) e), (Z.compare_spec e (-49)); try lia;
      try discriminate; try reflexivity.
    subst e. rewrite !Pos.compare_cont_spec. cbn [Pos.switch_Eq].
    rewrite (Pos.compare_antisym m 5629499534213120).
    destruct (Pos.compare m 5629499534213120); cbn; intros; congruence.
Qed.

End HistoryFacts.

Lemma no_target_no_related_failure_witness :
  assess_technical_risk extractOne_exact (startup_event scenario_dataset)
    [ {| failure_title := Some "Database outage";
         category := Some "Database";
         affectedServices := Some ["user-database"] |} ]
    4.5 "Database" "Add an index" "Low" [""; ""]
  = assess_technical_risk extractOne_exact (startup_event scenario_dataset) []
      4.5 "Database" "Add an index" "Low" [""; ""].
Proof.
  apply (no_target_no_related_failure extractOne_exact (startup_event scenario_dataset)).
  intros s [<-|[<-|[]]]; reflexivity.
Defined.

Lemma technical_score_capped_witness :
  exists r,
    assess_technical_risk extractOne_exact (startup_event scenario_dataset)
      [ {| failure_title := Some "user-database outage";
           category := Some "Database";
           affectedServices := Some ["user-database"] |};
        {| failure_title := Some "Login failures";
           category := Some "Security";
           affectedServices := Some ["auth-service"; "user-database"] |} ]
      7.0 "Database" "Database schema change, security review pending" "Critical"
      ["user-database"] = Py.Ok r
    /\ (1.0 <=? technical_risk_score r)%float = true
    /\ (technical_risk_score r <=? 10.0)%float = true.
Proof.
  eapply (technical_score_capped extractOne_exact (startup_event scenario_dataset)).
  - vm_compute. reflexivity.
  - vm_compute. reflexivity.
Defined.
